(** * Asset-cache image builder of [pack]: a shallow embedding

    The development follows [create_asset_cache.go] (package [pack]) and
    [internal/commands/create_asset_cache.go] (package [commands]).

    - Go values: [string] for Go strings, [list byte] for [[]byte],
      [gmap string _] for [map[string]_], [Z] for [int64].
    - Go control flow: a function that may [panic] is a state transformer
      over [World] returning a [Res]; a function that returns [error]
      returns [option error] ([None] is [nil]); [defer] is [with_defer].
    - Collaborators the package receives through interfaces (downloader,
      image factory, image, file system faults) and the library functions
      whose result depends on data outside the package are fields of the
      class [Env]. *)

From Stdlib Require Import ZArith NArith List String Ascii Lia Permutation Sorted.
From Stdlib.Strings Require Import Byte.
From stdpp Require Import base gmap strings list fin_maps sorting.
Import ListNotations.

Local Open Scope Z_scope.
Set Warnings "-clear-no-such-hyp".


(* ===================================================================== *)
(** ** crypto/sha256 and the [%x] verb *)
(* ===================================================================== *)

Module Sha256.

(** FIPS 180-4 on 32-bit words held in [Z], wrap-around written out. *)
Definition w32 (x : Z) : Z := x mod 2 ^ 32.
Definition add32 (x y : Z) : Z := w32 (x + y).
Definition not32 (x : Z) : Z := Z.lxor x 0xffffffff.
Definition rotr (n x : Z) : Z :=
  Z.lor (Z.shiftr x n) (w32 (Z.shiftl x (32 - n))).

Definition Ch (x y z : Z) : Z := Z.lxor (Z.land x y) (Z.land (not32 x) z).
Definition Maj (x y z : Z) : Z :=
  Z.lxor (Z.lxor (Z.land x y) (Z.land x z)) (Z.land y z).
Definition Sigma0 (x : Z) : Z := Z.lxor (Z.lxor (rotr 2 x) (rotr 13 x)) (rotr 22 x).
Definition Sigma1 (x : Z) : Z := Z.lxor (Z.lxor (rotr 6 x) (rotr 11 x)) (rotr 25 x).
Definition sigma0 (x : Z) : Z := Z.lxor (Z.lxor (rotr 7 x) (rotr 18 x)) (Z.shiftr x 3).
Definition sigma1 (x : Z) : Z := Z.lxor (Z.lxor (rotr 17 x) (rotr 19 x)) (Z.shiftr x 10).

(** The constants of FIPS 180-4, section 4.2.2 and 5.3.3, from their
    definition: the first 32 bits of the fractional parts of the cube
    roots (round constants) and of the square roots (initial hash value)
    of the first primes. *)
Definition is_prime (n : nat) : bool :=
  forallb (λ d, negb (Nat.eqb (n mod d) 0)) (seq 2 (n - 2)).

Definition primes : list Z :=
  Eval vm_compute in map Z.of_nat (filter is_prime (seq 2 310)).

(** The integer cube root, one bit at a time from bit [i - 1] down. *)
Fixpoint cbrt_bits (i : nat) (n r : Z) : Z :=
  match i with
  | O => r
  | S i' =>
      let r' := r + 2 ^ Z.of_nat i' in
      cbrt_bits i' n (if r' ^ 3 <=? n then r' else r)
  end.

Definition K : list Z :=
  Eval vm_compute in map (λ p, w32 (cbrt_bits 36 (p * 2 ^ 96) 0)) primes.

Definition H0 : list Z :=
  Eval vm_compute in map (λ p, w32 (Z.sqrt (p * 2 ^ 64))) (firstn 8 primes).

(** Big-endian packing of bytes into words and back. *)
Fixpoint words_of_bytes (l : list Z) : list Z :=
  match l with
  | a :: b :: c :: d :: r =>
      (a * 2 ^ 24 + b * 2 ^ 16 + c * 2 ^ 8 + d) :: words_of_bytes r
  | _ => []
  end.

Definition bytes_of_word (x : Z) : list Z :=
  [ Z.shiftr x 24 mod 256; Z.shiftr x 16 mod 256; Z.shiftr x 8 mod 256; x mod 256 ].

Definition be64 (x : Z) : list Z :=
  bytes_of_word (Z.shiftr x 32 mod 2 ^ 32) ++ bytes_of_word (x mod 2 ^ 32).

(** The message schedule, newest word first: [rev] of W_0 .. W_t. *)
Fixpoint schedule (n : nat) (rw : list Z) : list Z :=
  match n with
  | O => rw
  | S n' =>
      let wt :=
        add32 (add32 (sigma1 (nth 1 rw 0)) (nth 6 rw 0))
              (add32 (sigma0 (nth 14 rw 0)) (nth 15 rw 0)) in
      schedule n' (wt :: rw)
  end.

Record regs := Regs { ra : Z; rb : Z; rc : Z; rd : Z; re : Z; rf : Z; rg : Z; rh : Z }.

Definition round (s : regs) (kw : Z * Z) : regs :=
  let t1 := add32 (add32 (add32 (rh s) (Sigma1 (re s))) (Ch (re s) (rf s) (rg s)))
                  (add32 (fst kw) (snd kw)) in
  let t2 := add32 (Sigma0 (ra s)) (Maj (ra s) (rb s) (rc s)) in
  Regs (add32 t1 t2) (ra s) (rb s) (rc s) (add32 (rd s) t1) (re s) (rf s) (rg s).

Definition regs_of (h : list Z) : regs :=
  Regs (nth 0 h 0) (nth 1 h 0) (nth 2 h 0) (nth 3 h 0)
       (nth 4 h 0) (nth 5 h 0) (nth 6 h 0) (nth 7 h 0).

Definition compress (h : list Z) (block : list Z) : list Z :=
  let ws := rev (schedule 48 (rev (words_of_bytes block))) in
  let s := fold_left round (combine K ws) (regs_of h) in
  [ add32 (nth 0 h 0) (ra s); add32 (nth 1 h 0) (rb s);
    add32 (nth 2 h 0) (rc s); add32 (nth 3 h 0) (rd s);
    add32 (nth 4 h 0) (re s); add32 (nth 5 h 0) (rf s);
    add32 (nth 6 h 0) (rg s); add32 (nth 7 h 0) (rh s) ].

(** 0x80, zeros up to 56 mod 64, then the bit length on 8 bytes. *)
Definition padding (len : Z) : list Z :=
  128 :: repeat 0 (Z.to_nat ((55 - len) mod 64)) ++ be64 (8 * len).

Fixpoint blocks (fuel : nat) (l : list Z) : list (list Z) :=
  match fuel, l with
  | S fuel', _ :: _ => firstn 64 l :: blocks fuel' (skipn 64 l)
  | _, _ => []
  end.

Definition byteZ (b : byte) : Z := Z.of_N (Byte.to_N b).
Definition Zbyte (z : Z) : byte :=
  match Byte.of_N (Z.to_N z) with Some b => b | None => x00 end.

(** [sha256.Sum256]: the 32 digest bytes of a message. *)
Definition sum256 (msg : list byte) : list byte :=
  let m := map byteZ msg in
  let padded := m ++ padding (Z.of_nat (length m)) in
  let h := fold_left compress (blocks (length padded) padded) H0 in
  map Zbyte (concat (map bytes_of_word h)).

End Sha256.

Module Hex.

Definition digit (n : N) : ascii :=
  ascii_of_N (if (n <? 10)%N then 48 + n else 87 + n)%N.

(** [fmt.Sprintf("%x", b)] for a byte slice: two lower-case digits a byte. *)
Fixpoint encode (l : list byte) : string :=
  match l with
  | [] => EmptyString
  | b :: r =>
      let n := Byte.to_N b in
      String (digit (n / 16)%N) (String (digit (n mod 16)%N) (encode r))
  end.

(** The digits of lower-case hexadecimal. *)
Definition lower_hex (c : ascii) : Prop :=
  existsb (Ascii.eqb c) (list_ascii_of_string "0123456789abcdef") = true.

End Hex.

Definition bytes_of_string (s : string) : list byte := list_byte_of_string s.

Definition zeros (n : nat) : list byte := repeat x00 n.

(* ===================================================================== *)
(** ** path.Join and filepath.Join (Unix) *)
(* ===================================================================== *)

Module GoPath.

(** [strings.Split(s, "/")]: always at least one element. *)
Fixpoint split_slash (s : string) : list string :=
  match s with
  | EmptyString => [EmptyString]
  | String c r =>
      if Ascii.eqb c "/" then EmptyString :: split_slash r
      else match split_slash r with
           | h :: t => String c h :: t
           | [] => [String c EmptyString]
           end
  end.

Fixpoint join_slash (l : list string) : string :=
  match l with
  | [] => EmptyString
  | [e] => e
  | e :: r => e +:+ "/" +:+ join_slash r
  end.

(** The element stack of [path.Clean], innermost element first:
    empty and "." elements are dropped, ".." removes the element before
    it, is dropped at the root and is kept at the start of a relative
    path. *)
Fixpoint clean_elems (rooted : bool) (stack : list string) (elems : list string)
  : list string :=
  match elems with
  | [] => rev stack
  | e :: r =>
      if decide (e = "" ∨ e = ".") then clean_elems rooted stack r
      else if decide (e = "..") then
        match stack with
        | top :: below =>
            if decide (top = "..") then clean_elems rooted (e :: stack) r
            else clean_elems rooted below r
        | [] =>
            if rooted then clean_elems rooted [] r
            else clean_elems rooted [e] r
        end
      else clean_elems rooted (e :: stack) r
  end.

Definition Clean (p : string) : string :=
  if decide (p = "") then "."
  else
    let rooted := String.prefix "/" p in
    let out := join_slash (clean_elems rooted [] (split_slash p)) in
    if rooted then "/" +:+ out
    else if decide (out = "") then "." else out.

(** [path.Join]: leading empty elements are skipped, the rest is joined
    with "/" and cleaned; no non-empty element gives "". *)
Fixpoint Join (elem : list string) : string :=
  match elem with
  | [] => ""
  | e :: r => if decide (e = "") then Join r else Clean (join_slash elem)
  end.

End GoPath.

(* ===================================================================== *)
(** ** Errors, panics and the state monad of the package *)
(* ===================================================================== *)

(** A Go [error] is represented by its message. *)
Definition error := string.

(** The two ways a Go call ends: it returns, or it panics. *)
Inductive Res (A : Type) : Type :=
| Return (a : A)
| Panic (v : string).
Arguments Return {A} a.
Arguments Panic {A} v.

Definition M (St A : Type) : Type := St → Res A * St.

Definition ret {St A} (a : A) : M St A := λ s, (Return a, s).
Definition panic {St A} (v : string) : M St A := λ s, (Panic v, s).
Definition bind {St A B} (m : M St A) (k : A → M St B) : M St B :=
  λ s, match m s with
       | (Return a, s') => k a s'
       | (Panic v, s') => (Panic v, s')
       end.

(** The value a call returned, if it did. *)
Definition returned {A} (r : Res A) : option A :=
  match r with
  | Return a => Some a
  | Panic _ => None
  end.

Definition returns {A} (r : Res A) : bool :=
  match r with
  | Return _ => true
  | Panic _ => false
  end.

(** [defer f()]: [f] runs when the body is left, by return or by panic. *)
Definition with_defer {St A} (f : St → St) (body : M St A) : M St A :=
  λ s, let '(r, s') := body s in (r, f s').

Notation "'let*' x ':=' m 'in' k" := (bind m (λ x, k))
  (at level 10, x pattern, m at level 100, k at level 200, only parsing).

(* ===================================================================== *)
(** ** archive/tar: the writer *)
(* ===================================================================== *)

Module Tar.

(** The fields of [tar.Header] that [toDistTar] sets; every other field
    keeps its zero value. [ModTime] is in seconds since the Unix epoch. *)
Record Header := {
  Typeflag : ascii;
  Name : string;
  Mode : Z;
  Size : Z;
  ModTime : Z
}.

Definition TypeReg : ascii := "0".
Definition TypeDir : ascii := "5".

(** [isHeaderOnlyType]: link, symlink, char, block, dir, fifo. *)
Definition isHeaderOnlyType (flag : ascii) : bool :=
  bool_decide (flag ∈ ["1"; "2"; "3"; "4"; "5"; "6"]%char).

Definition blockSize : Z := 512.
(** [blockPadding]: bytes needed to reach the next block boundary. *)
Definition blockPadding (offset : Z) : Z := (- offset) mod blockSize.

Definition ErrWriteTooLong : error := "archive/tar: write too long".
Definition ErrWriteAfterClose : error := "archive/tar: write after close".
Definition ErrMissedWriting : error := "archive/tar: missed writing bytes".

(** [tw.pad], the bytes the current entry still expects ([tw.curr.nb])
    and the sticky error [tw.err]. *)
Record Writer := {
  pad : Z;
  nb : Z;
  err : option error
}.

(** [tar.NewWriter(w)]. *)
Definition NewWriter : Writer := {| pad := 0; nb := 0; err := None |}.

Section Writer.
(** The underlying [io.Writer] with its state, and the serialisation of
    a header as the block or blocks the library emits for it (USTAR,
    or PAX or GNU when USTAR cannot hold a field); [inl] when no format
    can hold it. *)
Context {S : Type}.
Variable w_Write : list byte → S → option error * S.
Variable headerBlocks : Header → error + list byte.

(** [Writer.Flush]: the padding of the entry just written. *)
Definition Flush (tw : Writer) (s : S) : option error * Writer * S :=
  match err tw with
  | Some e => (Some e, tw, s)
  | None =>
      if 0 <? nb tw then (Some ErrMissedWriting, tw, s)
      else
        match w_Write (zeros (Z.to_nat (pad tw))) s with
        | (Some e, s') => (Some e, {| pad := pad tw; nb := nb tw; err := Some e |}, s')
        | (None, s') => (None, {| pad := 0; nb := nb tw; err := None |}, s')
        end
  end.

(** [Writer.writeRawHeader]. *)
Definition writeRawHeader (blk : list byte) (size : Z) (flag : ascii)
           (tw : Writer) (s : S) : option error * Writer * S :=
  match Flush tw s with
  | (Some e, tw1, s1) => (Some e, tw1, s1)
  | (None, tw1, s1) =>
      match w_Write blk s1 with
      | (Some e, s2) => (Some e, tw1, s2)
      | (None, s2) =>
          let size := if isHeaderOnlyType flag then 0 else size in
          (None, {| pad := blockPadding size; nb := size; err := err tw1 |}, s2)
      end
  end.

(** [Writer.WriteHeader]: flush the previous entry, then emit the
    header; a failure of the emission becomes the sticky error, a
    header no format can hold does not. *)
Definition WriteHeader (hdr : Header) (tw : Writer) (s : S)
  : option error * Writer * S :=
  match Flush tw s with
  | (Some e, tw1, s1) => (Some e, tw1, s1)
  | (None, tw1, s1) =>
      match headerBlocks hdr with
      | inl e => (Some e, tw1, s1)
      | inr blk =>
          match writeRawHeader blk (Size hdr) (Typeflag hdr) tw1 s1 with
          | (Some e, tw2, s2) =>
              (Some e, {| pad := pad tw2; nb := nb tw2; err := Some e |}, s2)
          | (None, tw2, s2) => (None, tw2, s2)
          end
      end
  end.

(** [Writer.Write] through [regFileWriter.Write]: at most [nb]
    bytes are accepted, an empty slice does not reach [w]. *)
Definition Write (b : list byte) (tw : Writer) (s : S)
  : option error * Writer * S :=
  match err tw with
  | Some e => (Some e, tw, s)
  | None =>
      let overwrite := nb tw <? Z.of_nat (length b) in
      let b := if overwrite then take (Z.to_nat (nb tw)) b else b in
      match b with
      | [] =>
          if overwrite then (Some ErrWriteTooLong, tw, s) else (None, tw, s)
      | _ :: _ =>
          match w_Write b s with
          | (Some e, s') => (Some e, {| pad := pad tw; nb := nb tw; err := Some e |}, s')
          | (None, s') =>
              let tw' := {| pad := pad tw; nb := nb tw - Z.of_nat (length b); err := None |} in
              if overwrite then (Some ErrWriteTooLong, tw', s') else (None, tw', s')
          end
      end
  end.

(** [Writer.Close]: flush, then the two zero blocks of the trailer. *)
Definition Close (tw : Writer) (s : S) : option error * Writer * S :=
  match err tw with
  | Some e =>
      if decide (e = ErrWriteAfterClose) then (None, tw, s) else (Some e, tw, s)
  | None =>
      let closed t := {| pad := pad t; nb := nb t; err := Some ErrWriteAfterClose |} in
      match Flush tw s with
      | (Some e, tw1, s1) => (Some e, closed tw1, s1)
      | (None, tw1, s1) =>
          match w_Write (zeros 512) s1 with
          | (Some e, s2) => (Some e, closed tw1, s2)
          | (None, s2) =>
              match w_Write (zeros 512) s2 with
              | (e, s3) => (e, closed tw1, s3)
              end
          end
      end
  end.

End Writer.

End Tar.

(* ===================================================================== *)
(** ** internal/dist, internal/blob: the data the package works on *)
(* ===================================================================== *)

Module dist.

(** Modelled from the spec: [dist.Asset] is declared in [internal/dist],
    which is not among the sources at hand; the fields are those of
    section 3 of the spec, which are also the ones the package's test
    writes. *)
Record Asset := {
  ID : string;
  Name : string;
  Version : string;
  Sha256 : string;
  URI : string;
  Stacks : list string;
  LayerDiffID : string
}.

(** [asset.LayerDiffID = d] on the loop's copy of the asset. *)
Definition set_LayerDiffID (d : string) (a : Asset) : Asset :=
  {| ID := ID a; Name := Name a; Version := Version a; Sha256 := Sha256 a;
     URI := URI a; Stacks := Stacks a; LayerDiffID := d |}.

End dist.

Module blob.

(** Modelled from the spec: [blob.Blob] is an interface of
    [internal/blob] with the one method [Open]; a blob is what [Open]
    and the read of the whole reader give: the bytes, a failure to open,
    or a failure while reading. *)
Inductive Blob :=
| Bytes (data : list byte)
| OpenFails (e : error)
| ReadFails (e : error).

End blob.

(* ===================================================================== *)
(** ** The world outside the package *)
(* ===================================================================== *)

(** The file system: the directories and the regular files, by path. *)
Record FS := {
  dirs : gset string;
  files : gmap string (list byte)
}.

(** The image handed out by the image factory: each added layer with the
    bytes its file held when it was added, the labels, and whether the
    image was saved. *)
Record Image := {
  img_layers : list (string * list byte);
  img_labels : gmap string string;
  img_saved : bool
}.

(** The calls that leave the package, in the order they are made. *)
Inductive Event :=
| EvNewImage (name : string) (local : bool)
| EvDownload (uri : string)
| EvTempDir
| EvOpenFile (path : string)
| EvAddLayer (path : string)
| EvCloseFile (path : string)
| EvSetLabel (key value : string)
| EvSave
| EvRemoveAll (path : string).

Record World := {
  fs : FS;
  img : Image;
  trace : list Event
}.

Definition is_fetch (ev : Event) : bool :=
  match ev with EvDownload _ => true | _ => false end.
Definition is_attach (ev : Event) : bool :=
  match ev with EvAddLayer _ => true | _ => false end.

Definition add_event (e : Event) (w : World) : World :=
  {| fs := fs w; img := img w; trace := trace w ++ [e] |}.
Definition set_fs (f : FS) (w : World) : World :=
  {| fs := f; img := img w; trace := trace w |}.
Definition set_img (i : Image) (w : World) : World :=
  {| fs := fs w; img := i; trace := trace w |}.
Definition set_file (path : string) (content : list byte) (f : FS) : FS :=
  {| dirs := dirs f; files := <[path := content]> (files f) |}.

(** What the package does not decide: the answers of its collaborators
    and of the libraries whose code is outside the package. *)
Class Env := {
  (** [name.NewTag(s, name.WeakValidation)]: the error, or [tag.String()]. *)
  name_NewTag : string → error + string;
  (** The verb [%q] of [fmt] applied to an error. *)
  fmt_q : error → string;
  (** [archive.NormalizedDateTime] of [pkg/archive], in Unix seconds. *)
  NormalizedDateTime : Z;
  (** The header serialisation of [archive/tar]. *)
  tar_headerBlocks : Tar.Header → error + list byte;
  (** [encoding/json]: a string literal, and a [dist.Asset] value. *)
  json_string : string → string;
  json_Asset : dist.Asset → string;
  (** [c.imageFactory.NewImage]. *)
  NewImage_fault : string → bool → option error;
  (** [c.downloader.Download], by URI. *)
  downloader_Download : string → error + blob.Blob;
  (** [ioutil.TempDir("", "create-asset-scratch")]: the new directory. *)
  ioutil_TempDir : FS → error + string;
  (** Failures of [os.OpenFile], of a write to a file (with the count of
      bytes written before the failure) and of [Close]. *)
  OpenFile_fault : FS → string → option error;
  Write_fault : string → list byte → list byte → option (nat * error);
  Close_fault : string → option error;
  (** Failures of the image's [AddLayer], [SetLabel] and [Save]. *)
  AddLayer_fault : Image → string → list byte → option error;
  SetLabel_fault : Image → string → string → option error;
  Save_fault : Image → option error
}.

(* ===================================================================== *)
(** ** Package pack: create_asset_cache.go *)
(* ===================================================================== *)

Definition AssetLayersLabel : string := "io.buildpacks.asset.layers".
Definition AssetMetadataLabel : string := "io.buildpacks.asset.cache.metadata".

(** [type AssetMetadata map[string]dist.Asset] is written out as
    [gmap string dist.Asset] where it is used. *)

Record CreateAssetCacheOptions := {
  ImageName : string;
  Assets : list dist.Asset
}.

(** [AssetCacheImage]; the field [img] is the image of the [World]. *)
Record AssetCacheImage := {
  aci_Assets : list dist.Asset;
  aci_AssetMap : gmap string blob.Blob
}.

Definition NewAssetCacheImage (assetMap : gmap string blob.Blob)
           (assets : list dist.Asset) : AssetCacheImage :=
  {| aci_Assets := assets; aci_AssetMap := assetMap |}.

(** [errors.Wrapf(err, msg)]. *)
Definition errors_Wrapf (e : error) (msg : string) : error := msg +:+ ": " +:+ e.

(** [for _, x := range l { acc = body(acc, x) }] with a body that may panic. *)
Fixpoint for_range {St A B} (body : B → A → M St B) (l : list A) (acc : B) : M St B :=
  match l with
  | [] => ret acc
  | x :: r => let* acc' := body acc x in for_range body r acc'
  end.

(** Keys in the order of Go's [<] on strings (byte-wise). *)
Definition key_le {A} (x y : string * A) : Prop := String.leb (fst x) (fst y) = true.
Global Instance key_le_dec {A} (x y : string * A) : Decision (key_le x y).
Proof. unfold key_le. apply _. Defined.

Section Pack.
Context `{Env}.

(** *** The file, the hasher and [io.MultiWriter(dstTar, hash)] *)

Definition os_OpenFile (name : string) : M World (option error) := λ w,
  let w1 := add_event (EvOpenFile name) w in
  match OpenFile_fault (fs w) name with
  | Some e => (Return (Some e), w1)
  | None => (Return None, set_fs (set_file name [] (fs w)) w1)
  end.

Definition file_Write (name : string) (p : list byte) (w : World)
  : option error * World :=
  let old := default [] (files (fs w) !! name) in
  match Write_fault name old p with
  | Some (n, e) => (Some e, set_fs (set_file name (old ++ take n p) (fs w)) w)
  | None => (None, set_fs (set_file name (old ++ p) (fs w)) w)
  end.

Definition file_Close (name : string) : M World (option error) := λ w,
  (Return (Close_fault name), add_event (EvCloseFile name) w).

(** The state of the multi-writer: the world, which holds the file, and
    the bytes the hasher has been given. A failed write to the file
    ends the call before the hasher is reached. *)
Definition multi_Write (name : string) (p : list byte) (s : World * list byte)
  : option error * (World * list byte) :=
  match file_Write name p (fst s) with
  | (Some e, w') => (Some e, (w', snd s))
  | (None, w') => (None, (w', snd s ++ p))
  end.

(** [fmt.Sprintf("%s:%x", hashAlgo, hash.Sum(nil))]. *)
Definition diffID (hashAlgo : string) (hashed : list byte) : string :=
  hashAlgo +:+ ":" +:+ Hex.encode (Sha256.sum256 hashed).

(** *** The image *)

Definition imageFactory_NewImage (name : string) (local : bool)
  : M World (option error) := λ w,
  let w1 := add_event (EvNewImage name local) w in
  match NewImage_fault name local with
  | Some e => (Return (Some e), w1)
  | None =>
      (Return None,
       set_img {| img_layers := []; img_labels := ∅; img_saved := false |} w1)
  end.

Definition img_AddLayer (path : string) : M World (option error) := λ w,
  let w1 := add_event (EvAddLayer path) w in
  match files (fs w) !! path with
  | None => (Return (Some ("open " +:+ path +:+ ": no such file or directory")), w1)
  | Some content =>
      match AddLayer_fault (img w) path content with
      | Some e => (Return (Some e), w1)
      | None =>
          (Return None,
           set_img {| img_layers := img_layers (img w) ++ [(path, content)];
                      img_labels := img_labels (img w);
                      img_saved := img_saved (img w) |} w1)
      end
  end.

Definition img_SetLabel (key value : string) : M World (option error) := λ w,
  let w1 := add_event (EvSetLabel key value) w in
  match SetLabel_fault (img w) key value with
  | Some e => (Return (Some e), w1)
  | None =>
      (Return None,
       set_img {| img_layers := img_layers (img w);
                  img_labels := <[key := value]> (img_labels (img w));
                  img_saved := img_saved (img w) |} w1)
  end.

Definition img_Save : M World (option error) := λ w,
  let w1 := add_event EvSave w in
  match Save_fault (img w) with
  | Some e => (Return (Some e), w1)
  | None =>
      (Return None,
       set_img {| img_layers := img_layers (img w);
                  img_labels := img_labels (img w);
                  img_saved := true |} w1)
  end.

(** *** The working directory *)

Definition within (dir path : string) : Prop :=
  path = dir ∨ String.prefix (dir +:+ "/") path = true.

(** [os.RemoveAll(dir)] under [defer]: the directory and all it holds
    leave the file system. The directory is one the process has just
    made, and the removal is taken to succeed; the [defer] drops the
    error the call returns. *)
Definition os_RemoveAll (dir : string) (w : World) : World :=
  add_event (EvRemoveAll dir)
    (set_fs {| dirs := filter (λ p, ¬ within dir p) (dirs (fs w));
               files := filter (λ kv, ¬ within dir (fst kv)) (files (fs w)) |} w).

Definition mkdir (dir : string) (w : World) : World :=
  set_fs {| dirs := {[dir]} ∪ dirs (fs w); files := files (fs w) |} w.

(** *** toDistTar *)

(** The Go literal [0755]. *)
Definition mode_0755 : Z := 7 * 8 ^ 2 + 5 * 8 + 5.

Definition hdr_cnb : Tar.Header :=
  {| Tar.Typeflag := Tar.TypeDir; Tar.Name := GoPath.Join ["cnb"];
     Tar.Mode := mode_0755; Tar.Size := 0; Tar.ModTime := NormalizedDateTime |}.

Definition hdr_assets : Tar.Header :=
  {| Tar.Typeflag := Tar.TypeDir; Tar.Name := GoPath.Join ["cnb"; "assets"];
     Tar.Mode := mode_0755; Tar.Size := 0; Tar.ModTime := NormalizedDateTime |}.

Definition hdr_file (blobSha : string) (len : nat) : Tar.Header :=
  {| Tar.Typeflag := Tar.TypeReg;
     Tar.Name := GoPath.Join ["/cnb"; "assets"; blobSha];
     Tar.Mode := mode_0755; Tar.Size := Z.of_nat len;
     Tar.ModTime := NormalizedDateTime |}.

Section toDistTar.
Context {S : Type}.
Variable w_Write : list byte → S → option error * S.

Local Abbreviation tw_WriteHeader := (Tar.WriteHeader w_Write tar_headerBlocks).
Local Abbreviation tw_Write := (Tar.Write w_Write).

Definition toDistTar (blobSha : string) (b : blob.Blob)
  : M (Tar.Writer * S) (option error) := λ st,
  match tw_WriteHeader hdr_cnb (fst st) (snd st) with
  | (Some e, tw1, s1) =>
      (Return (Some (errors_Wrapf e "writing buildpack id dir header")), (tw1, s1))
  | (None, tw1, s1) =>
      match tw_WriteHeader hdr_assets tw1 s1 with
      | (Some e, tw2, s2) =>
          (Return (Some (errors_Wrapf e "writing buildpack version dir header")),
           (tw2, s2))
      | (None, tw2, s2) =>
          match b with
          | blob.OpenFails e => (Panic e, (tw2, s2))
          | blob.ReadFails e => (Panic e, (tw2, s2))
          | blob.Bytes buf =>
              match tw_WriteHeader (hdr_file blobSha (length buf)) tw2 s2 with
              | (Some e, tw3, s3) =>
                  (Return (Some (errors_Wrapf e "writing buildpack version dir header")),
                   (tw3, s3))
              | (None, tw3, s3) =>
                  match tw_Write buf tw3 s3 with
                  | (e, tw4, s4) => (Return e, (tw4, s4))
                  end
              end
          end
      end
  end.
End toDistTar.

(** *** AssetCacheImage.Save *)

(** [json.NewEncoder(buf).Encode(assetLabel)]: the object's members in
    the order of their keys, then a newline. A map of strings to structs
    of strings always encodes, so the call has no error case. *)
Definition json_member (kv : string * dist.Asset) : string :=
  json_string (fst kv) +:+ ":" +:+ json_Asset (snd kv).

Fixpoint json_members (l : list (string * dist.Asset)) : string :=
  match l with
  | [] => ""
  | [kv] => json_member kv
  | kv :: r => json_member kv +:+ "," +:+ json_members r
  end.

Definition json_Encode (m : gmap string dist.Asset) : string :=
  "{" +:+ json_members (merge_sort key_le (map_to_list m)) +:+ "}"
      +:+ String (ascii_of_nat 10) "".

(** One turn of the loop over [a.Assets]. The hasher for "sha256"
    always exists. The file stays open until [dstTar.Close()]; the
    deferred second [Close] of each file is a no-op on a closed file and
    is not part of the state. *)
Definition Save_body (a : AssetCacheImage) (tmpDir : string)
           (assetLabel : gmap string dist.Asset) (asset : dist.Asset)
  : M World (gmap string dist.Asset) :=
  match aci_AssetMap a !! dist.Sha256 asset with
  | None => panic "associated asset blob does not exist"
  | Some b =>
      let layerPath := GoPath.Join [tmpDir; dist.Sha256 asset] in
      let* err := os_OpenFile layerPath in
      match err with
      | Some e => panic e
      | None =>
          let hashAlgo := "sha256" in
          λ w,
          match toDistTar (multi_Write layerPath) (dist.Sha256 asset) b
                          (Tar.NewWriter, (w, [])) with
          | (Panic v, (_, (w', _))) => (Panic v, w')
          | (Return (Some e), (_, (w', _))) => (Panic e, w')
          | (Return None, (_, (w', hash))) =>
              (let* err := img_AddLayer layerPath in
               match err with
               | Some e => panic e
               | None =>
                   let* err := file_Close layerPath in
                   match err with
                   | Some e => panic e
                   | None =>
                       let asset' := dist.set_LayerDiffID (diffID hashAlgo hash) asset in
                       ret (<[dist.Sha256 asset := asset']> assetLabel)
                   end
               end) w'
          end
      end
  end.

Definition Save (a : AssetCacheImage) : M World (option error) := λ w,
  let w0 := add_event EvTempDir w in
  match ioutil_TempDir (fs w) with
  | inl e => (Panic e, w0)
  | inr tmpDir =>
      with_defer (os_RemoveAll tmpDir)
        (let* assetLabel := for_range (Save_body a tmpDir) (aci_Assets a) ∅ in
         let assetLabelBuf := json_Encode assetLabel in
         let* err := img_SetLabel AssetLayersLabel assetLabelBuf in
         match err with
         | Some e => panic e
         | None => img_Save
         end)
        (mkdir tmpDir w0)
  end.

(** *** downloadAssets, validateConfig, CreateAssetCache *)

Fixpoint downloadAssets_from (assets : list dist.Asset) (result : gmap string blob.Blob)
  : M World (error + gmap string blob.Blob) :=
  match assets with
  | [] => ret (inr result)
  | asset :: rest => λ w,
      let w1 := add_event (EvDownload (dist.URI asset)) w in
      match downloader_Download (dist.URI asset) with
      | inl e => (Return (inl e), w1)
      | inr b => downloadAssets_from rest (<[dist.Sha256 asset := b]> result) w1
      end
  end.

Definition downloadAssets (assets : list dist.Asset)
  : M World (error + gmap string blob.Blob) :=
  downloadAssets_from assets ∅.

Definition validateConfig (cfg : CreateAssetCacheOptions)
  : error + CreateAssetCacheOptions :=
  match name_NewTag (ImageName cfg) with
  | inl e => inl ("invalid asset cache image name: " +:+ fmt_q e)
  | inr tag => inr {| ImageName := tag; Assets := [] |}
  end.

Definition CreateAssetCache (opts : CreateAssetCacheOptions) : M World (option error) :=
  match validateConfig opts with
  | inl e => ret (Some e)
  | inr validOpts =>
      let* err := imageFactory_NewImage (ImageName validOpts) true in
      match err with
      | Some e => ret (Some ("unable to create asset cache image: " +:+ fmt_q e))
      | None =>
          let* r := downloadAssets (Assets opts) in
          match r with
          | inl e => panic e
          | inr assetMap => Save (NewAssetCacheImage assetMap (Assets opts))
          end
      end
  end.

End Pack.

(* ===================================================================== *)
(** ** Package commands: getAssets *)
(* ===================================================================== *)

Module commands.

(** Modelled from the spec: [pack.BuildpackInfo] is declared outside the
    sources at hand; [getAssets] reads from it the buildpacks and, of each
    buildpack, the assets. *)
Record Buildpack := { bp_Assets : list dist.Asset }.
Record BuildpackInfo := { Buildpacks : list Buildpack }.

(** The assets in the order the two nested loops visit them. *)
Definition all_assets (info : BuildpackInfo) : list dist.Asset :=
  concat (map bp_Assets (Buildpacks info)).

(** The two nested loops that fill [assetMap]: a later asset replaces an
    earlier one with the same [Sha256]. *)
Definition getAssets_assetMap (info : BuildpackInfo) : gmap string dist.Asset :=
  fold_left
    (λ m bp, fold_left (λ m asset, <[dist.Sha256 asset := asset]> m) (bp_Assets bp) m)
    (Buildpacks info) ∅.

(** The comparison handed to [sort.Slice]. *)
Definition less (a b : dist.Asset) : bool := String.ltb (dist.ID a) (dist.ID b).

(** [sort.Slice] leaves no element before one that is less than it. *)
Definition ID_sorted (l : list dist.Asset) : Prop :=
  StronglySorted (λ a b, less b a = false) l.

(** The range over [assetMap] visits its entries in an order Go does not
    fix, and [sort.Slice] is not stable: [getAssets] may return any
    arrangement of the map's values that is sorted by [ID]. *)
Definition getAssets_returns (info : BuildpackInfo) (result : list dist.Asset) : Prop :=
  result ≡ₚ (map_to_list (getAssets_assetMap info)).*2 ∧ ID_sorted result.

Definition ID_le (a b : dist.Asset) : Prop := less b a = false.
Global Instance ID_le_dec a b : Decision (ID_le a b).
Proof. unfold ID_le. apply _. Defined.

(** One run of [getAssets]: the entries as the map lists them, sorted. *)
Definition getAssets (info : BuildpackInfo) : list dist.Asset :=
  merge_sort ID_le (map_to_list (getAssets_assetMap info)).*2.

(** *** The command: flags, tryInspect, RunE *)

Module pubcfg.
(** Modelled from the spec: [pubcfg.PullPolicy] is declared in the
    package [config], outside the sources at hand; its three values are
    those the command switches on. *)
Inductive PullPolicy := PullAlways | PullNever | PullIfNotPresent.
End pubcfg.

Module pack.
(** Modelled from the spec: [pack.InspectBuildpackOptions] is declared
    outside the sources at hand; the fields are those the command sets. *)
Record InspectBuildpackOptions := {
  BuildpackName : string;
  Daemon : bool;
  Registry : string
}.
End pack.

Record CreateAssetCacheFlags := {
  BuildpackLocator : string;
  PullPolicy : pubcfg.PullPolicy;
  Publish : bool;
  Registry : string;
  Policy : string
}.

(** What the command receives from outside its file: the client's
    [InspectBuildpack] with the pair it returns, [pubcfg.ParsePullPolicy],
    the error [image.ErrNotFound] and the test [errors.Is(err,
    image.ErrNotFound)] on an error that is not [nil]. *)
Class Client := {
  InspectBuildpack : pack.InspectBuildpackOptions → option BuildpackInfo * option error;
  ParsePullPolicy : string → error + pubcfg.PullPolicy;
  ErrNotFound : error;
  Is_ErrNotFound : error → bool
}.

(** The calls of [InspectBuildpack] the command has made, in order, and
    the world the client's [CreateAssetCache] works in. *)
Record CmdWorld := {
  inspected : list pack.InspectBuildpackOptions;
  world : World
}.

Definition validateAssetCacheFlags (flags : CreateAssetCacheFlags) : option error :=
  if decide (BuildpackLocator flags = "")
  then Some "must specify a buildpack locator using the --buildpack flag"
  else None.

(** The options the [switch] on the pull policy builds. *)
Definition inspectOptions (flags : CreateAssetCacheFlags) (pullPolicy : pubcfg.PullPolicy)
  : list pack.InspectBuildpackOptions :=
  let opt daemon :=
    {| pack.BuildpackName := BuildpackLocator flags; pack.Daemon := daemon;
       pack.Registry := Registry flags |} in
  match pullPolicy with
  | pubcfg.PullNever => [opt true]
  | pubcfg.PullAlways => [opt false; opt true]
  | pubcfg.PullIfNotPresent => [opt true; opt false]
  end.

Section Command.
Context `{Env} `{Client}.

Definition record_inspect (o : pack.InspectBuildpackOptions) (s : CmdWorld) : CmdWorld :=
  {| inspected := inspected s ++ [o]; world := world s |}.

(** [tryInspect]: the first inspection that does not end in
    [image.ErrNotFound] decides. *)
Fixpoint tryInspect (inspectOptions : list pack.InspectBuildpackOptions) (s : CmdWorld)
  : (option BuildpackInfo * option error) * CmdWorld :=
  match inspectOptions with
  | [] => ((None, Some ErrNotFound), s)
  | inspectOption :: rest =>
      let s1 := record_inspect inspectOption s in
      match InspectBuildpack inspectOption with
      | (buildpackInfo, Some err) =>
          if Is_ErrNotFound err then tryInspect rest s1
          else ((None, Some err), s1)
      | (buildpackInfo, None) => ((buildpackInfo, None), s1)
      end
  end.

(** The function handed to [logError] as [RunE], for the one argument
    [cobra.ExactArgs(1)] lets in. [getAssets] may return any of several
    lists; [getAssets_run] is the one it returns in this run. *)
Variable getAssets_run : BuildpackInfo → list dist.Asset.

Definition RunE (flags : CreateAssetCacheFlags) (arg0 : string)
  : M CmdWorld (option error) := λ s,
  match validateAssetCacheFlags flags with
  | Some err => (Return (Some err), s)
  | None =>
      match ParsePullPolicy (Policy flags) with
      | inl err => (Panic err, s)
      | inr pullPolicy =>
          match tryInspect (inspectOptions flags pullPolicy) s with
          | ((_, Some err), s1) => (Panic err, s1)
          | ((None, None), s1) => (Panic "no image found", s1)
          | ((Some buildpackInfo, None), s1) =>
              match CreateAssetCache
                      {| ImageName := arg0; Assets := getAssets_run buildpackInfo |}
                      (world s1) with
              | (Return (Some err), w') =>
                  (Panic err, {| inspected := inspected s1; world := w' |})
              | (Return None, w') =>
                  (Return None, {| inspected := inspected s1; world := w' |})
              | (Panic v, w') =>
                  (Panic v, {| inspected := inspected s1; world := w' |})
              end
          end
      end
  end.

End Command.

End commands.

(* ===================================================================== *)
(** ** archive/tar: the USTAR header block *)
(* ===================================================================== *)

Module Ustar.

(** [strconv.FormatInt(x, 8)] for [0 <= x]. *)
Fixpoint octal_digits (fuel : nat) (x : Z) (acc : string) : string :=
  match fuel with
  | O => acc
  | S fuel' =>
      let acc' := String (ascii_of_N (48 + Z.to_N (x mod 8))) acc in
      if x / 8 =? 0 then acc' else octal_digits fuel' (x / 8) acc'
  end.
Definition FormatInt8 (x : Z) : string := octal_digits 64 x "".

(** [formatter.formatString]: the string, NUL-filled to the field. *)
Definition formatString (width : nat) (s : string) : list byte :=
  let b := bytes_of_string s in b ++ zeros (width - length b).

(** [formatter.formatOctal]: zero-filled octal digits, then a NUL. *)
Definition formatOctal (width : nat) (x : Z) : list byte :=
  let s := FormatInt8 x in
  formatString width
    (string_of_list_byte (repeat x30 (width - String.length s - 1)) +:+ s).

Definition fitsInOctal (width : nat) (x : Z) : bool :=
  (0 <=? x) && (x <? 8 ^ (Z.of_nat width - 1)).

Definition isASCII (s : string) : bool :=
  forallb (λ b, (0 <? Sha256.byteZ b) && (Sha256.byteZ b <? 128)) (bytes_of_string s).

(** The 512 bytes of a header block with the given checksum field; the
    fields of [tar.Header] the package leaves unset are written with
    their zero values. *)
Definition block (hdr : Tar.Header) (chksum : list byte) : list byte :=
  formatString 100 (Tar.Name hdr) ++ formatOctal 8 (Tar.Mode hdr)
  ++ formatOctal 8 0 ++ formatOctal 8 0
  ++ formatOctal 12 (Tar.Size hdr) ++ formatOctal 12 (Tar.ModTime hdr)
  ++ chksum ++ [byte_of_ascii (Tar.Typeflag hdr)]
  ++ formatString 100 "" ++ formatString 6 "ustar" ++ bytes_of_string "00"
  ++ formatString 32 "" ++ formatString 32 ""
  ++ formatOctal 8 0 ++ formatOctal 8 0
  ++ formatString 155 "" ++ zeros 12.

(** [block.ComputeChecksum], unsigned: the bytes of the block summed with
    the checksum field read as spaces. *)
Definition checksum (hdr : Tar.Header) : Z :=
  fold_left Z.add (map Sha256.byteZ (block hdr (repeat x20 8))) 0.

(** The USTAR case of [Writer.WriteHeader]. A header that USTAR cannot
    hold as it is (a name over 100 bytes or not ASCII, a number too wide)
    is written by the library in another format; this function answers
    such a header with an error instead. *)
Definition headerBlocks (hdr : Tar.Header) : error + list byte :=
  if (String.length (Tar.Name hdr) <=? 100)%nat && isASCII (Tar.Name hdr)
     && fitsInOctal 8 (Tar.Mode hdr) && fitsInOctal 12 (Tar.Size hdr)
     && fitsInOctal 12 (Tar.ModTime hdr)
  then inr (block hdr (formatOctal 7 (checksum hdr) ++ [x20]))
  else inl "archive/tar: header outside the USTAR case".

End Ustar.

(* ===================================================================== *)
(** ** A closed environment: the collaborators of the package's test *)
(* ===================================================================== *)

Module TestEnv.

Definition dquote : string := String (ascii_of_nat 34) "".
Definition quoted (s : string) : string := dquote +:+ s +:+ dquote.

(** A stand-in for [name.NewTag]: a name made of the characters of a
    repository name is accepted and completed with the default registry,
    namespace and tag; any other name is refused. *)
Definition repositoryChars : string := "abcdefghijklmnopqrstuvwxyz0123456789_-./".
Definition inChars (chars : string) (c : ascii) : bool :=
  existsb (Ascii.eqb c) (list_ascii_of_string chars).
Definition NewTag (s : string) : error + string :=
  if negb (String.eqb s "") && forallb (inChars repositoryChars) (list_ascii_of_string s)
  then inr ("index.docker.io/library/" +:+ s +:+ ":latest")
  else inl ("repository can only contain the runes `" +:+ repositoryChars +:+ "`: " +:+ s).

Fixpoint json_strings (l : list string) : string :=
  match l with
  | [] => ""
  | [s] => quoted s
  | s :: r => quoted s +:+ "," +:+ json_strings r
  end.

(** The object [encoding/json] writes for a struct without field tags,
    for strings that need no escape. *)
Definition marshalAsset (a : dist.Asset) : string :=
  "{" +:+ quoted "ID" +:+ ":" +:+ quoted (dist.ID a)
  +:+ "," +:+ quoted "Name" +:+ ":" +:+ quoted (dist.Name a)
  +:+ "," +:+ quoted "Version" +:+ ":" +:+ quoted (dist.Version a)
  +:+ "," +:+ quoted "Sha256" +:+ ":" +:+ quoted (dist.Sha256 a)
  +:+ "," +:+ quoted "URI" +:+ ":" +:+ quoted (dist.URI a)
  +:+ "," +:+ quoted "Stacks" +:+ ":[" +:+ json_strings (dist.Stacks a) +:+ "]"
  +:+ "," +:+ quoted "LayerDiffID" +:+ ":" +:+ quoted (dist.LayerDiffID a)
  +:+ "}".

(** The instant [pkg/archive] normalises to: 1980-01-01 00:00:01 UTC. *)
Definition normalized : Z := 315532801.

Definition tmpDir : string := "/tmp/create-asset-scratch042".

(** An environment without faults around a given downloader. *)
Definition env (download : string → error + blob.Blob) : Env := {|
  name_NewTag := NewTag;
  fmt_q := quoted;
  NormalizedDateTime := normalized;
  tar_headerBlocks := Ustar.headerBlocks;
  json_string := quoted;
  json_Asset := marshalAsset;
  NewImage_fault := λ _ _, None;
  downloader_Download := download;
  ioutil_TempDir := λ _, inr tmpDir;
  OpenFile_fault := λ _ _, None;
  Write_fault := λ _ _ _, None;
  Close_fault := λ _, None;
  AddLayer_fault := λ _ _ _, None;
  SetLabel_fault := λ _ _ _, None;
  Save_fault := λ _, None
|}.

Definition world0 : World := {|
  fs := {| dirs := {["/tmp"]}; files := ∅ |};
  img := {| img_layers := []; img_labels := ∅; img_saved := false |};
  trace := []
|}.

Definition nl : string := String (ascii_of_nat 10) "".

(** The test of the package: both blobs are opened from the one path
    [firstAssetBlob], which holds the contents written last. *)
Definition secondContents : list byte :=
  bytes_of_string (nl +:+ "second-asset-blob-contents." +:+ nl).

Definition download (uri : string) : error + blob.Blob :=
  if decide (uri = "https://first-asset-uri") then inr (blob.Bytes secondContents)
  else if decide (uri = "https://second-asset-uri") then inr (blob.Bytes secondContents)
  else inl ("unexpected call to Download: " +:+ uri).

Definition firstAsset : dist.Asset := {|
  dist.ID := "first-asset"; dist.Name := "First Asset"; dist.Version := "1.2.3";
  dist.Sha256 := "first-sha256"; dist.URI := "https://first-asset-uri";
  dist.Stacks := ["io.buildpacks.stacks.bionic"]; dist.LayerDiffID := "" |}.

Definition secondAsset : dist.Asset := {|
  dist.ID := "second-asset"; dist.Name := "Second Asset"; dist.Version := "4.5.6";
  dist.Sha256 := "second-sha256"; dist.URI := "https://second-asset-uri";
  dist.Stacks := ["io.buildpacks.stacks.bionic"]; dist.LayerDiffID := "" |}.

Definition opts : CreateAssetCacheOptions :=
  {| ImageName := "test-cache-image"; Assets := [firstAsset; secondAsset] |}.

(** The environment of the test and the build the test runs. *)
Definition E : Env := env download.
Abbreviation run := (@CreateAssetCache E opts world0).

(** Two records with one [Sha256] and one [URI] but unlike names, in the
    two orders. *)
Definition renamedAsset : dist.Asset := {|
  dist.ID := "first-asset"; dist.Name := "Renamed Asset"; dist.Version := "1.2.3";
  dist.Sha256 := "first-sha256"; dist.URI := "https://first-asset-uri";
  dist.Stacks := ["io.buildpacks.stacks.bionic"]; dist.LayerDiffID := "" |}.
Definition opts_ab : CreateAssetCacheOptions :=
  {| ImageName := "test-cache-image"; Assets := [firstAsset; renamedAsset] |}.
Definition opts_ba : CreateAssetCacheOptions :=
  {| ImageName := "test-cache-image"; Assets := [renamedAsset; firstAsset] |}.
Abbreviation run_ab := (@CreateAssetCache E opts_ab world0).
Abbreviation run_ba := (@CreateAssetCache E opts_ba world0).

(** Buildpacks that list the first hash twice, as [getAssets] reads
    them, and a list [getAssets] may return for them. *)
Definition info : commands.BuildpackInfo :=
  {| commands.Buildpacks :=
       [ {| commands.bp_Assets := [secondAsset; firstAsset] |};
         {| commands.bp_Assets := [renamedAsset] |} ] |}.
Definition opts_info : CreateAssetCacheOptions :=
  {| ImageName := "test-cache-image"; Assets := [renamedAsset; secondAsset] |}.
Abbreviation run_info := (@CreateAssetCache E opts_info world0).

(** The list of the test in the other order. *)
Definition opts_swapped : CreateAssetCacheOptions :=
  {| ImageName := "test-cache-image"; Assets := [secondAsset; firstAsset] |}.
Abbreviation run_swapped := (@CreateAssetCache E opts_swapped world0).

(** The build of the test with a downloader that reaches only the first
    asset. *)
Definition download_first_only (uri : string) : error + blob.Blob :=
  if decide (uri = "https://first-asset-uri") then inr (blob.Bytes secondContents)
  else inl "connection refused".
Definition E_unreachable : Env := env download_first_only.
Abbreviation run_unreachable := (@CreateAssetCache E_unreachable opts world0).

(** The same build with an image that refuses its second layer. *)
Definition E_refusing : Env := {|
  name_NewTag := NewTag;
  fmt_q := quoted;
  NormalizedDateTime := normalized;
  tar_headerBlocks := Ustar.headerBlocks;
  json_string := quoted;
  json_Asset := marshalAsset;
  NewImage_fault := λ _ _, None;
  downloader_Download := download;
  ioutil_TempDir := λ _, inr tmpDir;
  OpenFile_fault := λ _ _, None;
  Write_fault := λ _ _ _, None;
  Close_fault := λ _, None;
  AddLayer_fault := λ i _ _,
    match img_layers i with
    | [] => None
    | _ :: _ => Some "layer refused"
    end;
  SetLabel_fault := λ _ _ _, None;
  Save_fault := λ _, None
|}.
Abbreviation run_refusing := (@CreateAssetCache E_refusing opts world0).

(** A world in which a layer file has just been opened, and a pack of
    the first asset into it. *)
Definition layerPath : string := "/tmp/create-asset-scratch042/first-sha256".
Definition world_open : World :=
  set_fs (set_file layerPath [] (fs world0)) world0.
Abbreviation pack_first :=
  (@toDistTar E _ (@multi_Write E layerPath) "first-sha256" (blob.Bytes secondContents)
     (Tar.NewWriter, (world_open, []))).

(** Two turns of the loop of [Save] on the first asset, in unlike worlds. *)
Definition image1 : AssetCacheImage :=
  NewAssetCacheImage {[ "first-sha256" := blob.Bytes secondContents ]} [firstAsset].
Abbreviation body1 := (@Save_body E image1 tmpDir ∅ firstAsset world0).
Abbreviation body2 :=
  (@Save_body E image1 "/var/tmp/scratch7" {[ "second-sha256" := secondAsset ]}
     firstAsset (snd run)).

(** A client for the command: the daemon has no image of the buildpack,
    the registry has the buildpacks of [info]. *)
Definition client : commands.Client := {|
  commands.InspectBuildpack := λ o,
    if commands.pack.Daemon o
    then (None, Some "inspecting buildpack: image not found")
    else (Some info, None);
  commands.ParsePullPolicy := λ s,
    if decide (s = "always") then inr commands.pubcfg.PullAlways
    else if decide (s = "never") then inr commands.pubcfg.PullNever
    else if decide (s = "if-not-present") then inr commands.pubcfg.PullIfNotPresent
    else if decide (s = "") then inr commands.pubcfg.PullAlways
    else inl ("invalid pull policy " +:+ s);
  commands.ErrNotFound := "image not found";
  commands.Is_ErrNotFound := λ e,
    bool_decide (e = "image not found" ∨ e = "inspecting buildpack: image not found")
|}.

Definition flags : commands.CreateAssetCacheFlags := {|
  commands.BuildpackLocator := "example/buildpack";
  commands.PullPolicy := commands.pubcfg.PullAlways;
  commands.Publish := false;
  commands.Registry := "official";
  commands.Policy := "if-not-present"
|}.


Definition cmd0 : commands.CmdWorld :=
  {| commands.inspected := []; commands.world := world0 |}.

Abbreviation run_command :=
  (@commands.RunE E client commands.getAssets flags "test-cache-image" cmd0).

(** The build of the test with an image factory that refuses. *)
Definition E_no_image : Env := {|
  name_NewTag := NewTag;
  fmt_q := quoted;
  NormalizedDateTime := normalized;
  tar_headerBlocks := Ustar.headerBlocks;
  json_string := quoted;
  json_Asset := marshalAsset;
  NewImage_fault := λ _ _, Some "cannot connect to the daemon";
  downloader_Download := download;
  ioutil_TempDir := λ _, inr tmpDir;
  OpenFile_fault := λ _ _, None;
  Write_fault := λ _ _ _, None;
  Close_fault := λ _, None;
  AddLayer_fault := λ _ _ _, None;
  SetLabel_fault := λ _ _ _, None;
  Save_fault := λ _, None
|}.

(** Two assets with one [ID] and unlike hashes, of one buildpack, and
    the two lists [getAssets] may return for it. *)
Definition twinAsset : dist.Asset := {|
  dist.ID := "first-asset"; dist.Name := "First Asset"; dist.Version := "1.2.4";
  dist.Sha256 := "twin-sha256"; dist.URI := "https://second-asset-uri";
  dist.Stacks := ["io.buildpacks.stacks.bionic"]; dist.LayerDiffID := "" |}.
Definition info_twins : commands.BuildpackInfo :=
  {| commands.Buildpacks := [ {| commands.bp_Assets := [firstAsset; twinAsset] |} ] |}.
Abbreviation run_twins_ab :=
  (@CreateAssetCache E {| ImageName := "test-cache-image";
                          Assets := [firstAsset; twinAsset] |} world0).
Abbreviation run_twins_ba :=
  (@CreateAssetCache E {| ImageName := "other-cache-image";
                          Assets := [twinAsset; firstAsset] |} world0).

(** A hash too long for the name field of a USTAR header. *)
Definition long_hash : string :=
  "0123456789abcdef0123456789abcdef0123456789abcdef0123456789abcdef"
  +:+ "0123456789abcdef0123456789abcdef0123456789abcdef0123456789abcdef".

End TestEnv.

(* ===================================================================== *)
(** ** What a successful pack writes: vocabulary of the statements *)
(* ===================================================================== *)

Section Expected.
Context `{Env}.

(** The block or blocks of a header the library can serialise. *)
Definition header_bytes (h : Tar.Header) : list byte :=
  match tar_headerBlocks h with
  | inr blk => blk
  | inl _ => []
  end.

(** The library can serialise the header. *)
Definition encodable (h : Tar.Header) : Prop :=
  tar_headerBlocks h = inr (header_bytes h).

(** The three headers in the order [toDistTar] writes them, then the data. *)
Definition layer_stream (blobSha : string) (buf : list byte) : list byte :=
  header_bytes hdr_cnb ++ header_bytes hdr_assets
  ++ header_bytes (hdr_file blobSha (length buf)) ++ buf.

Definition blob_bytes (b : option blob.Blob) : list byte :=
  match b with
  | Some (blob.Bytes data) => data
  | _ => []
  end.

(** The stream of the layer of an asset, from the downloaded blobs. *)
Definition asset_stream (assetMap : gmap string blob.Blob) (asset : dist.Asset)
  : list byte :=
  layer_stream (dist.Sha256 asset) (blob_bytes (assetMap !! dist.Sha256 asset)).

(** The asset as it enters the label. *)
Definition labelled (assetMap : gmap string blob.Blob) (asset : dist.Asset)
  : dist.Asset :=
  dist.set_LayerDiffID
    ("sha256:" +:+ Hex.encode (Sha256.sum256 (asset_stream assetMap asset))) asset.

Definition layer_of (tmpDir : string) (assetMap : gmap string blob.Blob)
           (asset : dist.Asset) : string * list byte :=
  (GoPath.Join [tmpDir; dist.Sha256 asset], asset_stream assetMap asset).

Definition events_of (tmpDir : string) (asset : dist.Asset) : list Event :=
  let p := GoPath.Join [tmpDir; dist.Sha256 asset] in
  [EvOpenFile p; EvAddLayer p; EvCloseFile p].

(** The label map after the loop over a list of assets. *)
Definition label_of (assetMap : gmap string blob.Blob) (assets : list dist.Asset)
           (m : gmap string dist.Asset) : gmap string dist.Asset :=
  fold_left (λ m asset, <[dist.Sha256 asset := labelled assetMap asset]> m) assets m.

(** The blobs after the loop of [downloadAssets]. *)
Definition blobs_of (assets : list dist.Asset) (m : gmap string blob.Blob)
  : gmap string blob.Blob :=
  fold_left
    (λ m asset,
       match downloader_Download (dist.URI asset) with
       | inr b => <[dist.Sha256 asset := b]> m
       | inl _ => m
       end) assets m.

End Expected.

(** The asset can be packed and the stream of its layer. *)
Section Packable.
Context `{Env}.

(** The asset can be packed: its blob was downloaded and reads to the
    end, and the library can serialise the three headers. *)
Definition packable (assetMap : gmap string blob.Blob) (asset : dist.Asset) : Prop :=
  ∃ buf,
    assetMap !! dist.Sha256 asset = Some (blob.Bytes buf)
    ∧ encodable hdr_cnb ∧ encodable hdr_assets
    ∧ encodable (hdr_file (dist.Sha256 asset) (length buf)).

Definition add_layer (layer : string * list byte) (i : Image) : Image :=
  {| img_layers := img_layers i ++ [layer]; img_labels := img_labels i;
     img_saved := img_saved i |}.

(** The stream of a packable asset is made of the three serialised
    headers and the bytes of its blob. *)
Definition is_tar_stream (blobSha : string) (buf stream : list byte) : Prop :=
  ∃ b1 b2 b3,
    tar_headerBlocks hdr_cnb = inr b1
    ∧ tar_headerBlocks hdr_assets = inr b2
    ∧ tar_headerBlocks (hdr_file blobSha (length buf)) = inr b3
    ∧ stream = b1 ++ b2 ++ b3 ++ buf.

(** Nothing of the directory is left in the file system. *)
Definition removed (dir : string) (f : FS) : Prop :=
  ∀ p, within dir p → (p ∉ dirs f) ∧ files f !! p = None.

(** The blob a fetch of the asset gives. *)
Definition fetched (asset : dist.Asset) : blob.Blob :=
  match downloader_Download (dist.URI asset) with
  | inr b => b
  | inl e => blob.OpenFails e
  end.

(** The ways one turn of the loop of [Save] fails: the blob is missing,
    the layer file cannot be opened, [toDistTar] returns an error (a
    header or a write) or panics (the blob cannot be opened or read),
    the image refuses the layer, or the file cannot be closed. *)
Inductive pack_failure (assetMap : gmap string blob.Blob) (tmpDir : string)
          (asset : dist.Asset) (v : string) : Prop :=
| blob_missing :
    assetMap !! dist.Sha256 asset = None →
    v = "associated asset blob does not exist" →
    pack_failure assetMap tmpDir asset v
| open_failed (f : FS) :
    OpenFile_fault f (GoPath.Join [tmpDir; dist.Sha256 asset]) = Some v →
    pack_failure assetMap tmpDir asset v
| tar_failed (b : blob.Blob) (st st' : Tar.Writer * (World * list byte)) :
    assetMap !! dist.Sha256 asset = Some b →
    toDistTar (multi_Write (GoPath.Join [tmpDir; dist.Sha256 asset]))
              (dist.Sha256 asset) b st = (Return (Some v), st') →
    pack_failure assetMap tmpDir asset v
| blob_failed (b : blob.Blob) (st st' : Tar.Writer * (World * list byte)) :
    assetMap !! dist.Sha256 asset = Some b →
    toDistTar (multi_Write (GoPath.Join [tmpDir; dist.Sha256 asset]))
              (dist.Sha256 asset) b st = (Panic v, st') →
    pack_failure assetMap tmpDir asset v
| attach_failed (i : Image) (content : list byte) :
    AddLayer_fault i (GoPath.Join [tmpDir; dist.Sha256 asset]) content = Some v →
    pack_failure assetMap tmpDir asset v
| close_failed :
    Close_fault (GoPath.Join [tmpDir; dist.Sha256 asset]) = Some v →
    pack_failure assetMap tmpDir asset v.

(** The events of a stretch of a run, none of which is the image's [Save]. *)
Definition extends_without_Save (w w' : World) : Prop :=
  ∃ evs, trace w' = trace w ++ evs ∧ Forall (λ ev, ev ≠ EvSave) evs.

End Packable.

Section Writes.
Context {S : Type}.
Variable w_Write : list byte → S → option error * S.

(** A run of writes to the underlying writer, none of which fails. *)
Inductive writes : list (list byte) → S → S → Prop :=
| writes_nil s : writes [] s s
| writes_cons c cs s s1 s2 :
    w_Write c s = (None, s1) → writes cs s1 s2 → writes (c :: cs) s s2.

End Writes.

(** A path that [path.Clean] leaves as it is when it follows a directory:
    each of its elements between slashes is a name, that is, not empty
    and not "." or "..". A hex digest is such a path, of one element. *)
Definition is_name (e : string) : Prop := e ≠ "" ∧ e ≠ "." ∧ e ≠ "..".
Definition clean_path (s : string) : Prop := Forall is_name (GoPath.split_slash s).

Section InsertLoop.
Context {V : Type} (val : dist.Asset → V).

(** The map a loop of [m[asset.Sha256] = val(asset)] builds. *)
Definition insert_loop (l : list dist.Asset) (m : gmap string V) : gmap string V :=
  fold_left (λ m asset, <[dist.Sha256 asset := val asset]> m) l m.

End InsertLoop.

(** Assets with the same [Sha256] are the same record. *)
Definition one_record_per_hash (l : list dist.Asset) : Prop :=
  ∀ a b, a ∈ l → b ∈ l → dist.Sha256 a = dist.Sha256 b → a = b.


Section Faults.
Context `{Env}.

(** No file operation fails: opening, writing, closing. *)
Definition no_file_faults : Prop :=
  (∀ f p, OpenFile_fault f p = None)
  ∧ (∀ p old c, Write_fault p old c = None)
  ∧ (∀ p, Close_fault p = None).

(** The image refuses none of its three operations. *)
Definition no_image_faults : Prop :=
  (∀ i p c, AddLayer_fault i p c = None)
  ∧ (∀ i k v, SetLabel_fault i k v = None)
  ∧ (∀ i, Save_fault i = None).

(** The fetch of the asset gives a blob. *)
Definition fetchable (asset : dist.Asset) : Prop :=
  ∃ b, downloader_Download (dist.URI asset) = inr b.

(** The fetch gives a blob that opens and reads to its end, and the
    library can serialise the headers of the layer. *)
Definition fetch_packable (asset : dist.Asset) : Prop :=
  ∃ buf,
    downloader_Download (dist.URI asset) = inr (blob.Bytes buf)
    ∧ encodable hdr_cnb ∧ encodable hdr_assets
    ∧ encodable (hdr_file (dist.Sha256 asset) (length buf)).

End Faults.

(** The last asset of the list with the given [Sha256]. *)
Definition last_with_hash (sha : string) (l : list dist.Asset) : option dist.Asset :=
  last (filter (λ asset, dist.Sha256 asset = sha) l).

(** An absolute path that [path.Clean] leaves as it is: a slash, then
    names between slashes. *)
Definition clean_absolute (dir : string) : Prop :=
  ∃ p, dir = "/" +:+ p ∧ clean_path p.

(** The inspection with these options ends in an error that is
    [image.ErrNotFound]: [tryInspect] goes on to the next options. *)
Definition not_found `{commands.Client} (o : commands.pack.InspectBuildpackOptions) : bool :=
  match commands.InspectBuildpack o with
  | (_, Some err) => commands.Is_ErrNotFound err
  | (_, None) => false
  end.

(** The options of one inspection of the buildpack the flags name. *)
Definition inspect_option (flags : commands.CreateAssetCacheFlags) (daemon : bool)
  : commands.pack.InspectBuildpackOptions :=
  {| commands.pack.BuildpackName := commands.BuildpackLocator flags;
     commands.pack.Daemon := daemon;
     commands.pack.Registry := commands.Registry flags |}.

(* ===================================================================== *)
(** ** How a build ends: the first failure, from the collaborators' answers *)
(* ===================================================================== *)

Section FirstFailure.
Context `{Env}.

(** What [toDistTar] asks of the world, step by step: a write to the
    layer file (through the multi-writer), the serialisation of a
    header, and the opening and reading of the blob. *)
Inductive tar_step :=
| step_write (c : list byte)
| step_header (hdr : Tar.Header)
| step_blob.

(** [tw.WriteHeader]: [Flush] writes the padding of the entry before,
    here none; the header is serialised; [writeRawHeader] flushes again
    and writes the block. An error of any of the four is wrapped in the
    message of the header. *)
Definition header_steps (hdr : Tar.Header) (msg : string)
  : list (tar_step * option string) :=
  [(step_write [], Some msg); (step_header hdr, Some msg);
   (step_write [], Some msg); (step_write (header_bytes hdr), Some msg)].

(** The steps of [toDistTar] in order; the write of the data is left out
    for an empty blob, as [tw.Write] of no bytes does not reach the file. *)
Definition tar_steps (blobSha : string) (b : blob.Blob)
  : list (tar_step * option string) :=
  header_steps hdr_cnb "writing buildpack id dir header"
  ++ header_steps hdr_assets "writing buildpack version dir header"
  ++ [(step_blob, None)]
  ++ match b with
     | blob.Bytes buf =>
         header_steps (hdr_file blobSha (length buf))
                      "writing buildpack version dir header"
         ++ match buf with [] => [] | _ :: _ => [(step_write buf, None)] end
     | _ => []
     end.

(** The error as [toDistTar] hands it on: under a header, wrapped in the
    header's message with [errors.Wrapf]; from the write of the data, as
    it is. *)
Definition wrapped (msg : option string) (e : error) : error :=
  match msg with Some m => errors_Wrapf e m | None => e end.

(** The value of the first step that fails, given what the file holds. *)
Fixpoint first_fault (path : string) (b : blob.Blob) (old : list byte)
         (steps : list (tar_step * option string)) : option string :=
  match steps with
  | [] => None
  | (step_write c, msg) :: rest =>
      match Write_fault path old c with
      | Some (_, e) => Some (wrapped msg e)
      | None => first_fault path b (old ++ c) rest
      end
  | (step_header hdr, msg) :: rest =>
      match tar_headerBlocks hdr with
      | inl e => Some (wrapped msg e)
      | inr _ => first_fault path b old rest
      end
  | (step_blob, _) :: rest =>
      match b with
      | blob.Bytes _ => first_fault path b old rest
      | blob.OpenFails e | blob.ReadFails e => Some e
      end
  end.

(** The value one turn of the loop of [Save] panics with, if it does, in
    a file system and with an image: the first of the blob that is
    missing, the layer file that does not open, the step of [toDistTar]
    that fails, the layer the image refuses, and the file that does not
    close. *)
Definition turn_fault (tmpDir : string) (assetMap : gmap string blob.Blob)
           (asset : dist.Asset) (f : FS) (i : Image) : option string :=
  let layerPath := GoPath.Join [tmpDir; dist.Sha256 asset] in
  match assetMap !! dist.Sha256 asset with
  | None => Some "associated asset blob does not exist"
  | Some b =>
      match OpenFile_fault f layerPath with
      | Some e => Some e
      | None =>
          match first_fault layerPath b [] (tar_steps (dist.Sha256 asset) b) with
          | Some v => Some v
          | None =>
              match AddLayer_fault i layerPath (asset_stream assetMap asset) with
              | Some e => Some e
              | None => Close_fault layerPath
              end
          end
      end
  end.

(** The file system and the image a turn without failure leaves. *)
Definition after_turn (tmpDir : string) (assetMap : gmap string blob.Blob)
           (asset : dist.Asset) (st : FS * Image) : FS * Image :=
  (set_file (GoPath.Join [tmpDir; dist.Sha256 asset]) (asset_stream assetMap asset) st.1,
   add_layer (layer_of tmpDir assetMap asset) st.2).

(** The value the loop of [Save] panics with: that of its first turn
    that fails. *)
Fixpoint turns_fault (tmpDir : string) (assetMap : gmap string blob.Blob)
         (assets : list dist.Asset) (st : FS * Image) : option string :=
  match assets with
  | [] => None
  | asset :: rest =>
      match turn_fault tmpDir assetMap asset st.1 st.2 with
      | Some v => Some v
      | None => turns_fault tmpDir assetMap rest (after_turn tmpDir assetMap asset st)
      end
  end.

(** The error of the first fetch that fails. *)
Fixpoint fetch_fault (assets : list dist.Asset) : option error :=
  match assets with
  | [] => None
  | asset :: rest =>
      match downloader_Download (dist.URI asset) with
      | inl e => Some e
      | inr _ => fetch_fault rest
      end
  end.

(** How a build ends, read off the answers of the collaborators in the
    order the build asks for them: the first failure decides. The errors
    of the name, of the new image and of the image's [Save] are
    returned; every other failure is a panic with its value. *)
Definition build_result (opts : CreateAssetCacheOptions) (w : World)
  : Res (option error) :=
  let assetMap := blobs_of (Assets opts) ∅ in
  match name_NewTag (ImageName opts) with
  | inl e => Return (Some ("invalid asset cache image name: " +:+ fmt_q e))
  | inr tag =>
      match NewImage_fault tag true with
      | Some e => Return (Some ("unable to create asset cache image: " +:+ fmt_q e))
      | None =>
          match fetch_fault (Assets opts) with
          | Some v => Panic v
          | None =>
              match ioutil_TempDir (fs w) with
              | inl v => Panic v
              | inr tmpDir =>
                  let packed :=
                    {| img_layers := map (layer_of tmpDir assetMap) (Assets opts);
                       img_labels := ∅; img_saved := false |} in
                  let json := json_Encode (label_of assetMap (Assets opts) ∅) in
                  match turns_fault tmpDir assetMap (Assets opts)
                          ({| dirs := {[tmpDir]} ∪ dirs (fs w); files := files (fs w) |},
                           {| img_layers := []; img_labels := ∅; img_saved := false |})
                  with
                  | Some v => Panic v
                  | None =>
                      match SetLabel_fault packed AssetLayersLabel json with
                      | Some v => Panic v
                      | None =>
                          match Save_fault
                                  {| img_layers := img_layers packed;
                                     img_labels := <[AssetLayersLabel := json]> ∅;
                                     img_saved := false |} with
                          | Some e => Return (Some e)
                          | None => Return None
                          end
                      end
                  end
              end
          end
      end
  end.

End FirstFailure.

(* ===================================================================== *)
(** ** The tar writer on a successful run *)
(* ===================================================================== *)

Section TarFacts.
Context {S : Type}.
Variable w_Write : list byte → S → option error * S.
Variable headerBlocks : Tar.Header → error + list byte.


Lemma writes_app cs1 cs2 s s1 s2 :
  writes w_Write cs1 s s1 → writes w_Write cs2 s1 s2 → writes w_Write (cs1 ++ cs2) s s2.
Proof.
  induction 1 as [|c cs s s' s'' Hc _ IH]; intros Hcs2; simpl; [done|].
  econstructor; eauto.
Qed.

Lemma Flush_None tw s tw' s' :
  Tar.Flush w_Write tw s = (None, tw', s') →
  Tar.err tw = None ∧ Tar.nb tw ≤ 0
  ∧ writes w_Write [zeros (Z.to_nat (Tar.pad tw))] s s'
  ∧ tw' = {| Tar.pad := 0; Tar.nb := Tar.nb tw; Tar.err := None |}.
Proof.
  unfold Tar.Flush. destruct (Tar.err tw) eqn:He; [done|].
  destruct (0 <? Tar.nb tw) eqn:Hnb; [done|].
  destruct (w_Write _ s) as [[e|] s1] eqn:Hw; [done|].
  intros [= <- <-]. apply Z.ltb_ge in Hnb.
  repeat split; try done. by repeat econstructor.
Qed.

Lemma writeRawHeader_None blk size flag tw s tw' s' :
  Tar.writeRawHeader w_Write blk size flag tw s = (None, tw', s') →
  Tar.err tw = None ∧ Tar.nb tw ≤ 0
  ∧ writes w_Write [zeros (Z.to_nat (Tar.pad tw)); blk] s s'
  ∧ tw' = {| Tar.pad := Tar.blockPadding (if Tar.isHeaderOnlyType flag then 0 else size);
             Tar.nb := if Tar.isHeaderOnlyType flag then 0 else size;
             Tar.err := None |}.
Proof.
  unfold Tar.writeRawHeader.
  destruct (Tar.Flush w_Write tw s) as [[[e|] tw1] s1] eqn:Hf; [done|].
  apply Flush_None in Hf as (He & Hnb & Hw & ->).
  destruct (w_Write blk s1) as [[e|] s2] eqn:Hb; [done|].
  intros [= <- <-]. repeat split; try done.
  eapply (writes_app [_] [_]); [done|]. by repeat econstructor.
Qed.

Lemma WriteHeader_None hdr tw s tw' s' :
  Tar.WriteHeader w_Write headerBlocks hdr tw s = (None, tw', s') →
  ∃ blk,
    headerBlocks hdr = inr blk ∧ Tar.err tw = None ∧ Tar.nb tw ≤ 0
    ∧ writes w_Write [zeros (Z.to_nat (Tar.pad tw)); []; blk] s s'
    ∧ tw' = {| Tar.pad := Tar.blockPadding
                            (if Tar.isHeaderOnlyType (Tar.Typeflag hdr) then 0
                             else Tar.Size hdr);
               Tar.nb := if Tar.isHeaderOnlyType (Tar.Typeflag hdr) then 0
                         else Tar.Size hdr;
               Tar.err := None |}.
Proof.
  unfold Tar.WriteHeader.
  destruct (Tar.Flush w_Write tw s) as [[[e|] tw1] s1] eqn:Hf; [done|].
  apply Flush_None in Hf as (He & Hnb & Hw & ->).
  destruct (headerBlocks hdr) as [e|blk] eqn:Hh; [done|].
  destruct (Tar.writeRawHeader _ _ _ _ _ _) as [[[e|] tw2] s2] eqn:Hr; [done|].
  apply writeRawHeader_None in Hr as (_ & _ & Hw2 & ->).
  intros [= <- <-]. exists blk. repeat split; try done.
  by eapply (writes_app [_] [_; _]).
Qed.

Lemma Write_None b tw s tw' s' :
  Tar.Write w_Write b tw s = (None, tw', s') →
  Tar.err tw = None ∧ Z.of_nat (length b) ≤ Tar.nb tw
  ∧ writes w_Write (match b with [] => [] | _ => [b] end) s s'
  ∧ tw' = {| Tar.pad := Tar.pad tw; Tar.nb := Tar.nb tw - Z.of_nat (length b);
             Tar.err := None |}.
Proof.
  unfold Tar.Write. destruct (Tar.err tw) eqn:He; [done|].
  destruct (Tar.nb tw <? Z.of_nat (length b)) eqn:Hlt.
  - destruct (take _ b); [done|]. by destruct (w_Write _ s) as [[?|] ?].
  - apply Z.ltb_ge in Hlt. destruct b as [|x b].
    + intros [= <- <-]. repeat split; try done; [constructor|].
      destruct tw; simpl in *. f_equal; [lia|done].
    + destruct (w_Write _ s) as [[?|] s1] eqn:Hw; [done|].
      intros [= <- <-]. repeat split; try done. by repeat econstructor.
Qed.

End TarFacts.

(* ===================================================================== *)
(** ** toDistTar and one turn of the loop of Save *)
(* ===================================================================== *)

Section PackFacts.
Context `{Env}.

Lemma header_bytes_inr h blk : tar_headerBlocks h = inr blk → header_bytes h = blk.
Proof. unfold header_bytes. by intros ->. Qed.

(** The writes of a successful [toDistTar] on a new writer, whatever the
    underlying writer is. *)
Lemma toDistTar_writes {S} (w_Write : list byte → S → option error * S)
      blobSha b s tw' s' :
  toDistTar w_Write blobSha b (Tar.NewWriter, s) = (Return None, (tw', s')) →
  ∃ buf b1 b2 b3,
    b = blob.Bytes buf
    ∧ tar_headerBlocks hdr_cnb = inr b1
    ∧ tar_headerBlocks hdr_assets = inr b2
    ∧ tar_headerBlocks (hdr_file blobSha (length buf)) = inr b3
    ∧ writes w_Write
        ([[]; []; b1] ++ [[]; []; b2] ++ [[]; []; b3]
         ++ match buf with [] => [] | _ => [buf] end) s s'
    ∧ tw' = {| Tar.pad := Tar.blockPadding (Z.of_nat (length buf));
               Tar.nb := 0; Tar.err := None |}.
Proof.
  unfold toDistTar; simpl.
  destruct (Tar.WriteHeader _ _ hdr_cnb _ _) as [[[e|] tw1] s1] eqn:H1; [done|].
  apply WriteHeader_None in H1 as (b1 & Hb1 & _ & _ & Hw1 & ->).
  destruct (Tar.WriteHeader _ _ hdr_assets _ _) as [[[e|] tw2] s2] eqn:H2; [done|].
  apply WriteHeader_None in H2 as (b2 & Hb2 & _ & _ & Hw2 & ->).
  destruct b as [buf|e|e]; [|done..].
  destruct (Tar.WriteHeader _ _ (hdr_file _ _) _ _) as [[[e|] tw3] s3] eqn:H3; [done|].
  apply WriteHeader_None in H3 as (b3 & Hb3 & _ & _ & Hw3 & ->).
  destruct (Tar.Write _ _ _ _) as [[e tw4] s4] eqn:H4.
  intros [= -> <- <-].
  apply Write_None in H4 as (_ & _ & Hw4 & ->).
  exists buf, b1, b2, b3. repeat split; try done.
  - eapply (writes_app _ [_; _; _]); [exact Hw1|].
    eapply (writes_app _ [_; _; _]); [exact Hw2|].
    eapply (writes_app _ [_; _; _]); [exact Hw3|]. exact Hw4.
  - simpl. f_equal. lia.
Qed.

(** What the file and the hasher hold after a run of writes through the
    multi-writer: the same bytes, appended. *)
Lemma multi_Write_writes name cs w h w' h' c :
  writes (multi_Write name) cs (w, h) (w', h') →
  files (fs w) !! name = Some c →
  h' = h ++ concat cs
  ∧ files (fs w') = <[name := c ++ concat cs]> (files (fs w))
  ∧ dirs (fs w') = dirs (fs w) ∧ img w' = img w ∧ trace w' = trace w.
Proof.
  intros Hw. remember (w, h) as s eqn:Es. remember (w', h') as s' eqn:Es'.
  revert w h c Es Es'.
  induction Hw as [s|ch cs s s1 s2 Hch Hcs IH]; intros w h c -> Es' Hc.
  - injection Es' as <- <-. simpl. rewrite !app_nil_r.
    by rewrite insert_id.
  - subst s2. destruct s1 as [w1 h1].
    unfold multi_Write, file_Write in Hch. simpl in Hch. rewrite Hc in Hch. simpl in Hch.
    destruct (Write_fault name c ch) as [[n e]|] eqn:Hf; [done|].
    injection Hch as <- <-.
    edestruct (IH _ _ (c ++ ch) eq_refl eq_refl) as (-> & Hfiles & Hdirs & Himg & Htr).
    { simpl. by rewrite lookup_insert_eq. }
    simpl in *. rewrite Hfiles, insert_insert_eq, <- !app_assoc. done.
Qed.

(** A successful [toDistTar] on a file just opened through the
    multi-writer: file and hasher hold the stream, and the writer is left
    with the padding of the data still to be written. *)
Lemma toDistTar_multi name blobSha b w h tw' w' h' c :
  toDistTar (multi_Write name) blobSha b (Tar.NewWriter, (w, h))
  = (Return None, (tw', (w', h'))) →
  files (fs w) !! name = Some c →
  ∃ buf,
    b = blob.Bytes buf
    ∧ encodable hdr_cnb ∧ encodable hdr_assets
    ∧ encodable (hdr_file blobSha (length buf))
    ∧ h' = h ++ layer_stream blobSha buf
    ∧ files (fs w') = <[name := c ++ layer_stream blobSha buf]> (files (fs w))
    ∧ dirs (fs w') = dirs (fs w) ∧ img w' = img w ∧ trace w' = trace w
    ∧ tw' = {| Tar.pad := Tar.blockPadding (Z.of_nat (length buf));
               Tar.nb := 0; Tar.err := None |}.
Proof.
  intros Hrun Hc.
  apply toDistTar_writes in Hrun as (buf & b1 & b2 & b3 & -> & Hb1 & Hb2 & Hb3 & Hw & ->).
  eapply multi_Write_writes in Hw as (-> & Hfiles & Hdirs & Himg & Htr); [|done].
  assert (concat ([[]; []; b1] ++ [[]; []; b2] ++ [[]; []; b3]
                  ++ match buf with [] => [] | _ => [buf] end)
          = layer_stream blobSha buf) as Hcat.
  { unfold layer_stream. rewrite (header_bytes_inr _ _ Hb1), (header_bytes_inr _ _ Hb2),
      (header_bytes_inr _ _ Hb3). destruct buf; simpl; by rewrite ?app_nil_r. }
  rewrite Hcat in *. exists buf. unfold encodable.
  rewrite (header_bytes_inr _ _ Hb1), (header_bytes_inr _ _ Hb2),
    (header_bytes_inr _ _ Hb3). repeat split; eauto.
Qed.

End PackFacts.

Section SaveFacts.
Context `{Env}.


Lemma Save_body_Return a tmpDir m asset w m' w' :
  Save_body a tmpDir m asset w = (Return m', w') →
  packable (aci_AssetMap a) asset
  ∧ m' = <[dist.Sha256 asset := labelled (aci_AssetMap a) asset]> m
  ∧ files (fs w')
    = <[GoPath.Join [tmpDir; dist.Sha256 asset] := asset_stream (aci_AssetMap a) asset]>
        (files (fs w))
  ∧ dirs (fs w') = dirs (fs w)
  ∧ img w' = add_layer (layer_of tmpDir (aci_AssetMap a) asset) (img w)
  ∧ trace w' = trace w ++ events_of tmpDir asset.
Proof.
  unfold Save_body, packable, asset_stream, labelled, layer_of, asset_stream.
  destruct (aci_AssetMap a !! dist.Sha256 asset) as [b|] eqn:Hb; [|done].
  set (p := GoPath.Join [tmpDir; dist.Sha256 asset]).
  unfold bind at 1. unfold os_OpenFile.
  destruct (OpenFile_fault (fs w) p) as [e|] eqn:Ho; [done|].
  match goal with |- context [toDistTar ?f ?s ?b ?st] =>
    destruct (toDistTar f s b st) as [[[e|]|v] [tw1 [w1 h1]]] eqn:Ht; try done end.
  apply toDistTar_multi with (c := []) in Ht
      as (buf & -> & He1 & He2 & He3 & -> & Hfiles & Hdirs & Himg & Htr & _);
    [|simpl; by rewrite lookup_insert_eq].
  simpl in Hfiles, Hdirs, Himg, Htr.
  unfold bind, img_AddLayer. rewrite Hfiles, lookup_insert_eq.
  destruct (AddLayer_fault (img w1) p _) as [e|] eqn:Ha; [done|].
  unfold file_Close, set_img; simpl.
  destruct (Close_fault p) as [e|] eqn:Hc; [done|].
  intros [= <- <-]. simpl.
  rewrite Hfiles, Hdirs, Himg, Htr, insert_insert_eq, <- !app_assoc. simpl.
  repeat split; eauto 10.
Qed.

Lemma Save_loop_Return a tmpDir l m w m' w' :
  for_range (Save_body a tmpDir) l m w = (Return m', w') →
  Forall (packable (aci_AssetMap a)) l
  ∧ m' = label_of (aci_AssetMap a) l m
  ∧ dirs (fs w') = dirs (fs w)
  ∧ img w' = {| img_layers := img_layers (img w) ++ map (layer_of tmpDir (aci_AssetMap a)) l;
                img_labels := img_labels (img w);
                img_saved := img_saved (img w) |}
  ∧ trace w' = trace w ++ concat (map (events_of tmpDir) l).
Proof.
  revert m w. induction l as [|asset l IH]; intros m w; simpl.
  - intros [= <- <-]. rewrite !app_nil_r. by destruct (img w).
  - unfold bind at 1.
    destruct (Save_body a tmpDir m asset w) as [[m1|v] w1] eqn:Hb; [|done].
    apply Save_body_Return in Hb as (Hp & -> & _ & Hd & Hi & Ht).
    intros Hl. apply IH in Hl as (Hps & -> & Hd' & Hi' & Ht').
    rewrite Hd', Hi', Ht', Hd, Hi, Ht. simpl. rewrite <- !app_assoc. simpl.
    repeat split; eauto.
Qed.

Lemma downloadAssets_from_inr l m w r w' :
  downloadAssets_from l m w = (Return (inr r), w') →
  r = blobs_of l m
  ∧ Forall (λ asset, ∃ b, downloader_Download (dist.URI asset) = inr b) l
  ∧ fs w' = fs w ∧ img w' = img w
  ∧ trace w' = trace w ++ map (λ asset, EvDownload (dist.URI asset)) l.
Proof.
  revert m w. induction l as [|asset l IH]; intros m w; simpl.
  - intros [= <- <-]. by rewrite app_nil_r.
  - destruct (downloader_Download (dist.URI asset)) as [e|b] eqn:Hd; [done|].
    intros Hl. apply IH in Hl as (-> & Hall & Hfs & Himg & Htr).
    rewrite Hfs, Himg, Htr. simpl. rewrite <- app_assoc. eauto 10.
Qed.

(** [downloadAssets] returns and does not panic. *)
Lemma downloadAssets_from_returns l m w :
  ∃ r, fst (downloadAssets_from l m w) = Return r.
Proof.
  revert m w. induction l as [|asset l IH]; intros m w; simpl; [by eexists|].
  destruct (downloader_Download _); [by eexists|]. apply IH.
Qed.

Lemma Save_Return_None a w w' :
  Save a w = (Return None, w') →
  ∃ tmpDir,
    ioutil_TempDir (fs w) = inr tmpDir
    ∧ Forall (packable (aci_AssetMap a)) (aci_Assets a)
    ∧ img w'
      = {| img_layers := img_layers (img w)
                         ++ map (layer_of tmpDir (aci_AssetMap a)) (aci_Assets a);
           img_labels := <[AssetLayersLabel :=
                             json_Encode (label_of (aci_AssetMap a) (aci_Assets a) ∅)]>
                           (img_labels (img w));
           img_saved := true |}
    ∧ trace w'
      = trace w ++ [EvTempDir] ++ concat (map (events_of tmpDir) (aci_Assets a))
        ++ [EvSetLabel AssetLayersLabel
              (json_Encode (label_of (aci_AssetMap a) (aci_Assets a) ∅));
            EvSave; EvRemoveAll tmpDir].
Proof.
  unfold Save. destruct (ioutil_TempDir (fs w)) as [e|tmpDir] eqn:Htmp; [done|].
  unfold with_defer, bind.
  destruct (for_range _ _ _ _) as [[m|v] w1] eqn:Hloop; [|done].
  apply Save_loop_Return in Hloop as (Hps & -> & Hd & Hi & Ht).
  unfold img_SetLabel.
  destruct (SetLabel_fault _ _ _) as [e|] eqn:Hs; [done|].
  unfold img_Save. simpl.
  destruct (Save_fault _) as [e|] eqn:Hv; [done|].
  intros [= <-]. exists tmpDir. simpl. rewrite Hi, Ht. simpl.
  rewrite <- !app_assoc. simpl. repeat split; eauto.
Qed.

End SaveFacts.

Section BuildFacts.
Context `{Env}.

(** A successful build, step by step. *)
Lemma CreateAssetCache_Return_None opts w w' :
  CreateAssetCache opts w = (Return None, w') →
  ∃ tag tmpDir,
    name_NewTag (ImageName opts) = inr tag
    ∧ NewImage_fault tag true = None
    ∧ ioutil_TempDir (fs w) = inr tmpDir
    ∧ Forall (λ asset, ∃ b, downloader_Download (dist.URI asset) = inr b) (Assets opts)
    ∧ Forall (packable (blobs_of (Assets opts) ∅)) (Assets opts)
    ∧ img w'
      = {| img_layers := map (layer_of tmpDir (blobs_of (Assets opts) ∅)) (Assets opts);
           img_labels :=
             <[AssetLayersLabel :=
                 json_Encode (label_of (blobs_of (Assets opts) ∅) (Assets opts) ∅)]> ∅;
           img_saved := true |}
    ∧ trace w'
      = trace w ++ [EvNewImage tag true]
        ++ map (λ asset, EvDownload (dist.URI asset)) (Assets opts)
        ++ [EvTempDir] ++ concat (map (events_of tmpDir) (Assets opts))
        ++ [EvSetLabel AssetLayersLabel
              (json_Encode (label_of (blobs_of (Assets opts) ∅) (Assets opts) ∅));
            EvSave; EvRemoveAll tmpDir].
Proof.
  unfold CreateAssetCache, validateConfig.
  destruct (name_NewTag (ImageName opts)) as [e|tag] eqn:Htag; [done|]. simpl.
  unfold bind at 1. unfold imageFactory_NewImage.
  destruct (NewImage_fault tag true) as [e|] eqn:Hnew; [done|].
  unfold bind, downloadAssets.
  destruct (downloadAssets_from _ _ _) as [[[e|assetMap]|v] w1] eqn:Hdl; [done| |done].
  apply downloadAssets_from_inr in Hdl as (-> & Hall & Hfs & Himg & Htr).
  intros Hsave. apply Save_Return_None in Hsave as (tmpDir & Htmp & Hps & Hi & Ht).
  simpl in *. exists tag, tmpDir. rewrite Hi, Ht, Himg, Htr, Hfs in *. simpl.
  rewrite <- !app_assoc. simpl. repeat split; eauto.
Qed.


Lemma packable_stream assetMap asset :
  packable assetMap asset →
  ∃ buf, assetMap !! dist.Sha256 asset = Some (blob.Bytes buf)
         ∧ asset_stream assetMap asset = layer_stream (dist.Sha256 asset) buf
         ∧ is_tar_stream (dist.Sha256 asset) buf (layer_stream (dist.Sha256 asset) buf).
Proof.
  intros (buf & Hb & H1 & H2 & H3). exists buf. unfold asset_stream.
  rewrite Hb. simpl. repeat split; try done.
  by exists (header_bytes hdr_cnb), (header_bytes hdr_assets),
    (header_bytes (hdr_file (dist.Sha256 asset) (length buf))).
Qed.

(** Each entry of the label map comes from an asset of the list. *)
Lemma label_of_lookup_Some assetMap l m sha a :
  label_of assetMap l m !! sha = Some a →
  (∃ asset, asset ∈ l ∧ dist.Sha256 asset = sha ∧ a = labelled assetMap asset)
  ∨ m !! sha = Some a.
Proof.
  revert m. induction l as [|x l IH]; intros m; simpl; [by right|].
  intros Hl. apply IH in Hl as [(asset & Hin & Hs & Ha)|Hm].
  - left. exists asset. by rewrite elem_of_cons; eauto.
  - destruct (decide (dist.Sha256 x = sha)) as [<-|Hne].
    + rewrite lookup_insert_eq in Hm. injection Hm as <-.
      left. exists x. rewrite elem_of_cons. eauto.
    + rewrite lookup_insert_ne in Hm by done. by right.
Qed.

Lemma label_of_dom assetMap l m :
  dom (label_of assetMap l m) = list_to_set (map dist.Sha256 l) ∪ dom m.
Proof.
  revert m. induction l as [|x l IH]; intros m; simpl; [set_solver|].
  rewrite IH, dom_insert_L. set_solver.
Qed.

End BuildFacts.

(* ===================================================================== *)
(** ** path.Join on a hash that is one clean path element *)
(* ===================================================================== *)


Lemma split_slash_nonempty (s : string) : GoPath.split_slash s ≠ [].
Proof.
  destruct s as [|c s]; simpl; [done|].
  destruct (Ascii.eqb c "/"); [done|]. by destruct (GoPath.split_slash s).
Qed.

(** Joining what [strings.Split] gives is the string again. *)
Lemma join_split_slash (s : string) : GoPath.join_slash (GoPath.split_slash s) = s.
Proof.
  induction s as [|c s IH]; simpl; [done|].
  pose proof (split_slash_nonempty s) as Hne.
  destruct (Ascii.eqb c "/") eqn:Hc.
  - apply Ascii.eqb_eq in Hc as ->.
    destruct (GoPath.split_slash s) as [|h t]; [done|].
    change (GoPath.join_slash ("" :: h :: t)) with ("/" +:+ GoPath.join_slash (h :: t)).
    by rewrite IH.
  - destruct (GoPath.split_slash s) as [|h [|h' t]]; [done| |].
    + simpl in *. by rewrite IH.
    + change (GoPath.join_slash (String c h :: h' :: t))
        with (String c (h +:+ "/" +:+ GoPath.join_slash (h' :: t))).
      change (GoPath.join_slash (h :: h' :: t))
        with (h +:+ "/" +:+ GoPath.join_slash (h' :: t)) in IH.
      by rewrite IH.
Qed.

(** [path.Clean] keeps a run of names. *)
Lemma clean_elems_names (rooted : bool) (stack l : list string) :
  Forall is_name l → GoPath.clean_elems rooted stack l = rev stack ++ l.
Proof.
  intros Hl. revert stack.
  induction Hl as [|e l (H0 & H1 & H2) _ IH]; intros stack; simpl.
  - by rewrite app_nil_r.
  - destruct (decide (e = "" ∨ e = ".")) as [[|]|_]; [done..|].
    destruct (decide (e = "..")) as [|_]; [done|].
    rewrite IH. simpl. by rewrite <- app_assoc.
Qed.

Lemma Join_cnb_assets (blobSha : string) :
  clean_path blobSha →
  GoPath.Join ["/cnb"; "assets"; blobSha] = "/cnb/assets/" +:+ blobSha.
Proof.
  intros Hclean. unfold GoPath.Join.
  destruct (decide ("/cnb" = "")) as [|_]; [done|].
  unfold GoPath.Clean.
  destruct (decide (GoPath.join_slash ["/cnb"; "assets"; blobSha] = "")) as [|_]; [done|].
  change (GoPath.join_slash ["/cnb"; "assets"; blobSha]) with ("/cnb/assets/" +:+ blobSha).
  change (String.prefix "/" ("/cnb/assets/" +:+ blobSha)) with true. cbv iota.
  assert (GoPath.split_slash ("/cnb/assets/" +:+ blobSha)
          = "" :: ["cnb"; "assets"] ++ GoPath.split_slash blobSha) as ->.
  { simpl. by change ("" +:+ blobSha) with blobSha. }
  assert (GoPath.clean_elems true [] ("" :: ["cnb"; "assets"] ++ GoPath.split_slash blobSha)
          = GoPath.clean_elems true [] (["cnb"; "assets"] ++ GoPath.split_slash blobSha))
    as ->.
  { simpl. by destruct (decide ("" = "" ∨ "" = ".")) as [_|[]]; [|left]. }
  rewrite clean_elems_names.
  2:{ apply Forall_app. split; [|done]. by repeat constructor. }
  pose proof (split_slash_nonempty blobSha) as Hne.
  pose proof (join_split_slash blobSha) as Hjoin.
  destruct (GoPath.split_slash blobSha) as [|h t]; [done|].
  change (GoPath.join_slash (rev [] ++ ["cnb"; "assets"] ++ h :: t))
    with ("cnb/assets/" +:+ GoPath.join_slash (h :: t)).
  by rewrite Hjoin.
Qed.

(* ===================================================================== *)
(** ** The shape of a digest and of its hex form *)
(* ===================================================================== *)

Lemma fold_compress_length (l : list (list Z)) (h : list Z) :
  length h = 8%nat → length (fold_left Sha256.compress l h) = 8%nat.
Proof. revert h. induction l as [|b l IH]; intros h Hh; simpl; [done|]. by apply IH. Qed.

Lemma Sha256_sum256_length (msg : list byte) : length (Sha256.sum256 msg) = 32%nat.
Proof.
  unfold Sha256.sum256. rewrite length_map.
  match goal with |- context [fold_left Sha256.compress ?l Sha256.H0] =>
    pose proof (fold_compress_length l Sha256.H0 eq_refl) as Hlen;
    destruct (fold_left Sha256.compress l Sha256.H0)
      as [|a [|b [|c [|d [|e [|f [|g [|h [|]]]]]]]]]; try done
  end.
Qed.

Lemma Hex_encode_length (l : list byte) :
  String.length (Hex.encode l) = (2 * length l)%nat.
Proof. induction l as [|b l IH]; simpl; [done|]. rewrite IH. lia. Qed.

Lemma Hex_digits_lower (b : byte) :
  Hex.lower_hex (Hex.digit (Byte.to_N b / 16)%N)
  ∧ Hex.lower_hex (Hex.digit (Byte.to_N b mod 16)%N).
Proof. unfold Hex.lower_hex. destruct b; vm_compute; done. Qed.

Lemma Hex_encode_lower_hex (l : list byte) :
  Forall Hex.lower_hex (list_ascii_of_string (Hex.encode l)).
Proof.
  induction l as [|b l IH]; simpl; [constructor|].
  destruct (Hex_digits_lower b). by repeat constructor.
Qed.

Lemma Hex_encode_sum256_length (msg : list byte) :
  String.length (Hex.encode (Sha256.sum256 msg)) = 64%nat.
Proof. by rewrite Hex_encode_length, Sha256_sum256_length. Qed.

Lemma run_eta_Return {A St : Type} (x : Res A * St) (d : A) :
  returns (fst x) = true → x = (Return (default d (returned (fst x))), snd x).
Proof. destruct x as [[a|v] s]; simpl; [done|discriminate]. Qed.

Lemma run_eta_writer {A S1 S2 S3 : Type} (x : Res A * (S1 * (S2 * S3))) (r : Res A) :
  fst x = r → x = (r, (fst (snd x), (fst (snd (snd x)), snd (snd (snd x))))).
Proof. destruct x as [? [? [? ?]]]. simpl. by intros ->. Qed.

(** A run whose result is known, with the world it ends in. *)
Lemma run_eta {A St : Type} (x : Res A * St) (r : Res A) :
  fst x = r → x = (r, snd x).
Proof. destruct x. simpl. by intros ->. Qed.

(* ===================================================================== *)
(** ** Properties of a build *)
(* ===================================================================== *)

(** [path.Clean] and [path.Join] on the cases of their documentation. *)
Example Clean_examples :
  map GoPath.Clean ["a/c"; "a//c"; "a/c/."; "a/c/b/.."; "/../a/c"; "/../a/b/../././/c"; ""]
  = ["a/c"; "a/c"; "a/c"; "a/c"; "/a/c"; "/a/c"; "."].
Proof. vm_compute. reflexivity. Qed.

Example Join_examples :
  map GoPath.Join [["a"; "b"; "c"]; ["a"; "b/c"]; ["a/b"; "../../../xyz"]; [""; ""];
                   ["a"; ""]; [""; "a"]; ["cnb"]; ["cnb"; "assets"];
                   ["/cnb"; "assets"; ""]]
  = ["a/b/c"; "a/b/c"; "../xyz"; ""; "a"; "a"; "cnb"; "cnb/assets"; "/cnb/assets"].
Proof. vm_compute. reflexivity. Qed.

(** A USTAR header is one block of 512 bytes. *)
Example ustar_block_length :
  map (λ h, match Ustar.headerBlocks h with
            | inr blk => Some (length blk)
            | inl _ => None
            end)
      [@hdr_cnb TestEnv.E; @hdr_assets TestEnv.E; @hdr_file TestEnv.E "first-sha256" 29]
  = [Some 512%nat; Some 512%nat; Some 512%nat].
Proof. vm_compute. reflexivity. Qed.

(** The digests the package's test expects are those of the streams of
    the model: three USTAR header blocks and the data, nothing after. *)
Example test_LayerDiffIDs :
  let w' := snd TestEnv.run in
  map (λ l, "sha256:" +:+ Hex.encode (Sha256.sum256 (snd l))) (img_layers (img w'))
  = ["sha256:f2ae00cafa3c058df16a0969ce0eb984dc5ea2fe8e71bbdbbd2cdaa3b4359b36";
     "sha256:46e2287266ceafd2cd4f580566f2b9f504f7b78d472bb3401de18f2410ad1614"].
Proof. vm_compute. reflexivity. Qed.

Section BuildClaims.
Context `{Env}.

(** C5. A name that [name.NewTag] refuses makes [CreateAssetCache] return
    the error "invalid asset cache image name: ..." with the world as it
    was: no call to the image factory, no fetch, no file, no event. *)
Theorem C5_invalid_name_fails_before_any_io (opts : CreateAssetCacheOptions)
        (w : World) (e : error) :
  name_NewTag (ImageName opts) = inl e →
  CreateAssetCache opts w
  = (Return (Some ("invalid asset cache image name: " +:+ fmt_q e)), w).
Proof.
  intros Hname. unfold CreateAssetCache, validateConfig. by rewrite Hname.
Qed.

(** C1. After a successful build every listed asset has an entry in the
    label map, under its [Sha256], and every entry of the label map
    carries "sha256:" and the 64 lower-case hex digits of the SHA-256
    digest of the tar stream of its layer: the three serialised headers
    followed by the bytes of the fetched blob, which are the bytes the
    layer file held when it was attached to the image, and not the bytes
    of the blob. *)
Theorem C1_LayerDiffID_is_digest_of_written_stream
        (opts : CreateAssetCacheOptions) (w w' : World) :
  CreateAssetCache opts w = (Return None, w') →
  ∃ tmpDir assetLabel,
    ioutil_TempDir (fs w) = inr tmpDir
    ∧ img_labels (img w') !! AssetLayersLabel = Some (json_Encode assetLabel)
    ∧ (∀ asset, asset ∈ Assets opts →
         ∃ a buf stream,
           assetLabel !! dist.Sha256 asset = Some a
           ∧ blobs_of (Assets opts) ∅ !! dist.Sha256 asset = Some (blob.Bytes buf)
           ∧ is_tar_stream (dist.Sha256 asset) buf stream
           ∧ (GoPath.Join [tmpDir; dist.Sha256 asset], stream) ∈ img_layers (img w')
           ∧ dist.LayerDiffID a = "sha256:" +:+ Hex.encode (Sha256.sum256 stream))
    ∧ ∀ sha a, assetLabel !! sha = Some a →
        ∃ buf stream,
          blobs_of (Assets opts) ∅ !! sha = Some (blob.Bytes buf)
          ∧ is_tar_stream sha buf stream
          ∧ (GoPath.Join [tmpDir; sha], stream) ∈ img_layers (img w')
          ∧ dist.LayerDiffID a = "sha256:" +:+ Hex.encode (Sha256.sum256 stream)
          ∧ String.length (Hex.encode (Sha256.sum256 stream)) = 64%nat
          ∧ Forall Hex.lower_hex (list_ascii_of_string (Hex.encode (Sha256.sum256 stream))).
Proof.
  intros Hrun.
  apply CreateAssetCache_Return_None in Hrun
    as (tag & tmpDir & _ & _ & Htmp & _ & Hps & Himg & _).
  exists tmpDir, (label_of (blobs_of (Assets opts) ∅) (Assets opts) ∅).
  rewrite Himg; simpl. split; [done|]. split; [by rewrite lookup_insert_eq|].
  assert (∀ sha a,
            label_of (blobs_of (Assets opts) ∅) (Assets opts) ∅ !! sha = Some a →
            ∃ buf stream,
              blobs_of (Assets opts) ∅ !! sha = Some (blob.Bytes buf)
              ∧ is_tar_stream sha buf stream
              ∧ (GoPath.Join [tmpDir; sha], stream)
                ∈ map (layer_of tmpDir (blobs_of (Assets opts) ∅)) (Assets opts)
              ∧ dist.LayerDiffID a = "sha256:" +:+ Hex.encode (Sha256.sum256 stream)
              ∧ String.length (Hex.encode (Sha256.sum256 stream)) = 64%nat
              ∧ Forall Hex.lower_hex
                  (list_ascii_of_string (Hex.encode (Sha256.sum256 stream)))) as Hall.
  { intros sha a Ha.
    apply label_of_lookup_Some in Ha as [(asset & Hin & <- & ->)|Ha]; [|done].
    rewrite Forall_forall in Hps.
    destruct (packable_stream _ _ (Hps _ Hin)) as (buf & Hbuf & Hs & Htar).
    exists buf, (layer_stream (dist.Sha256 asset) buf).
    split; [done|]. split; [done|]. split.
    { apply list_elem_of_fmap. exists asset. unfold layer_of. by rewrite Hs. }
    unfold labelled; simpl. rewrite Hs. split; [done|].
    split; [apply Hex_encode_sum256_length|apply Hex_encode_lower_hex]. }
  split; [|exact Hall].
  intros asset Hin.
  assert (is_Some (label_of (blobs_of (Assets opts) ∅) (Assets opts) ∅
                   !! dist.Sha256 asset)) as [a Ha].
  { apply elem_of_dom. rewrite label_of_dom, elem_of_union, elem_of_list_to_set.
    left. apply list_elem_of_fmap. by exists asset. }
  destruct (Hall _ _ Ha) as (buf & stream & H1 & H2 & H3 & H4 & _).
  by exists a, buf, stream.
Qed.

(** C6. After a successful build the label holds the encoding of a map
    whose keys are exactly the [Sha256] values of the input list, one
    entry for each distinct value, and the entry of a key is an asset of
    the list with that [Sha256] and with its [LayerDiffID] set to
    "sha256:" and the hex digits of a 32-byte digest. *)
Theorem C6_label_has_one_entry_per_distinct_hash
        (opts : CreateAssetCacheOptions) (w w' : World) :
  CreateAssetCache opts w = (Return None, w') →
  ∃ assetLabel : gmap string dist.Asset,
    img_labels (img w') !! AssetLayersLabel = Some (json_Encode assetLabel)
    ∧ dom assetLabel = list_to_set (map dist.Sha256 (Assets opts))
    ∧ size assetLabel = length (remove_dups (map dist.Sha256 (Assets opts)))
    ∧ ∀ sha a, assetLabel !! sha = Some a →
        dist.Sha256 a = sha
        ∧ (∃ asset, asset ∈ Assets opts
                    ∧ a = dist.set_LayerDiffID (dist.LayerDiffID a) asset)
        ∧ ∃ digest, length digest = 32%nat
                    ∧ dist.LayerDiffID a = "sha256:" +:+ Hex.encode digest.
Proof.
  intros Hrun.
  apply CreateAssetCache_Return_None in Hrun
    as (tag & tmpDir & _ & _ & Htmp & _ & Hps & Himg & _).
  exists (label_of (blobs_of (Assets opts) ∅) (Assets opts) ∅).
  rewrite Himg; simpl. split; [by rewrite lookup_insert_eq|].
  assert (dom (label_of (blobs_of (Assets opts) ∅) (Assets opts) ∅)
          = list_to_set (map dist.Sha256 (Assets opts))) as Hdom.
  { rewrite label_of_dom, dom_empty_L. set_solver. }
  split; [done|]. split.
  { rewrite <- size_dom, Hdom.
    rewrite <- (size_list_to_set (C:=gset string) (remove_dups _))
      by apply NoDup_remove_dups.
    f_equal. apply set_eq. intros x.
    by rewrite !elem_of_list_to_set, elem_of_remove_dups. }
  intros sha a Ha.
  apply label_of_lookup_Some in Ha as [(asset & Hin & <- & ->)|Ha]; [|done].
  split; [done|]. split; [by exists asset|].
  eexists. split; [|reflexivity]. apply Sha256_sum256_length.
Qed.

End BuildClaims.

Section TestRun.
#[local] Existing Instance TestEnv.E.

(** The build of the package's test succeeds. *)
Lemma test_run_succeeds :
  CreateAssetCache TestEnv.opts TestEnv.world0 = (Return None, snd TestEnv.run).
Proof.
  apply run_eta. vm_compute. reflexivity.
Qed.

Lemma C5_witness :
  CreateAssetCache {| ImageName := "::::"; Assets := [TestEnv.firstAsset] |} TestEnv.world0
  = (Return (Some ("invalid asset cache image name: "
                   +:+ TestEnv.quoted
                         ("repository can only contain the runes `"
                          +:+ TestEnv.repositoryChars +:+ "`: ::::"))),
     TestEnv.world0).
Proof.
  apply (@C5_invalid_name_fails_before_any_io TestEnv.E).
  reflexivity.
Defined.

Lemma C1_witness :
  CreateAssetCache TestEnv.opts TestEnv.world0 = (Return None, snd TestEnv.run)
  ∧ ∃ tmpDir assetLabel,
      ioutil_TempDir (fs TestEnv.world0) = inr tmpDir
      ∧ img_labels (img (snd TestEnv.run)) !! AssetLayersLabel
        = Some (json_Encode assetLabel)
      ∧ (∀ asset, asset ∈ Assets TestEnv.opts →
           ∃ a buf stream,
             assetLabel !! dist.Sha256 asset = Some a
             ∧ blobs_of (Assets TestEnv.opts) ∅ !! dist.Sha256 asset
               = Some (blob.Bytes buf)
             ∧ is_tar_stream (dist.Sha256 asset) buf stream
             ∧ (GoPath.Join [tmpDir; dist.Sha256 asset], stream)
               ∈ img_layers (img (snd TestEnv.run))
             ∧ dist.LayerDiffID a = "sha256:" +:+ Hex.encode (Sha256.sum256 stream))
      ∧ ∀ sha a, assetLabel !! sha = Some a →
          ∃ buf stream,
            blobs_of (Assets TestEnv.opts) ∅ !! sha = Some (blob.Bytes buf)
            ∧ is_tar_stream sha buf stream
            ∧ (GoPath.Join [tmpDir; sha], stream) ∈ img_layers (img (snd TestEnv.run))
            ∧ dist.LayerDiffID a = "sha256:" +:+ Hex.encode (Sha256.sum256 stream)
            ∧ String.length (Hex.encode (Sha256.sum256 stream)) = 64%nat
            ∧ Forall Hex.lower_hex
                (list_ascii_of_string (Hex.encode (Sha256.sum256 stream))).
Proof.
  split; [exact test_run_succeeds|].
  exact (C1_LayerDiffID_is_digest_of_written_stream
           TestEnv.opts TestEnv.world0 (snd TestEnv.run) test_run_succeeds).
Defined.

Lemma C6_witness :
  CreateAssetCache TestEnv.opts TestEnv.world0 = (Return None, snd TestEnv.run)
  ∧ ∃ assetLabel : gmap string dist.Asset,
      img_labels (img (snd TestEnv.run)) !! AssetLayersLabel
      = Some (json_Encode assetLabel)
      ∧ dom assetLabel = list_to_set (map dist.Sha256 (Assets TestEnv.opts))
      ∧ size assetLabel = length (remove_dups (map dist.Sha256 (Assets TestEnv.opts)))
      ∧ ∀ sha a, assetLabel !! sha = Some a →
          dist.Sha256 a = sha
          ∧ (∃ asset, asset ∈ Assets TestEnv.opts
                      ∧ a = dist.set_LayerDiffID (dist.LayerDiffID a) asset)
          ∧ ∃ digest, length digest = 32%nat
                      ∧ dist.LayerDiffID a = "sha256:" +:+ Hex.encode digest.
Proof.
  split; [exact test_run_succeeds|].
  exact (C6_label_has_one_entry_per_distinct_hash
           TestEnv.opts TestEnv.world0 (snd TestEnv.run) test_run_succeeds).
Defined.

End TestRun.

Section WorkDirFacts.
Context `{Env}.


Lemma os_RemoveAll_removed dir w : removed dir (fs (os_RemoveAll dir w)).
Proof.
  intros p Hp. unfold os_RemoveAll; simpl. split.
  - rewrite elem_of_filter. tauto.
  - apply map_lookup_filter_None. right. intros x _ Hn. by apply Hn.
Qed.

Lemma os_RemoveAll_last dir w : last (trace (os_RemoveAll dir w)) = Some (EvRemoveAll dir).
Proof. unfold os_RemoveAll; simpl. apply last_snoc. Qed.

(** Whatever way [Save] is left once the directory exists, the deferred
    [os.RemoveAll] has run last. *)
Lemma Save_defer a w r w' tmpDir :
  Save a w = (r, w') → ioutil_TempDir (fs w) = inr tmpDir →
  ∃ w1, w' = os_RemoveAll tmpDir w1.
Proof.
  unfold Save. intros Hs Htmp. rewrite Htmp in Hs. unfold with_defer in Hs.
  match type of Hs with (let '(_, _) := ?b in _) = _ => destruct b as [r1 w1] end.
  injection Hs as <- <-. by exists w1.
Qed.

Lemma downloadAssets_from_world l m w r w' :
  downloadAssets_from l m w = (r, w') →
  fs w' = fs w ∧ img w' = img w
  ∧ ∃ l', trace w' = trace w ++ map (λ asset, EvDownload (dist.URI asset)) l'.
Proof.
  revert m w. induction l as [|asset l IH]; intros m w; simpl.
  - intros [= <- <-]. repeat split. exists []. by rewrite app_nil_r.
  - destruct (downloader_Download (dist.URI asset)) as [e|b] eqn:Hd.
    + intros [= <- <-]. repeat split. by exists [asset].
    + intros Hl. apply IH in Hl as (Hfs & Himg & l' & Htr).
      rewrite Hfs, Himg, Htr. repeat split. exists (asset :: l').
      simpl. by rewrite <- app_assoc.
Qed.

End WorkDirFacts.

Section SaveClaims.
Context `{Env}.

(** C9. However a build ends, by success, by a returned error or by a
    panic partway through packing, either it ended before [Save] made the
    working directory, and the file system is as it was, or the
    directory [ioutil.TempDir] made, with every file under it, is gone
    from the file system and [os.RemoveAll] was the last call of the
    build. *)
Theorem C9_working_directory_removed_on_every_exit
        (opts : CreateAssetCacheOptions) (w w' : World) (r : Res (option error)) :
  CreateAssetCache opts w = (r, w') →
  (fs w' = fs w
   ∧ Forall (λ ev, ev ≠ EvTempDir ∨ (∃ e, ioutil_TempDir (fs w) = inl e))
            (drop (length (trace w)) (trace w')))
  ∨ ∃ tmpDir,
      ioutil_TempDir (fs w) = inr tmpDir
      ∧ (∀ p, within tmpDir p → (p ∉ dirs (fs w')) ∧ files (fs w') !! p = None)
      ∧ last (trace w') = Some (EvRemoveAll tmpDir).
Proof.
  unfold CreateAssetCache, validateConfig.
  destruct (name_NewTag (ImageName opts)) as [e|tag] eqn:Htag; simpl.
  { intros [= <- <-]. left. split; [done|]. by rewrite drop_all. }
  unfold bind at 1. unfold imageFactory_NewImage.
  destruct (NewImage_fault tag true) as [e|] eqn:Hnew.
  { intros [= <- <-]. left. split; [done|]. simpl.
    rewrite drop_app_length. constructor; [by left|constructor]. }
  unfold bind, downloadAssets.
  destruct (downloadAssets_from _ _ _) as [[[e|assetMap]|v] w1] eqn:Hdl;
    pose proof (downloadAssets_from_world _ _ _ _ _ Hdl) as (Hfs & Himg & l' & Htr);
    simpl in Hfs, Htr.
  1,3: intros [= <- <-]; left; split; [done|];
       rewrite Htr, <- app_assoc, drop_app_length; simpl;
       constructor; [by left|]; apply Forall_fmap, Forall_forall; intros; by left.
  intros Hsave.
  destruct (ioutil_TempDir (fs w)) as [e|tmpDir] eqn:Htmp.
  - left. unfold Save in Hsave. rewrite Hfs, Htmp in Hsave.
    injection Hsave as <- <-. simpl. split; [done|].
    rewrite Htr, <- !app_assoc, drop_app_length. simpl.
    constructor; [by left|]. apply Forall_app. split.
    + apply Forall_fmap, Forall_forall. intros. by left.
    + constructor; [|constructor]. right. by exists e.
  - right. exists tmpDir. split; [done|].
    rewrite <- Hfs in Htmp.
    destruct (Save_defer _ _ _ _ _ Hsave Htmp) as (w2 & ->).
    split; [apply os_RemoveAll_removed|apply os_RemoveAll_last].
Qed.

(** C8. Two turns of the loop of [Save] that pack the same bytes under
    the same content hash put the same [LayerDiffID] in their label
    maps, whatever the worlds, the working directories, the maps so far
    and the other fields of the two assets are. *)
Theorem C8_packing_is_deterministic
        (a1 a2 : AssetCacheImage) (tmp1 tmp2 : string)
        (m1 m2 m1' m2' : gmap string dist.Asset) (asset1 asset2 : dist.Asset)
        (w1 w2 w1' w2' : World) (buf : list byte) :
  dist.Sha256 asset1 = dist.Sha256 asset2 →
  aci_AssetMap a1 !! dist.Sha256 asset1 = Some (blob.Bytes buf) →
  aci_AssetMap a2 !! dist.Sha256 asset2 = Some (blob.Bytes buf) →
  Save_body a1 tmp1 m1 asset1 w1 = (Return m1', w1') →
  Save_body a2 tmp2 m2 asset2 w2 = (Return m2', w2') →
  ∃ d,
    dist.LayerDiffID <$> m1' !! dist.Sha256 asset1 = Some d
    ∧ dist.LayerDiffID <$> m2' !! dist.Sha256 asset2 = Some d.
Proof.
  intros Hsha Hb1 Hb2 H1 H2.
  apply Save_body_Return in H1 as (_ & -> & _).
  apply Save_body_Return in H2 as (_ & -> & _).
  rewrite !lookup_insert_eq. simpl. eexists. split; [reflexivity|].
  unfold asset_stream. by rewrite Hb1, Hb2, Hsha.
Qed.

End SaveClaims.

Section CloseFacts.
Context `{Env}.

Lemma multi_Write_hash name cs s s' :
  writes (multi_Write name) cs s s' → snd s' = snd s ++ concat cs.
Proof.
  induction 1 as [s|c cs s s1 s2 Hc _ IH]; simpl; [by rewrite app_nil_r|].
  unfold multi_Write in Hc.
  destruct (file_Write name c (fst s)) as [[e|] w1]; [done|].
  injection Hc as <-. rewrite IH. simpl. by rewrite <- app_assoc.
Qed.

(** What closing the tar writer adds to the stream: the padding the
    writer still owes, then the two zero blocks of the trailer. *)
Lemma Close_adds name tw s tw' s' :
  Tar.err tw = None →
  Tar.Close (multi_Write name) tw s = (None, tw', s') →
  snd s' = snd s ++ zeros (Z.to_nat (Tar.pad tw)) ++ zeros 512 ++ zeros 512.
Proof.
  unfold Tar.Close. intros ->.
  destruct (Tar.Flush _ tw s) as [[[e|] tw1] s1] eqn:Hf; [done|].
  apply Flush_None in Hf as (_ & _ & Hw & _).
  destruct (multi_Write name (zeros 512) s1) as [[e|] s2] eqn:H1; [done|].
  destruct (multi_Write name (zeros 512) s2) as [[e|] s3] eqn:H2; [done|].
  intros [= _ <-].
  assert (writes (multi_Write name)
            [zeros (Z.to_nat (Tar.pad tw)); zeros 512; zeros 512] s s3) as Hall.
  { eapply (writes_app _ [_] [_; _]); [exact Hw|]. by repeat econstructor. }
  apply multi_Write_hash in Hall.
  by rewrite Hall, !concat_cons, concat_nil, app_nil_r.
Qed.

End CloseFacts.

Section StreamClaims.
Context `{Env}.

(** C10. After a turn of the loop of [Save] the layer file, the layer
    attached to the image and the digested stream are the three
    serialised headers followed by the bytes of the blob, and end with
    the last of these bytes. The tar writer is left open and owing the
    padding of the data: closing it would have added that padding and
    the two 512-byte zero blocks of the trailer. *)
Theorem C10_layer_ends_with_last_data_byte
        (a : AssetCacheImage) (tmpDir : string) (m m' : gmap string dist.Asset)
        (asset : dist.Asset) (w w' : World) :
  Save_body a tmpDir m asset w = (Return m', w') →
  ∃ buf b1 b2 b3,
    aci_AssetMap a !! dist.Sha256 asset = Some (blob.Bytes buf)
    ∧ tar_headerBlocks hdr_cnb = inr b1
    ∧ tar_headerBlocks hdr_assets = inr b2
    ∧ tar_headerBlocks (hdr_file (dist.Sha256 asset) (length buf)) = inr b3
    ∧ files (fs w') !! GoPath.Join [tmpDir; dist.Sha256 asset]
      = Some (b1 ++ b2 ++ b3 ++ buf)
    ∧ last (img_layers (img w'))
      = Some (GoPath.Join [tmpDir; dist.Sha256 asset], b1 ++ b2 ++ b3 ++ buf)
    ∧ dist.LayerDiffID <$> m' !! dist.Sha256 asset
      = Some ("sha256:" +:+ Hex.encode (Sha256.sum256 (b1 ++ b2 ++ b3 ++ buf)))
    ∧ ∀ s tw1 s1,
        toDistTar (multi_Write (GoPath.Join [tmpDir; dist.Sha256 asset]))
                  (dist.Sha256 asset) (blob.Bytes buf) (Tar.NewWriter, s)
        = (Return None, (tw1, s1)) →
        Tar.err tw1 = None
        ∧ Tar.pad tw1 = Tar.blockPadding (Z.of_nat (length buf))
        ∧ ∀ tw2 s2,
            Tar.Close (multi_Write (GoPath.Join [tmpDir; dist.Sha256 asset])) tw1 s1
            = (None, tw2, s2) →
            snd s2 = snd s1
                     ++ zeros (Z.to_nat (Tar.blockPadding (Z.of_nat (length buf))))
                     ++ zeros 512 ++ zeros 512.
Proof.
  intros Hb.
  apply Save_body_Return in Hb as (Hp & -> & Hfiles & _ & Himg & _).
  destruct (packable_stream _ _ Hp) as (buf & Hbuf & Hs & (b1 & b2 & b3 & H1 & H2 & H3 & Hst)).
  exists buf, b1, b2, b3. rewrite Hfiles, Himg, !lookup_insert_eq. simpl.
  unfold layer_of, labelled. rewrite last_snoc, Hs, <- Hst.
  do 7 (split; [done|]). intros s tw1 s1 Hrun.
  apply toDistTar_writes in Hrun as (? & ? & ? & ? & [= <-] & _ & _ & _ & _ & ->).
  do 2 (split; [done|]). intros tw2 s2 Hc. by apply Close_adds in Hc.
Qed.

Lemma split_slash_no_slash (s : string) :
  Forall (λ c, c ≠ "/"%char) (list_ascii_of_string s) → GoPath.split_slash s = [s].
Proof.
  induction s as [|c s IH]; simpl; [done|].
  intros Hall. apply Forall_cons in Hall as [Hc Hs].
  destruct (Ascii.eqb c "/") eqn:E; [by apply Ascii.eqb_eq in E|].
  by rewrite (IH Hs).
Qed.

Lemma lower_hex_not_slash_or_dot (c : ascii) :
  Hex.lower_hex c → c ≠ "/"%char ∧ c ≠ "."%char.
Proof.
  unfold Hex.lower_hex. intros Hc. split; intros ->; vm_compute in Hc; discriminate.
Qed.

(** A hex digest is a clean path of one element. *)
Lemma hex_digest_clean_path (digest : list byte) :
  digest ≠ [] → clean_path (Hex.encode digest).
Proof.
  intros Hne. unfold clean_path.
  pose proof (Hex_encode_lower_hex digest) as Hhex.
  rewrite split_slash_no_slash.
  2:{ eapply Forall_impl; [exact Hhex|]. intros c Hc.
      by apply lower_hex_not_slash_or_dot in Hc as [? _]. }
  constructor; [|constructor].
  destruct digest as [|b digest]; [done|]. simpl in *.
  apply Forall_cons in Hhex as [H1 Hhex]. apply Forall_cons in Hhex as [H2 _].
  apply lower_hex_not_slash_or_dot in H1 as [_ H1].
  apply lower_hex_not_slash_or_dot in H2 as [_ H2].
  repeat split; [done|intros [= ? ?]; done|intros [= ? ? ?]; done].
Qed.

(** C2. For a content hash, and more generally for a hash whose elements
    between slashes are all names (none is empty, "." or ".."; a hex
    digest is such a hash, by [hex_digest_clean_path]), a successful
    [toDistTar] writes, in this order and with nothing between or after:
    the header of the directory "cnb", the header of the directory
    "cnb/assets", the header of the regular file "/cnb/assets/" followed
    by the hash, whose size is the length of the blob, and the bytes of
    the blob; the three headers have mode 0755 and the one modification
    time [NormalizedDateTime], which does not depend on the world. *)
Theorem C2_tar_entries_of_a_clean_hash
        (name blobSha : string) (b : blob.Blob) (w w' : World)
        (tw' : Tar.Writer) (h' : list byte) :
  clean_path blobSha →
  files (fs w) !! name = Some [] →
  toDistTar (multi_Write name) blobSha b (Tar.NewWriter, (w, []))
  = (Return None, (tw', (w', h'))) →
  ∃ buf b1 b2 b3,
    b = blob.Bytes buf
    ∧ tar_headerBlocks
        {| Tar.Typeflag := Tar.TypeDir; Tar.Name := "cnb"; Tar.Mode := 493;
           Tar.Size := 0; Tar.ModTime := NormalizedDateTime |} = inr b1
    ∧ tar_headerBlocks
        {| Tar.Typeflag := Tar.TypeDir; Tar.Name := "cnb/assets"; Tar.Mode := 493;
           Tar.Size := 0; Tar.ModTime := NormalizedDateTime |} = inr b2
    ∧ tar_headerBlocks
        {| Tar.Typeflag := Tar.TypeReg; Tar.Name := "/cnb/assets/" +:+ blobSha;
           Tar.Mode := 493; Tar.Size := Z.of_nat (length buf);
           Tar.ModTime := NormalizedDateTime |} = inr b3
    ∧ h' = b1 ++ b2 ++ b3 ++ buf
    ∧ files (fs w') !! name = Some (b1 ++ b2 ++ b3 ++ buf).
Proof.
  intros Hclean Hfile Hrun.
  pose proof (toDistTar_writes _ _ _ _ _ _ Hrun)
    as (buf & b1 & b2 & b3 & -> & H1 & H2 & H3 & _).
  apply toDistTar_multi with (c := []) in Hrun
    as (buf' & [= <-] & _ & _ & _ & -> & Hfiles & _); [|done].
  exists buf, b1, b2, b3.
  unfold hdr_file in H3. rewrite (Join_cnb_assets _ Hclean) in H3.
  rewrite Hfiles, lookup_insert_eq. unfold layer_stream.
  rewrite (header_bytes_inr _ _ H1), (header_bytes_inr _ _ H2).
  unfold hdr_file. rewrite (Join_cnb_assets _ Hclean), (header_bytes_inr _ _ H3).
  repeat split; done.
Qed.

End StreamClaims.

Section PackRuns.
#[local] Existing Instance TestEnv.E.

Lemma pack_first_succeeds :
  toDistTar (multi_Write TestEnv.layerPath) "first-sha256"
            (blob.Bytes TestEnv.secondContents) (Tar.NewWriter, (TestEnv.world_open, []))
  = (Return None,
     (fst (snd TestEnv.pack_first),
      (fst (snd (snd TestEnv.pack_first)), snd (snd (snd TestEnv.pack_first))))).
Proof.
  apply run_eta_writer. vm_compute. reflexivity.
Qed.

Lemma clean_first_sha256 : clean_path "first-sha256".
Proof. repeat constructor; done. Qed.

Lemma world_open_file : files (fs TestEnv.world_open) !! TestEnv.layerPath = Some [].
Proof. vm_compute. reflexivity. Qed.

Lemma C2_witness :
  ∃ buf b1 b2 b3,
    blob.Bytes TestEnv.secondContents = blob.Bytes buf
    ∧ tar_headerBlocks
        {| Tar.Typeflag := Tar.TypeDir; Tar.Name := "cnb"; Tar.Mode := 493;
           Tar.Size := 0; Tar.ModTime := NormalizedDateTime |} = inr b1
    ∧ tar_headerBlocks
        {| Tar.Typeflag := Tar.TypeDir; Tar.Name := "cnb/assets"; Tar.Mode := 493;
           Tar.Size := 0; Tar.ModTime := NormalizedDateTime |} = inr b2
    ∧ tar_headerBlocks
        {| Tar.Typeflag := Tar.TypeReg; Tar.Name := "/cnb/assets/" +:+ "first-sha256";
           Tar.Mode := 493; Tar.Size := Z.of_nat (length buf);
           Tar.ModTime := NormalizedDateTime |} = inr b3
    ∧ snd (snd (snd TestEnv.pack_first)) = b1 ++ b2 ++ b3 ++ buf
    ∧ files (fs (fst (snd (snd TestEnv.pack_first)))) !! TestEnv.layerPath
      = Some (b1 ++ b2 ++ b3 ++ buf).
Proof.
  exact (C2_tar_entries_of_a_clean_hash
           TestEnv.layerPath "first-sha256" (blob.Bytes TestEnv.secondContents)
           TestEnv.world_open (fst (snd (snd TestEnv.pack_first)))
           (fst (snd TestEnv.pack_first)) (snd (snd (snd TestEnv.pack_first)))
           clean_first_sha256 world_open_file pack_first_succeeds).
Defined.

Lemma body1_returns :
  Save_body TestEnv.image1 TestEnv.tmpDir ∅ TestEnv.firstAsset TestEnv.world0
  = (Return (default ∅ (returned (fst TestEnv.body1))), snd TestEnv.body1).
Proof.
  apply run_eta_Return. vm_compute. reflexivity.
Qed.

Lemma body2_returns :
  Save_body TestEnv.image1 "/var/tmp/scratch7" {[ "second-sha256" := TestEnv.secondAsset ]}
            TestEnv.firstAsset (snd TestEnv.run)
  = (Return (default ∅ (returned (fst TestEnv.body2))), snd TestEnv.body2).
Proof.
  apply run_eta_Return. vm_compute. reflexivity.
Qed.

Lemma image1_blob :
  aci_AssetMap TestEnv.image1 !! dist.Sha256 TestEnv.firstAsset
  = Some (blob.Bytes TestEnv.secondContents).
Proof. vm_compute. reflexivity. Qed.

Lemma C8_witness :
  ∃ d,
    dist.LayerDiffID <$> default ∅ (returned (fst TestEnv.body1))
                         !! dist.Sha256 TestEnv.firstAsset = Some d
    ∧ dist.LayerDiffID <$> default ∅ (returned (fst TestEnv.body2))
                           !! dist.Sha256 TestEnv.firstAsset = Some d.
Proof.
  exact (C8_packing_is_deterministic
           TestEnv.image1 TestEnv.image1 TestEnv.tmpDir "/var/tmp/scratch7"
           ∅ {[ "second-sha256" := TestEnv.secondAsset ]}
           (default ∅ (returned (fst TestEnv.body1)))
           (default ∅ (returned (fst TestEnv.body2)))
           TestEnv.firstAsset TestEnv.firstAsset
           TestEnv.world0 (snd TestEnv.run) (snd TestEnv.body1) (snd TestEnv.body2)
           TestEnv.secondContents eq_refl image1_blob image1_blob
           body1_returns body2_returns).
Defined.

Lemma C10_witness :
  ∃ buf b1 b2 b3,
    aci_AssetMap TestEnv.image1 !! dist.Sha256 TestEnv.firstAsset = Some (blob.Bytes buf)
    ∧ tar_headerBlocks hdr_cnb = inr b1
    ∧ tar_headerBlocks hdr_assets = inr b2
    ∧ tar_headerBlocks (hdr_file (dist.Sha256 TestEnv.firstAsset) (length buf)) = inr b3
    ∧ files (fs (snd TestEnv.body1))
        !! GoPath.Join [TestEnv.tmpDir; dist.Sha256 TestEnv.firstAsset]
      = Some (b1 ++ b2 ++ b3 ++ buf)
    ∧ last (img_layers (img (snd TestEnv.body1)))
      = Some (GoPath.Join [TestEnv.tmpDir; dist.Sha256 TestEnv.firstAsset],
              b1 ++ b2 ++ b3 ++ buf)
    ∧ dist.LayerDiffID <$> default ∅ (returned (fst TestEnv.body1))
                           !! dist.Sha256 TestEnv.firstAsset
      = Some ("sha256:" +:+ Hex.encode (Sha256.sum256 (b1 ++ b2 ++ b3 ++ buf)))
    ∧ ∀ s tw1 s1,
        toDistTar (multi_Write (GoPath.Join [TestEnv.tmpDir; dist.Sha256 TestEnv.firstAsset]))
                  (dist.Sha256 TestEnv.firstAsset) (blob.Bytes buf) (Tar.NewWriter, s)
        = (Return None, (tw1, s1)) →
        Tar.err tw1 = None
        ∧ Tar.pad tw1 = Tar.blockPadding (Z.of_nat (length buf))
        ∧ ∀ tw2 s2,
            Tar.Close (multi_Write
                         (GoPath.Join [TestEnv.tmpDir; dist.Sha256 TestEnv.firstAsset]))
                      tw1 s1
            = (None, tw2, s2) →
            snd s2 = snd s1
                     ++ zeros (Z.to_nat (Tar.blockPadding (Z.of_nat (length buf))))
                     ++ zeros 512 ++ zeros 512.
Proof.
  exact (C10_layer_ends_with_last_data_byte
           TestEnv.image1 TestEnv.tmpDir ∅ (default ∅ (returned (fst TestEnv.body1)))
           TestEnv.firstAsset TestEnv.world0 (snd TestEnv.body1) body1_returns).
Defined.

End PackRuns.

Section RefusingRun.
#[local] Existing Instance TestEnv.E_refusing.

(** The image refuses the second layer: the build panics in the loop. *)
Lemma run_refusing_panics :
  CreateAssetCache TestEnv.opts TestEnv.world0
  = (Panic "layer refused", snd TestEnv.run_refusing).
Proof.
  apply run_eta. vm_compute. reflexivity.
Qed.

Lemma C9_witness :
  (fs (snd TestEnv.run_refusing) = fs TestEnv.world0
   ∧ Forall (λ ev, ev ≠ EvTempDir ∨ (∃ e, ioutil_TempDir (fs TestEnv.world0) = inl e))
            (drop (length (trace TestEnv.world0)) (trace (snd TestEnv.run_refusing))))
  ∨ ∃ tmpDir,
      ioutil_TempDir (fs TestEnv.world0) = inr tmpDir
      ∧ (∀ p, within tmpDir p →
              (p ∉ dirs (fs (snd TestEnv.run_refusing)))
              ∧ files (fs (snd TestEnv.run_refusing)) !! p = None)
      ∧ last (trace (snd TestEnv.run_refusing)) = Some (EvRemoveAll tmpDir).
Proof.
  exact (C9_working_directory_removed_on_every_exit
           TestEnv.opts TestEnv.world0 (snd TestEnv.run_refusing)
           (Panic "layer refused") run_refusing_panics).
Defined.

End RefusingRun.

(* ===================================================================== *)
(** ** Maps built by a loop of insertions, and reordered lists *)
(* ===================================================================== *)

Section InsertLoopFacts.
Context {V : Type} (val : dist.Asset → V).


(** The entry of a key is that of the last asset with this [Sha256]. *)
Lemma insert_loop_lookup l m k :
  insert_loop val l m !! k
  = match last (filter (λ asset, dist.Sha256 asset = k) l) with
    | Some asset => Some (val asset)
    | None => m !! k
    end.
Proof.
  revert m. induction l as [|x l IH]; intros m; simpl; [done|].
  unfold insert_loop in *. simpl. rewrite IH.
  rewrite filter_cons. destruct (decide (dist.Sha256 x = k)) as [<-|Hne].
  - rewrite last_cons. destruct (last _); [done|]. by rewrite lookup_insert_eq.
  - destruct (last _); [done|]. by rewrite lookup_insert_ne.
Qed.


Lemma insert_loop_Permutation l1 l2 m :
  l1 ≡ₚ l2 → one_record_per_hash l1 → insert_loop val l1 m = insert_loop val l2 m.
Proof.
  intros Hp Hone. apply map_eq. intros k. rewrite !insert_loop_lookup.
  pose proof (filter_Permutation (λ asset, dist.Sha256 asset = k) _ _ Hp) as Hf.
  destruct (last (filter _ l1)) as [a1|] eqn:H1;
    destruct (last (filter _ l2)) as [a2|] eqn:H2.
  - apply last_Some_elem_of, list_elem_of_filter in H1 as [Hk1 Hin1].
    apply last_Some_elem_of, list_elem_of_filter in H2 as [Hk2 Hin2].
    rewrite <- Hp in Hin2. f_equal. f_equal. apply Hone; congruence.
  - apply last_None in H2. rewrite H2 in Hf. apply Permutation_nil_r in Hf.
    rewrite Hf in H1. done.
  - apply last_None in H1. rewrite H1 in Hf. symmetry in Hf.
    apply Permutation_nil_r in Hf. rewrite Hf in H2. done.
  - done.
Qed.

End InsertLoopFacts.

Section ReorderFacts.
Context `{Env}.


Lemma blobs_of_insert_loop l m :
  Forall (λ asset, ∃ b, downloader_Download (dist.URI asset) = inr b) l →
  blobs_of l m = insert_loop fetched l m.
Proof.
  unfold blobs_of, insert_loop. intros Hall. revert m.
  induction Hall as [|x l [b Hb] _ IH]; intros m; simpl; [done|].
  rewrite <- IH. unfold fetched. by rewrite Hb.
Qed.

Lemma label_of_insert_loop assetMap l m :
  label_of assetMap l m = insert_loop (labelled assetMap) l m.
Proof. done. Qed.

End ReorderFacts.

Section ReorderClaims.
Context `{Env}.

(** C7, amended. Two successful builds from lists that are permutations
    of each other, in which assets with the same [Sha256] are the same
    record, set the same string as the label
    [io.buildpacks.asset.layers], whatever the worlds they start in. *)
Theorem C7_reordered_list_same_label
        (opts1 opts2 : CreateAssetCacheOptions) (w1 w2 w1' w2' : World) :
  Assets opts1 ≡ₚ Assets opts2 →
  (∀ a b, a ∈ Assets opts1 → b ∈ Assets opts1 →
          dist.Sha256 a = dist.Sha256 b → a = b) →
  CreateAssetCache opts1 w1 = (Return None, w1') →
  CreateAssetCache opts2 w2 = (Return None, w2') →
  ∃ json,
    img_labels (img w1') !! AssetLayersLabel = Some json
    ∧ img_labels (img w2') !! AssetLayersLabel = Some json.
Proof.
  intros Hp Hone H1 H2.
  apply CreateAssetCache_Return_None in H1 as (? & ? & _ & _ & _ & Hd1 & _ & Hi1 & _).
  apply CreateAssetCache_Return_None in H2 as (? & ? & _ & _ & _ & Hd2 & _ & Hi2 & _).
  rewrite Hi1, Hi2. simpl. rewrite !lookup_insert_eq. eexists. split; [reflexivity|].
  rewrite (blobs_of_insert_loop _ _ Hd1), (blobs_of_insert_loop _ _ Hd2).
  rewrite !label_of_insert_loop.
  rewrite <- (insert_loop_Permutation fetched _ _ ∅ Hp Hone).
  by rewrite <- (insert_loop_Permutation _ _ _ ∅ Hp Hone).
Qed.

End ReorderClaims.

Section ReorderRuns.
#[local] Existing Instance TestEnv.E.

Lemma run_swapped_succeeds :
  CreateAssetCache TestEnv.opts_swapped TestEnv.world0
  = (Return None, snd TestEnv.run_swapped).
Proof. apply run_eta. vm_compute. reflexivity. Qed.

Lemma test_assets_swapped : Assets TestEnv.opts ≡ₚ Assets TestEnv.opts_swapped.
Proof. apply perm_swap. Qed.

Lemma test_assets_one_record_per_hash :
  ∀ a b, a ∈ Assets TestEnv.opts → b ∈ Assets TestEnv.opts →
         dist.Sha256 a = dist.Sha256 b → a = b.
Proof.
  intros a b Ha Hb. simpl in Ha, Hb.
  rewrite !elem_of_cons, elem_of_nil in Ha, Hb.
  destruct Ha as [->|[->|[]]], Hb as [->|[->|[]]]; done.
Qed.

Lemma C7_witness :
  ∃ json,
    img_labels (img (snd TestEnv.run)) !! AssetLayersLabel = Some json
    ∧ img_labels (img (snd TestEnv.run_swapped)) !! AssetLayersLabel = Some json.
Proof.
  exact (C7_reordered_list_same_label
           TestEnv.opts TestEnv.opts_swapped TestEnv.world0 TestEnv.world0
           (snd TestEnv.run) (snd TestEnv.run_swapped)
           test_assets_swapped test_assets_one_record_per_hash
           test_run_succeeds run_swapped_succeeds).
Defined.

(** C7 as stated fails when two assets share a [Sha256] and differ in
    another field: the later record is the one that enters the label, so
    the two orders give labels with unlike names. *)
Lemma C7_counterexample_same_hash_two_names :
  Assets TestEnv.opts_ab ≡ₚ Assets TestEnv.opts_ba
  ∧ fst TestEnv.run_ab = Return None
  ∧ fst TestEnv.run_ba = Return None
  ∧ img_labels (img (snd TestEnv.run_ab)) !! AssetLayersLabel
    ≠ img_labels (img (snd TestEnv.run_ba)) !! AssetLayersLabel.
Proof.
  split; [apply perm_swap|].
  split; [vm_compute; reflexivity|]. split; [vm_compute; reflexivity|].
  intros Heq. apply (f_equal (fmap (String.substring 0 64))) in Heq.
  vm_compute in Heq. discriminate.
Qed.

End ReorderRuns.

(* ===================================================================== *)
(** ** getAssets: one asset for each hash, sorted by ID *)
(* ===================================================================== *)

Lemma ascii_compare_Lt_trans (a b c : ascii) :
  Ascii.compare a b = Lt → Ascii.compare b c = Lt → Ascii.compare a c = Lt.
Proof.
  unfold Ascii.compare. rewrite !N.compare_lt_iff. apply N.lt_trans.
Qed.

Lemma string_compare_Lt_trans (x y z : string) :
  String.compare x y = Lt → String.compare y z = Lt → String.compare x z = Lt.
Proof.
  revert y z. induction x as [|a x IH]; intros [|b y] [|c z]; simpl; try done.
  destruct (Ascii.compare a b) eqn:Hab; try done;
    destruct (Ascii.compare b c) eqn:Hbc; try done.
  - apply Ascii.compare_eq_iff in Hab as ->. apply Ascii.compare_eq_iff in Hbc as ->.
    rewrite (proj2 (N.compare_eq_iff _ _) eq_refl : Ascii.compare c c = Eq). apply IH.
  - apply Ascii.compare_eq_iff in Hab as ->. by rewrite Hbc.
  - apply Ascii.compare_eq_iff in Hbc as <-. by rewrite Hab.
  - by rewrite (ascii_compare_Lt_trans _ _ _ Hab Hbc).
Qed.

Lemma ID_le_compare (a b : dist.Asset) :
  commands.ID_le a b ↔ String.compare (dist.ID a) (dist.ID b) ≠ Gt.
Proof.
  unfold commands.ID_le, commands.less, String.ltb.
  rewrite (String.compare_antisym (dist.ID a)).
  destruct (String.compare (dist.ID b) (dist.ID a)); simpl; split; done.
Qed.

Global Instance ID_le_total : Total commands.ID_le.
Proof.
  intros a b. rewrite !ID_le_compare, (String.compare_antisym (dist.ID b)).
  destruct (String.compare (dist.ID a) (dist.ID b)); simpl; auto.
Qed.

Global Instance ID_le_trans : Transitive commands.ID_le.
Proof.
  intros a b c. rewrite !ID_le_compare. intros Hab Hbc Hac.
  destruct (String.compare (dist.ID a) (dist.ID b)) eqn:H1; [| |done].
  - apply String.compare_eq_iff in H1. rewrite H1 in Hac. done.
  - destruct (String.compare (dist.ID b) (dist.ID c)) eqn:H2; [| |done].
    + apply String.compare_eq_iff in H2. rewrite <- H2 in Hac. congruence.
    + rewrite (string_compare_Lt_trans _ _ _ H1 H2) in Hac. done.
Qed.

Lemma size_list_to_set_remove_dups (l : list string) :
  size (list_to_set (C:=gset string) l) = length (remove_dups l).
Proof.
  rewrite <- (size_list_to_set (C:=gset string) (remove_dups l))
    by apply NoDup_remove_dups.
  f_equal. apply set_eq. intros x.
  by rewrite !elem_of_list_to_set, elem_of_remove_dups.
Qed.

Lemma insert_loop_dom {V} (val : dist.Asset → V) l (m : gmap string V) :
  dom (insert_loop val l m) = list_to_set (map dist.Sha256 l) ∪ dom m.
Proof.
  revert m. unfold insert_loop. induction l as [|x l IH]; intros m; simpl; [set_solver|].
  rewrite IH, dom_insert_L. set_solver.
Qed.

Lemma getAssets_assetMap_insert_loop (info : commands.BuildpackInfo) :
  commands.getAssets_assetMap info = insert_loop id (commands.all_assets info) ∅.
Proof.
  unfold commands.getAssets_assetMap, commands.all_assets, insert_loop.
  generalize (∅ : gmap string dist.Asset).
  induction (commands.Buildpacks info) as [|bp bps IH]; intros m; simpl; [done|].
  by rewrite fold_left_app, IH.
Qed.

(** Every entry of [assetMap] is filed under its own [Sha256]. *)
Lemma getAssets_assetMap_keys (info : commands.BuildpackInfo) :
  map dist.Sha256 (map_to_list (commands.getAssets_assetMap info)).*2
  = (map_to_list (commands.getAssets_assetMap info)).*1.
Proof.
  rewrite getAssets_assetMap_insert_loop.
  assert (Forall (λ kv, dist.Sha256 kv.2 = kv.1)
            (map_to_list (insert_loop id (commands.all_assets info) ∅))) as Hall.
  { apply Forall_forall. intros [k v] Hkv. apply elem_of_map_to_list in Hkv.
    rewrite insert_loop_lookup in Hkv. simpl.
    destruct (last _) as [a|] eqn:Hl; [|done]. injection Hkv as <-.
    by apply last_Some_elem_of, list_elem_of_filter in Hl as [? _]. }
  induction Hall as [|kv l Hkv _ IH]; [done|].
  rewrite !fmap_cons, Hkv. f_equal. exact IH.
Qed.

(** What every list [getAssets] may return has in common. *)
Lemma getAssets_returns_spec (info : commands.BuildpackInfo) (result : list dist.Asset) :
  commands.getAssets_returns info result →
  NoDup (map dist.Sha256 result)
  ∧ commands.ID_sorted result
  ∧ (∀ sha, sha ∈ map dist.Sha256 result
            ↔ sha ∈ map dist.Sha256 (commands.all_assets info))
  ∧ length result = length (remove_dups (map dist.Sha256 (commands.all_assets info))).
Proof.
  intros [Hp Hs].
  assert (map dist.Sha256 result ≡ₚ (map_to_list (commands.getAssets_assetMap info)).*1)
    as Hkeys.
  { rewrite <- getAssets_assetMap_keys. by apply fmap_Permutation. }
  assert (dom (commands.getAssets_assetMap info)
          = list_to_set (map dist.Sha256 (commands.all_assets info))) as Hdom.
  { rewrite getAssets_assetMap_insert_loop, insert_loop_dom, dom_empty_L. set_solver. }
  split; [|split; [done|split]].
  - rewrite Hkeys. apply NoDup_fst_map_to_list.
  - intros sha. rewrite Hkeys.
    rewrite <- (elem_of_list_to_set (C:=gset string) sha (map _ (commands.all_assets info))).
    rewrite <- Hdom, elem_of_dom, list_elem_of_fmap. split.
    + intros ([k v] & -> & Hkv). apply elem_of_map_to_list in Hkv. by exists v.
    + intros [v Hv]. exists (sha, v). split; [done|]. by apply elem_of_map_to_list.
  - rewrite <- (length_map dist.Sha256 result), Hkeys, length_fmap.
    rewrite <- size_list_to_set_remove_dups, <- Hdom, size_dom.
    apply length_map_to_list.
Qed.

(** [getAssets] returns: the run that sorts the entries as the map lists
    them is one of its runs. *)
Lemma getAssets_total (info : commands.BuildpackInfo) :
  commands.getAssets_returns info (commands.getAssets info).
Proof.
  split.
  - apply merge_sort_Permutation.
  - apply (StronglySorted_merge_sort commands.ID_le).
Qed.

Lemma layer_of_paths `{Env} tmpDir (am : gmap string blob.Blob) (l : list dist.Asset) :
  (map (layer_of tmpDir am) l).*1
  = map (λ asset, GoPath.Join [tmpDir; dist.Sha256 asset]) l.
Proof.
  induction l as [|x l IH]; [done|].
  change (GoPath.Join [tmpDir; dist.Sha256 x] :: (map (layer_of tmpDir am) l).*1
          = GoPath.Join [tmpDir; dist.Sha256 x]
            :: map (λ asset, GoPath.Join [tmpDir; dist.Sha256 asset]) l).
  by rewrite IH.
Qed.

Section DedupClaims.
Context `{Env}.

(** C3, amended. [CreateAssetCache] does not deduplicate. A successful
    build makes, after the image, one fetch for each element of the list
    it is given, in the order of the list, and then, for each element in
    that order, one pack into a layer file and one attachment of that
    file; so it makes one fetch, one pack and one attachment for each
    distinct [Sha256] when the list has each [Sha256] once. That is the
    case of every list the command's [getAssets] returns: it holds one
    asset for each distinct [Sha256] of the buildpacks' assets, sorted by
    [ID]. *)
Theorem C3_one_fetch_pack_attach_per_listed_asset
        (opts : CreateAssetCacheOptions) (w w' : World) :
  CreateAssetCache opts w = (Return None, w') →
  ∃ tag tmpDir json,
    trace w'
    = trace w ++ [EvNewImage tag true]
      ++ map (λ asset, EvDownload (dist.URI asset)) (Assets opts)
      ++ [EvTempDir]
      ++ concat (map (λ asset,
                        [EvOpenFile (GoPath.Join [tmpDir; dist.Sha256 asset]);
                         EvAddLayer (GoPath.Join [tmpDir; dist.Sha256 asset]);
                         EvCloseFile (GoPath.Join [tmpDir; dist.Sha256 asset])])
                     (Assets opts))
      ++ [EvSetLabel AssetLayersLabel json; EvSave; EvRemoveAll tmpDir]
    ∧ (img_layers (img w')).*1
      = map (λ asset, GoPath.Join [tmpDir; dist.Sha256 asset]) (Assets opts)
    ∧ ∀ info,
        commands.getAssets_returns info (Assets opts) →
        NoDup (map dist.Sha256 (Assets opts))
        ∧ commands.ID_sorted (Assets opts)
        ∧ (∀ sha, sha ∈ map dist.Sha256 (Assets opts)
                  ↔ sha ∈ map dist.Sha256 (commands.all_assets info))
        ∧ length (Assets opts)
          = length (remove_dups (map dist.Sha256 (commands.all_assets info))).
Proof.
  intros Hrun.
  apply CreateAssetCache_Return_None in Hrun
    as (tag & tmpDir & _ & _ & _ & _ & _ & Himg & Htr).
  exists tag, tmpDir, (json_Encode (label_of (blobs_of (Assets opts) ∅) (Assets opts) ∅)).
  split; [exact Htr|]. split; [|intros info; apply getAssets_returns_spec].
  rewrite Himg. apply layer_of_paths.
Qed.

End DedupClaims.

Section InfoRun.
#[local] Existing Instance TestEnv.E.

Lemma run_info_succeeds :
  CreateAssetCache TestEnv.opts_info TestEnv.world0 = (Return None, snd TestEnv.run_info).
Proof. apply run_eta. vm_compute. reflexivity. Qed.

(** The list of [opts_info] is one [getAssets] may return for [info]. *)
Lemma info_returns : commands.getAssets_returns TestEnv.info (Assets TestEnv.opts_info).
Proof.
  split.
  - assert ((map_to_list (commands.getAssets_assetMap TestEnv.info)).*2
            = [TestEnv.renamedAsset; TestEnv.secondAsset]
            ∨ (map_to_list (commands.getAssets_assetMap TestEnv.info)).*2
              = [TestEnv.secondAsset; TestEnv.renamedAsset]) as [-> | ->].
    { vm_compute. auto. }
    + done.
    + apply perm_swap.
  - repeat constructor.
Qed.

Lemma C3_witness :
  ∃ tag tmpDir json,
    trace (snd TestEnv.run_info)
    = trace TestEnv.world0 ++ [EvNewImage tag true]
      ++ map (λ asset, EvDownload (dist.URI asset)) (Assets TestEnv.opts_info)
      ++ [EvTempDir]
      ++ concat (map (λ asset,
                        [EvOpenFile (GoPath.Join [tmpDir; dist.Sha256 asset]);
                         EvAddLayer (GoPath.Join [tmpDir; dist.Sha256 asset]);
                         EvCloseFile (GoPath.Join [tmpDir; dist.Sha256 asset])])
                     (Assets TestEnv.opts_info))
      ++ [EvSetLabel AssetLayersLabel json; EvSave; EvRemoveAll tmpDir]
    ∧ (img_layers (img (snd TestEnv.run_info))).*1
      = map (λ asset, GoPath.Join [tmpDir; dist.Sha256 asset]) (Assets TestEnv.opts_info)
    ∧ NoDup (map dist.Sha256 (Assets TestEnv.opts_info))
    ∧ commands.ID_sorted (Assets TestEnv.opts_info)
    ∧ (∀ sha, sha ∈ map dist.Sha256 (Assets TestEnv.opts_info)
              ↔ sha ∈ map dist.Sha256 (commands.all_assets TestEnv.info))
    ∧ length (Assets TestEnv.opts_info)
      = length (remove_dups (map dist.Sha256 (commands.all_assets TestEnv.info))).
Proof.
  destruct (C3_one_fetch_pack_attach_per_listed_asset
              TestEnv.opts_info TestEnv.world0 (snd TestEnv.run_info) run_info_succeeds)
    as (tag & tmpDir & json & Htr & Hl & Hinfo).
  exists tag, tmpDir, json. split; [exact Htr|]. split; [exact Hl|].
  exact (Hinfo TestEnv.info info_returns).
Defined.

(** C3 as stated fails on a list with two assets of one [Sha256]: the
    build fetches twice and attaches two layers for the one hash. *)
Lemma C3_counterexample_duplicate_hash :
  fst TestEnv.run_ab = Return None
  ∧ remove_dups (map dist.Sha256 (Assets TestEnv.opts_ab)) = ["first-sha256"]
  ∧ List.filter is_fetch (trace (snd TestEnv.run_ab))
    = [EvDownload "https://first-asset-uri"; EvDownload "https://first-asset-uri"]
  ∧ List.filter is_attach (trace (snd TestEnv.run_ab))
    = [EvAddLayer "/tmp/create-asset-scratch042/first-sha256";
       EvAddLayer "/tmp/create-asset-scratch042/first-sha256"]
  ∧ (img_layers (img (snd TestEnv.run_ab))).*1
    = ["/tmp/create-asset-scratch042/first-sha256";
       "/tmp/create-asset-scratch042/first-sha256"].
Proof. repeat split; vm_compute; reflexivity. Qed.

End InfoRun.

(* ===================================================================== *)
(** ** Failures: what is returned and what panics *)
(* ===================================================================== *)

Section TarPreserves.
Context {S : Type}.
Variable w_Write : list byte → S → option error * S.
Variable headerBlocks : Tar.Header → error + list byte.
Variable P : S → Prop.
Hypothesis w_Write_P : ∀ c s e s', w_Write c s = (e, s') → P s → P s'.

Lemma Flush_preserves tw s e tw' s' :
  Tar.Flush w_Write tw s = (e, tw', s') → P s → P s'.
Proof.
  unfold Tar.Flush. intros Hf Hs.
  repeat case_match; simplify_eq; eauto.
Qed.

Lemma writeRawHeader_preserves blk size flag tw s e tw' s' :
  Tar.writeRawHeader w_Write blk size flag tw s = (e, tw', s') → P s → P s'.
Proof.
  unfold Tar.writeRawHeader. intros Hf Hs.
  destruct (Tar.Flush w_Write tw s) as [[e1 tw1] s1] eqn:H1.
  pose proof (Flush_preserves _ _ _ _ _ H1 Hs).
  repeat case_match; simplify_eq; eauto.
Qed.

Lemma WriteHeader_preserves hdr tw s e tw' s' :
  Tar.WriteHeader w_Write headerBlocks hdr tw s = (e, tw', s') → P s → P s'.
Proof.
  unfold Tar.WriteHeader. intros Hf Hs.
  destruct (Tar.Flush w_Write tw s) as [[e1 tw1] s1] eqn:H1.
  pose proof (Flush_preserves _ _ _ _ _ H1 Hs).
  destruct e1; [by simplify_eq|].
  destruct (headerBlocks hdr); [by simplify_eq|].
  destruct (Tar.writeRawHeader _ _ _ _ _ _) as [[e2 tw2] s2] eqn:H2.
  pose proof (writeRawHeader_preserves _ _ _ _ _ _ _ _ H2 H).
  destruct e2; by simplify_eq.
Qed.

Lemma Write_preserves b tw s e tw' s' :
  Tar.Write w_Write b tw s = (e, tw', s') → P s → P s'.
Proof.
  unfold Tar.Write. intros Hf Hs.
  repeat case_match; simplify_eq; eauto.
Qed.

End TarPreserves.

Section FailureFacts.
Context `{Env}.


Lemma extends_without_Save_refl w : extends_without_Save w w.
Proof. exists []. by rewrite app_nil_r. Qed.

Lemma extends_without_Save_trans w1 w2 w3 :
  extends_without_Save w1 w2 → extends_without_Save w2 w3 →
  extends_without_Save w1 w3.
Proof.
  intros (e1 & H1 & F1) (e2 & H2 & F2). exists (e1 ++ e2).
  rewrite H2, H1, app_assoc. split; [done|]. by apply Forall_app.
Qed.

Lemma extends_without_Save_event ev w w' :
  ev ≠ EvSave → trace w' = trace w ++ [ev] → extends_without_Save w w'.
Proof. intros Hev Ht. exists [ev]. split; [done|]. by constructor. Qed.

Lemma multi_Write_world name c (s s' : World * list byte) e :
  multi_Write name c s = (e, s') →
  img (fst s') = img (fst s) ∧ trace (fst s') = trace (fst s).
Proof.
  unfold multi_Write, file_Write. intros Hw.
  repeat case_match; simplify_eq; done.
Qed.

Lemma toDistTar_world name blobSha b st r st' :
  toDistTar (multi_Write name) blobSha b st = (r, st') →
  img (fst (snd st')) = img (fst (snd st))
  ∧ trace (fst (snd st')) = trace (fst (snd st)).
Proof.
  set (P := λ s : World * list byte,
              img (fst s) = img (fst (snd st)) ∧ trace (fst s) = trace (fst (snd st))).
  assert (∀ c s e s', multi_Write name c s = (e, s') → P s → P s') as HP.
  { intros c s e s' Hw [Hi Ht]. apply multi_Write_world in Hw as [Hi' Ht'].
    split; congruence. }
  assert (P (snd st)) as H0 by done.
  unfold toDistTar.
  destruct (Tar.WriteHeader _ _ hdr_cnb _ _) as [[e1 tw1] s1] eqn:H1.
  pose proof (WriteHeader_preserves _ _ P HP _ _ _ _ _ _ H1 H0) as P1.
  destruct e1; [by intros [= <- <-]|].
  destruct (Tar.WriteHeader _ _ hdr_assets _ _) as [[e2 tw2] s2] eqn:H2.
  pose proof (WriteHeader_preserves _ _ P HP _ _ _ _ _ _ H2 P1) as P2.
  destruct e2; [by intros [= <- <-]|].
  destruct b as [buf|e|e]; [|by intros [= <- <-]..].
  destruct (Tar.WriteHeader _ _ (hdr_file _ _) _ _) as [[e3 tw3] s3] eqn:H3.
  pose proof (WriteHeader_preserves _ _ P HP _ _ _ _ _ _ H3 P2) as P3.
  destruct e3; [by intros [= <- <-]|].
  destruct (Tar.Write _ _ _ _) as [[e4 tw4] s4] eqn:H4.
  pose proof (Write_preserves _ P HP _ _ _ _ _ _ H4 P3) as P4.
  by intros [= <- <-].
Qed.

(** One turn of the loop, however it ends: the image stays unsaved, the
    image's [Save] is not called, and a panic has one of the causes of
    [pack_failure]. *)
Lemma Save_body_any a tmpDir m asset w r w' :
  Save_body a tmpDir m asset w = (r, w') →
  img_saved (img w') = img_saved (img w)
  ∧ extends_without_Save w w'
  ∧ ∀ v, r = Panic v → pack_failure (aci_AssetMap a) tmpDir asset v.
Proof.
  unfold Save_body.
  destruct (aci_AssetMap a !! dist.Sha256 asset) as [b|] eqn:Hb.
  2:{ intros [= <- <-]. split; [done|]. split; [apply extends_without_Save_refl|].
      intros v [= <-]. by apply blob_missing. }
  set (p := GoPath.Join [tmpDir; dist.Sha256 asset]).
  unfold bind at 1. unfold os_OpenFile.
  destruct (OpenFile_fault (fs w) p) as [e|] eqn:Ho.
  { intros [= <- <-]. split; [done|]. split.
    - by apply (extends_without_Save_event (EvOpenFile p)).
    - intros v [= <-]. by eapply open_failed. }
  match goal with |- context [toDistTar ?f ?s ?b ?st] =>
    destruct (toDistTar f s b st) as [rt [tw1 [w1 h1]]] eqn:Ht end.
  pose proof (toDistTar_world _ _ _ _ _ _ Ht) as [Hi1 Ht1]. simpl in Hi1, Ht1.
  assert (extends_without_Save w w1) as Hext.
  { by apply (extends_without_Save_event (EvOpenFile p)). }
  destruct rt as [[e|]|v].
  { intros [= <- <-]. rewrite Hi1. do 2 (split; [done|]).
    intros v [= <-]. by eapply tar_failed. }
  2:{ intros [= <- <-]. rewrite Hi1. do 2 (split; [done|]).
      intros v' [= <-]. by eapply blob_failed. }
  apply toDistTar_multi with (c := []) in Ht
      as (buf & -> & _ & _ & _ & _ & Hfiles & _); [|simpl; by rewrite lookup_insert_eq].
  unfold bind, img_AddLayer. rewrite Hfiles, lookup_insert_eq.
  destruct (AddLayer_fault (img w1) p _) as [e|] eqn:Ha.
  { intros [= <- <-]. simpl. rewrite Hi1. split; [done|]. split.
    - eapply extends_without_Save_trans; [exact Hext|].
      by apply (extends_without_Save_event (EvAddLayer p)).
    - intros v [= <-]. by eapply attach_failed. }
  unfold file_Close. simpl.
  assert (extends_without_Save w
            (add_event (EvCloseFile p)
               (set_img {| img_layers := img_layers (img w1) ++ [(p, [] ++ layer_stream (dist.Sha256 asset) buf)];
                           img_labels := img_labels (img w1);
                           img_saved := img_saved (img w1) |}
                  (add_event (EvAddLayer p) w1)))) as Hext2.
  { eapply extends_without_Save_trans; [exact Hext|].
    exists [EvAddLayer p; EvCloseFile p]. simpl. rewrite <- app_assoc.
    split; [done|]. by repeat constructor. }
  destruct (Close_fault p) as [e|] eqn:Hc.
  - intros [= <- <-]. simpl. rewrite Hi1. do 2 (split; [done|]).
    intros v [= <-]. by eapply close_failed.
  - intros [= <- <-]. simpl. rewrite Hi1. do 2 (split; [done|]). done.
Qed.

Lemma Save_loop_any a tmpDir l m w r w' :
  for_range (Save_body a tmpDir) l m w = (r, w') →
  img_saved (img w') = img_saved (img w)
  ∧ extends_without_Save w w'
  ∧ ∀ v, r = Panic v →
         ∃ asset, asset ∈ l ∧ pack_failure (aci_AssetMap a) tmpDir asset v.
Proof.
  revert m w. induction l as [|x l IH]; intros m w; simpl.
  - intros [= <- <-]. split; [done|]. split; [apply extends_without_Save_refl|done].
  - unfold bind at 1.
    destruct (Save_body a tmpDir m x w) as [[m1|v] w1] eqn:Hb;
      apply Save_body_any in Hb as (Hs & He & Hp).
    + intros Hl. apply IH in Hl as (Hs' & He' & Hp').
      split; [congruence|]. split; [by eapply extends_without_Save_trans|].
      intros v Hv. destruct (Hp' v Hv) as (asset & Hin & Hf).
      exists asset. split; [by right|done].
    + intros [= <- <-]. do 2 (split; [done|]).
      intros v' Hv'. exists x. split; [by left|auto].
Qed.

End FailureFacts.

Section FailureFacts2.
Context `{Env}.

Lemma downloadAssets_from_inl l m w e w' :
  downloadAssets_from l m w = (Return (inl e), w') →
  ∃ l1 asset l2,
    l = l1 ++ asset :: l2
    ∧ downloader_Download (dist.URI asset) = inl e
    ∧ fs w' = fs w ∧ img w' = img w
    ∧ trace w' = trace w ++ map (λ asset, EvDownload (dist.URI asset)) (l1 ++ [asset]).
Proof.
  revert m w. induction l as [|x l IH]; intros m w; simpl; [done|].
  destruct (downloader_Download (dist.URI x)) as [e'|b] eqn:Hd.
  - intros [= <- <-]. by exists [], x, l.
  - intros Hl. apply IH in Hl as (l1 & asset & l2 & -> & Ha & Hfs & Himg & Htr).
    exists (x :: l1), asset, l2. rewrite Hfs, Himg, Htr. simpl.
    by rewrite <- app_assoc.
Qed.

Lemma Save_any a w r w' :
  Save a w = (r, w') →
  match r with
  | Return None => img_saved (img w') = true
  | Return (Some e) =>
      (∃ i, Save_fault i = Some e) ∧ img_saved (img w') = img_saved (img w)
  | Panic v =>
      img_saved (img w') = img_saved (img w)
      ∧ extends_without_Save w w'
      ∧ (ioutil_TempDir (fs w) = inl v
         ∨ (∃ tmpDir asset,
              asset ∈ aci_Assets a ∧ pack_failure (aci_AssetMap a) tmpDir asset v)
         ∨ (∃ i json, SetLabel_fault i AssetLayersLabel json = Some v))
  end.
Proof.
  unfold Save. destruct (ioutil_TempDir (fs w)) as [e|tmpDir] eqn:Htmp.
  { intros [= <- <-]. split; [done|]. split; [|by left].
    by apply (extends_without_Save_event EvTempDir). }
  unfold with_defer, bind.
  destruct (for_range _ _ _ _) as [[m|v] w1] eqn:Hloop;
    apply Save_loop_any in Hloop as (Hs & He & Hp); simpl in Hs.
  2:{ intros [= <- <-]. simpl. split; [done|]. split.
      - eapply extends_without_Save_trans;
          [by apply (extends_without_Save_event EvTempDir w
                       (mkdir tmpDir (add_event EvTempDir w)))|].
        eapply extends_without_Save_trans; [exact He|].
        by apply (extends_without_Save_event (EvRemoveAll tmpDir)).
      - right. left. destruct (Hp v eq_refl) as (asset & Hin & Hf). eauto. }
  unfold img_SetLabel.
  destruct (SetLabel_fault _ _ _) as [e|] eqn:Hl.
  { intros [= <- <-]. simpl. split; [done|]. split.
    - eapply extends_without_Save_trans;
        [by apply (extends_without_Save_event EvTempDir w
                       (mkdir tmpDir (add_event EvTempDir w)))|].
      eapply extends_without_Save_trans; [exact He|].
      destruct He as (evs & Hevs & _).
      exists [EvSetLabel AssetLayersLabel (json_Encode m); EvRemoveAll tmpDir].
      simpl. rewrite <- app_assoc. split; [done|]. by repeat constructor.
    - right. right. eauto. }
  unfold img_Save. simpl.
  destruct (Save_fault _) as [e|] eqn:Hv.
  - intros [= <- <-]. simpl. split; [eauto|done].
  - intros [= <- <-]. done.
Qed.

End FailureFacts2.

Section FirstFailureFacts.
Context `{Env}.

Lemma downloadAssets_from_first_failure l1 asset l2 e m w :
  Forall fetchable l1 →
  downloader_Download (dist.URI asset) = inl e →
  downloadAssets_from (l1 ++ asset :: l2) m w
  = (Return (inl e),
     {| fs := fs w; img := img w;
        trace := trace w ++ map (λ asset, EvDownload (dist.URI asset)) (l1 ++ [asset]) |}).
Proof.
  intros Hl1 He. revert m w.
  induction Hl1 as [|x l1 [b Hb] _ IH]; intros m w; simpl.
  - by rewrite He.
  - rewrite Hb, IH. simpl. by rewrite <- app_assoc.
Qed.

Lemma multi_Write_fault name c w h old n e :
  files (fs w) !! name = Some old → Write_fault name old c = Some (n, e) →
  ∃ s', multi_Write name c (w, h) = (Some e, s').
Proof.
  intros Hf Hw. unfold multi_Write, file_Write. simpl. rewrite Hf. simpl. rewrite Hw.
  by eexists.
Qed.

Lemma multi_Write_fine name c w h old :
  files (fs w) !! name = Some old → Write_fault name old c = None →
  ∃ w', multi_Write name c (w, h) = (None, (w', h ++ c))
        ∧ files (fs w') !! name = Some (old ++ c).
Proof.
  intros Hf Hw. unfold multi_Write, file_Write. simpl. rewrite Hf. simpl. rewrite Hw.
  eexists. split; [reflexivity|]. simpl. by rewrite lookup_insert_eq.
Qed.

Lemma first_fault_header_steps path b old hdr msg rest :
  first_fault path b old (header_steps hdr msg ++ rest)
  = match first_fault path b old (header_steps hdr msg) with
    | Some v => Some v
    | None => first_fault path b (((old ++ []) ++ []) ++ header_bytes hdr) rest
    end.
Proof.
  unfold header_steps. simpl.
  destruct (Write_fault path old []) as [[? ?]|]; [done|].
  destruct (tar_headerBlocks hdr); [done|].
  destruct (Write_fault path (old ++ []) []) as [[? ?]|]; [done|].
  by destruct (Write_fault path ((old ++ []) ++ []) (header_bytes hdr)) as [[? ?]|].
Qed.

Lemma WriteHeader_header_steps name b hdr msg tw w h old :
  Tar.err tw = None → Tar.nb tw ≤ 0 → Tar.pad tw = 0 →
  files (fs w) !! name = Some old →
  match first_fault name b old (header_steps hdr msg) with
  | Some v =>
      ∃ e tw' s',
        Tar.WriteHeader (multi_Write name) tar_headerBlocks hdr tw (w, h)
        = (Some e, tw', s')
        ∧ v = errors_Wrapf e msg
  | None =>
      ∃ w' h',
        Tar.WriteHeader (multi_Write name) tar_headerBlocks hdr tw (w, h)
        = (None,
           {| Tar.pad := Tar.blockPadding
                           (if Tar.isHeaderOnlyType (Tar.Typeflag hdr) then 0
                            else Tar.Size hdr);
              Tar.nb := if Tar.isHeaderOnlyType (Tar.Typeflag hdr) then 0
                        else Tar.Size hdr;
              Tar.err := None |},
           (w', h'))
        ∧ files (fs w') !! name = Some (((old ++ []) ++ []) ++ header_bytes hdr)
  end.
Proof.
  intros He Hnb Hpad Hf. unfold header_steps, first_fault, wrapped.
  unfold Tar.WriteHeader, Tar.writeRawHeader, Tar.Flush. rewrite He.
  destruct (0 <? Tar.nb tw) eqn:Hlt; [apply Z.ltb_lt in Hlt; lia|].
  rewrite Hpad. change (zeros (Z.to_nat 0)) with (@nil byte).
  destruct (Write_fault name old []) as [[n e]|] eqn:W1.
  { destruct (multi_Write_fault _ _ _ h _ _ _ Hf W1) as [s' ->]. by eexists _, _, _. }
  destruct (multi_Write_fine _ _ _ h _ Hf W1) as (w1 & -> & Hf1).
  destruct (tar_headerBlocks hdr) as [e|blk] eqn:Hh.
  { by eexists _, _, _. }
  simpl. rewrite Hlt. change (zeros (Z.to_nat 0)) with (@nil byte).
  destruct (Write_fault name (old ++ []) []) as [[n e]|] eqn:W2.
  { destruct (multi_Write_fault _ _ _ (h ++ []) _ _ _ Hf1 W2) as [s' ->].
    by eexists _, _, _. }
  destruct (multi_Write_fine _ _ _ (h ++ []) _ Hf1 W2) as (w2 & -> & Hf2).
  unfold header_bytes. rewrite Hh.
  destruct (Write_fault name ((old ++ []) ++ []) blk) as [[n e]|] eqn:W3.
  { destruct (multi_Write_fault _ _ _ ((h ++ []) ++ []) _ _ _ Hf2 W3) as [s' ->].
    by eexists _, _, _. }
  destruct (multi_Write_fine _ _ _ ((h ++ []) ++ []) _ Hf2 W3) as (w3 & -> & Hf3).
  simpl. by eexists _, _.
Qed.

Lemma toDistTar_first_fault name blobSha b w :
  files (fs w) !! name = Some [] →
  match first_fault name b [] (tar_steps blobSha b) with
  | Some v =>
      ∃ st', toDistTar (multi_Write name) blobSha b (Tar.NewWriter, (w, [])) = (Panic v, st')
             ∨ toDistTar (multi_Write name) blobSha b (Tar.NewWriter, (w, []))
               = (Return (Some v), st')
  | None =>
      ∃ st', toDistTar (multi_Write name) blobSha b (Tar.NewWriter, (w, []))
             = (Return None, st')
  end.
Proof.
  intros Hfile. unfold toDistTar, tar_steps. cbn [fst snd].
  rewrite first_fault_header_steps.
  pose proof (WriteHeader_header_steps name b hdr_cnb "writing buildpack id dir header"
                Tar.NewWriter w [] [] eq_refl (Z.le_refl 0) eq_refl Hfile) as H1.
  destruct (first_fault name b [] (header_steps hdr_cnb _)) as [v|].
  { destruct H1 as (e & tw' & s' & -> & ->). eexists. by right. }
  destruct H1 as (w1 & h1 & -> & Hf1).
  rewrite first_fault_header_steps.
  match goal with |- context [Tar.WriteHeader _ _ hdr_assets ?tw _] =>
    pose proof (WriteHeader_header_steps name b hdr_assets
                  "writing buildpack version dir header" tw w1 h1 _
                  eq_refl (Z.le_refl 0) eq_refl Hf1) as H2 end.
  destruct (first_fault name b _ (header_steps hdr_assets _)) as [v|].
  { destruct H2 as (e & tw' & s' & -> & ->). eexists. by right. }
  destruct H2 as (w2 & h2 & -> & Hf2).
  cbn [app first_fault].
  destruct b as [buf|e|e]; [|eexists; by left..].
  rewrite first_fault_header_steps.
  match goal with |- context [Tar.WriteHeader _ _ (hdr_file _ _) ?tw _] =>
    pose proof (WriteHeader_header_steps name (blob.Bytes buf)
                  (hdr_file blobSha (length buf))
                  "writing buildpack version dir header" tw w2 h2 _
                  eq_refl (Z.le_refl 0) eq_refl Hf2) as H3 end.
  destruct (first_fault name _ _ (header_steps (hdr_file _ _) _)) as [v|].
  { destruct H3 as (e & tw' & s' & -> & ->). eexists. by right. }
  destruct H3 as (w3 & h3 & -> & Hf3).
  unfold Tar.Write. cbn [Tar.err Tar.nb Tar.pad].
  change (Tar.isHeaderOnlyType (Tar.Typeflag (hdr_file blobSha (length buf)))) with false.
  change (Tar.Size (hdr_file blobSha (length buf))) with (Z.of_nat (length buf)).
  rewrite Z.ltb_irrefl.
  destruct buf as [|x buf]; [by eexists|].
  cbn [first_fault wrapped].
  match goal with |- context [Write_fault name ?old ?c] =>
    destruct (Write_fault name old c) as [[n e]|] eqn:W end.
  - destruct (multi_Write_fault _ _ _ h3 _ _ _ Hf3 W) as [s' ->]. eexists. by right.
  - destruct (multi_Write_fine _ _ _ h3 _ Hf3 W) as (w4 & -> & Hf4). by eexists.
Qed.

Lemma Save_body_first_fault a tmpDir m asset w :
  match turn_fault tmpDir (aci_AssetMap a) asset (fs w) (img w) with
  | Some v => ∃ w', Save_body a tmpDir m asset w = (Panic v, w')
  | None =>
      ∃ m' w', Save_body a tmpDir m asset w = (Return m', w')
               ∧ (fs w', img w') = after_turn tmpDir (aci_AssetMap a) asset (fs w, img w)
  end.
Proof.
  unfold turn_fault.
  destruct (aci_AssetMap a !! dist.Sha256 asset) as [b|] eqn:Hb.
  2:{ unfold Save_body. rewrite Hb. by eexists. }
  set (p := GoPath.Join [tmpDir; dist.Sha256 asset]).
  destruct (OpenFile_fault (fs w) p) as [e|] eqn:Ho.
  { unfold Save_body. rewrite Hb. fold p. unfold bind, os_OpenFile. rewrite Ho.
    by eexists. }
  set (w1 := set_fs (set_file p [] (fs w)) (add_event (EvOpenFile p) w)).
  assert (files (fs w1) !! p = Some []) as Hf1 by (simpl; by rewrite lookup_insert_eq).
  pose proof (toDistTar_first_fault p (dist.Sha256 asset) b w1 Hf1) as Ht.
  destruct (first_fault p b [] _) as [v|].
  { destruct Ht as [[tw' [w' h']] [Ht|Ht]];
      unfold Save_body; rewrite Hb; fold p; unfold bind, os_OpenFile; rewrite Ho;
      fold w1; rewrite Ht; by eexists. }
  destruct Ht as [[tw' [w' h']] Ht].
  pose proof Ht as Hm.
  apply toDistTar_multi with (c := []) in Hm
    as (buf & -> & _ & _ & _ & -> & Hfiles & Hdirs & Himg & _); [|done].
  assert (asset_stream (aci_AssetMap a) asset = layer_stream (dist.Sha256 asset) buf)
    as Hs by (unfold asset_stream; by rewrite Hb).
  rewrite Hs.
  assert (AddLayer_fault (img w) p (layer_stream (dist.Sha256 asset) buf)
          = AddLayer_fault (img w') p ([] ++ layer_stream (dist.Sha256 asset) buf))
    as Ha by (by rewrite Himg).
  rewrite Ha.
  destruct (AddLayer_fault (img w') p _) as [e|] eqn:Hadd.
  { unfold Save_body. rewrite Hb. fold p. unfold bind at 1. unfold os_OpenFile.
    rewrite Ho. fold w1. rewrite Ht. unfold bind, img_AddLayer.
    rewrite Hfiles, lookup_insert_eq, Hadd. by eexists. }
  destruct (Close_fault p) as [e|] eqn:Hc.
  { unfold Save_body. rewrite Hb. fold p. unfold bind at 1. unfold os_OpenFile.
    rewrite Ho. fold w1. rewrite Ht. unfold bind, img_AddLayer.
    rewrite Hfiles, lookup_insert_eq, Hadd. unfold file_Close. rewrite Hc. by eexists. }
  unfold Save_body. rewrite Hb. fold p. unfold bind at 1. unfold os_OpenFile.
  rewrite Ho. fold w1. rewrite Ht. unfold bind, img_AddLayer.
  rewrite Hfiles, lookup_insert_eq, Hadd. unfold file_Close. rewrite Hc.
  eexists _, _. split; [reflexivity|]. unfold after_turn, add_layer, layer_of. simpl.
  fold p. rewrite Hs, Himg. simpl. f_equal.
  destruct (fs w') as [d' f']. simpl in *. subst d' f'.
  unfold set_file. simpl. by rewrite insert_insert_eq.
Qed.

Lemma Save_loop_first_fault a tmpDir l m w :
  match turns_fault tmpDir (aci_AssetMap a) l (fs w, img w) with
  | Some v => ∃ w', for_range (Save_body a tmpDir) l m w = (Panic v, w')
  | None => ∃ m' w', for_range (Save_body a tmpDir) l m w = (Return m', w')
  end.
Proof.
  revert m w. induction l as [|x l IH]; intros m w; simpl; [by eexists _, _|].
  pose proof (Save_body_first_fault a tmpDir m x w) as Hb.
  destruct (turn_fault _ _ _ _ _) as [v|].
  - destruct Hb as [w' Hb]. unfold bind. rewrite Hb. by eexists.
  - destruct Hb as (m' & w' & Hb & <-). unfold bind. rewrite Hb. apply IH.
Qed.

Lemma downloadAssets_from_fetch_fault l m w :
  match fetch_fault l with
  | Some v => ∃ w', downloadAssets_from l m w = (Return (inl v), w')
  | None => ∃ w', downloadAssets_from l m w = (Return (inr (blobs_of l m)), w')
  end.
Proof.
  revert m w. induction l as [|x l IH]; intros m w; simpl; [by eexists|].
  unfold blobs_of. simpl.
  destruct (downloader_Download (dist.URI x)) as [e|b]; [by eexists|]. apply IH.
Qed.

Lemma first_failing_fetch l asset e :
  asset ∈ l → downloader_Download (dist.URI asset) = inl e →
  ∃ l1 a l2 v, l = l1 ++ a :: l2 ∧ Forall fetchable l1
               ∧ downloader_Download (dist.URI a) = inl v.
Proof.
  intros Hin He. induction l as [|x l IH]; [by apply elem_of_nil in Hin|].
  destruct (downloader_Download (dist.URI x)) as [v|b] eqn:Hx.
  - by exists [], x, l, v.
  - apply elem_of_cons in Hin as [->|Hin]; [congruence|].
    destruct (IH Hin) as (l1 & a & l2 & v & -> & Hl1 & Ha).
    exists (x :: l1), a, l2, v. split; [done|]. split; [|done].
    constructor; [by exists b|done].
Qed.

Lemma CreateAssetCache_build_result opts w :
  fst (CreateAssetCache opts w) = build_result opts w.
Proof.
  unfold CreateAssetCache, build_result, validateConfig.
  destruct (name_NewTag (ImageName opts)) as [e|tag]; [done|]. simpl.
  unfold bind at 1. unfold imageFactory_NewImage.
  destruct (NewImage_fault tag true) as [e|]; [done|].
  unfold bind, downloadAssets.
  match goal with |- context [downloadAssets_from ?l ?m ?w0] =>
    pose proof (downloadAssets_from_fetch_fault l m w0) as Hd end.
  destruct (fetch_fault (Assets opts)) as [v|].
  { destruct Hd as [w1 ->]. done. }
  destruct Hd as [w1 Hd]. rewrite Hd.
  apply downloadAssets_from_inr in Hd as (_ & _ & Hfs & Himg & _).
  simpl in Hfs, Himg. unfold Save. rewrite Hfs.
  destruct (ioutil_TempDir (fs w)) as [v|tmpDir]; [done|].
  unfold with_defer, bind.
  set (a := NewAssetCacheImage (blobs_of (Assets opts) ∅) (Assets opts)).
  pose proof (Save_loop_first_fault a tmpDir (Assets opts) ∅
                (mkdir tmpDir (add_event EvTempDir w1))) as Hl.
  simpl in Hl. rewrite Hfs, Himg in Hl. simpl.
  destruct (turns_fault _ _ _ _) as [v|].
  { destruct Hl as [w2 ->]. done. }
  destruct Hl as (m' & w2 & Hl). rewrite Hl.
  apply Save_loop_Return in Hl as (_ & -> & _ & Hi2 & _).
  simpl in Hi2. rewrite Himg in Hi2. simpl in Hi2.
  unfold img_SetLabel. rewrite Hi2. simpl.
  destruct (SetLabel_fault _ _ _) as [v|]; [done|].
  unfold img_Save. simpl. by destruct (Save_fault _).
Qed.

End FirstFailureFacts.

Section FailureClaims.
Context `{Env}.

(** C4, amended. The result of [CreateAssetCache] is that of the first
    failure among the answers of its collaborators, in the order the
    build asks for them ([build_result]): the error of the name
    validation, of the image creation and of the image's final [Save] is
    returned to the caller; a failure of a fetch, of the creation of the
    working directory, of a turn of packing (the blob is missing, the
    layer file does not open, a header is not serialised or a write
    fails, the blob does not open or read, the image refuses the layer,
    the file does not close) or of [SetLabel] is not returned: the build
    panics with the value of that failure. So when the fetch of a listed
    asset fails, the build panics with the error of the first fetch that
    fails, that fetch is the last call of the build, and the image is
    not saved. Conversely a returned error and a panic have one of these
    causes, and whenever the build panics the image's [Save] was not
    called and the image is not saved. *)
Theorem C4_failures_returned_or_panicked
        (opts : CreateAssetCacheOptions) (w w' : World) (r : Res (option error)) :
  CreateAssetCache opts w = (r, w') →
  r = build_result opts w
  ∧ (∀ tag asset e,
       name_NewTag (ImageName opts) = inr tag →
       NewImage_fault tag true = None →
       asset ∈ Assets opts →
       downloader_Download (dist.URI asset) = inl e →
       ∃ l1 a l2 v,
         Assets opts = l1 ++ a :: l2
         ∧ Forall fetchable l1
         ∧ downloader_Download (dist.URI a) = inl v
         ∧ r = Panic v
         ∧ img_saved (img w') = false
         ∧ fs w' = fs w
         ∧ trace w'
           = trace w ++ [EvNewImage tag true]
             ++ map (λ asset, EvDownload (dist.URI asset)) (l1 ++ [a]))
  ∧ match r with
    | Return None => img_saved (img w') = true
    | Return (Some e) =>
        (∃ e0, name_NewTag (ImageName opts) = inl e0
               ∧ e = "invalid asset cache image name: " +:+ fmt_q e0
               ∧ w' = w)
        ∨ (∃ tag e0, name_NewTag (ImageName opts) = inr tag
                     ∧ NewImage_fault tag true = Some e0
                     ∧ e = "unable to create asset cache image: " +:+ fmt_q e0
                     ∧ w' = add_event (EvNewImage tag true) w)
        ∨ (∃ i, Save_fault i = Some e ∧ img_saved (img w') = false)
    | Panic v =>
        img_saved (img w') = false
        ∧ Forall (λ ev, ev ≠ EvSave) (drop (length (trace w)) (trace w'))
        ∧ ((∃ tag l1 asset l2,
              name_NewTag (ImageName opts) = inr tag
              ∧ Assets opts = l1 ++ asset :: l2
              ∧ downloader_Download (dist.URI asset) = inl v
              ∧ fs w' = fs w
              ∧ trace w'
                = trace w ++ [EvNewImage tag true]
                  ++ map (λ asset, EvDownload (dist.URI asset)) (l1 ++ [asset]))
           ∨ ioutil_TempDir (fs w) = inl v
           ∨ (∃ tmpDir asset,
                asset ∈ Assets opts
                ∧ pack_failure (blobs_of (Assets opts) ∅) tmpDir asset v)
           ∨ (∃ i json, SetLabel_fault i AssetLayersLabel json = Some v))
    end.
Proof.
  intros Hrun. split; [|split].
  { by rewrite <- CreateAssetCache_build_result, Hrun. }
  { intros tag asset e Htag Hnew Hin He.
    destruct (first_failing_fetch _ _ _ Hin He) as (l1 & a & l2 & v & Hl & Hl1 & Ha).
    exists l1, a, l2, v. do 3 (split; [done|]).
    revert Hrun. unfold CreateAssetCache, validateConfig. rewrite Htag. simpl.
    unfold bind at 1. unfold imageFactory_NewImage. rewrite Hnew.
    unfold bind, downloadAssets.
    rewrite Hl, (downloadAssets_from_first_failure _ _ _ _ _ _ Hl1 Ha).
    intros [= <- <-]. simpl. by rewrite <- app_assoc. }
  revert Hrun.
  unfold CreateAssetCache, validateConfig.
  destruct (name_NewTag (ImageName opts)) as [e|tag] eqn:Htag; simpl.
  { intros [= <- <-]. left. by exists e. }
  unfold bind at 1. unfold imageFactory_NewImage.
  destruct (NewImage_fault tag true) as [e|] eqn:Hnew.
  { intros [= <- <-]. right. left. by exists tag, e. }
  unfold bind, downloadAssets.
  destruct (downloadAssets_from _ _ _) as [[[e|assetMap]|v] w1] eqn:Hdl.
  - intros [= <- <-].
    apply downloadAssets_from_inl in Hdl
      as (l1 & asset & l2 & Hl & Ha & Hfs & Himg & Htr).
    simpl in Hfs, Himg, Htr. rewrite Himg, Htr. simpl. split; [done|]. split.
    + rewrite <- app_assoc, drop_app_length. simpl.
      constructor; [done|]. apply Forall_fmap, Forall_forall. done.
    + left. exists tag, l1, asset, l2. by rewrite <- app_assoc.
  - apply downloadAssets_from_inr in Hdl as (-> & _ & Hfs & Himg & Htr).
    simpl in Hfs, Himg, Htr. intros Hsave. apply Save_any in Hsave.
    destruct r as [[e|]|v]; [| done|].
    + destruct Hsave as [Hf Hs]. right. right.
      destruct Hf as [i Hi]. exists i. by rewrite Hs, Himg.
    + destruct Hsave as (Hs & (evs & Hev & Hall) & Hcause).
      rewrite Hs, Himg. simpl. split; [done|]. split.
      * rewrite Hev, Htr, <- !app_assoc, drop_app_length. simpl.
        constructor; [done|]. apply Forall_app. split; [|done].
        apply Forall_fmap, Forall_forall. done.
      * right. by rewrite Hfs in Hcause.
  - by destruct (downloadAssets_from_returns (Assets opts) ∅
                   (set_img {| img_layers := []; img_labels := ∅; img_saved := false |}
                            (add_event (EvNewImage tag true) w))) as [r' Hr'];
      rewrite Hdl in Hr'.
Qed.

End FailureClaims.

Section UnreachableRun.
#[local] Existing Instance TestEnv.E_unreachable.

Lemma run_unreachable_panics :
  CreateAssetCache TestEnv.opts TestEnv.world0
  = (Panic "connection refused", snd TestEnv.run_unreachable).
Proof. apply run_eta. vm_compute. reflexivity. Qed.

Lemma C4_witness :
  Panic "connection refused" = build_result TestEnv.opts TestEnv.world0
  ∧ (∀ tag asset e,
       name_NewTag (ImageName TestEnv.opts) = inr tag →
       NewImage_fault tag true = None →
       asset ∈ Assets TestEnv.opts →
       downloader_Download (dist.URI asset) = inl e →
       ∃ l1 a l2 v,
         Assets TestEnv.opts = l1 ++ a :: l2
         ∧ Forall fetchable l1
         ∧ downloader_Download (dist.URI a) = inl v
         ∧ @Panic (option error) "connection refused" = Panic v
         ∧ img_saved (img (snd TestEnv.run_unreachable)) = false
         ∧ fs (snd TestEnv.run_unreachable) = fs TestEnv.world0
         ∧ trace (snd TestEnv.run_unreachable)
           = trace TestEnv.world0 ++ [EvNewImage tag true]
             ++ map (λ asset, EvDownload (dist.URI asset)) (l1 ++ [a]))
  ∧ img_saved (img (snd TestEnv.run_unreachable)) = false
  ∧ Forall (λ ev, ev ≠ EvSave)
           (drop (length (trace TestEnv.world0)) (trace (snd TestEnv.run_unreachable)))
  ∧ ((∃ tag l1 asset l2,
        name_NewTag (ImageName TestEnv.opts) = inr tag
        ∧ Assets TestEnv.opts = l1 ++ asset :: l2
        ∧ downloader_Download (dist.URI asset) = inl "connection refused"
        ∧ fs (snd TestEnv.run_unreachable) = fs TestEnv.world0
        ∧ trace (snd TestEnv.run_unreachable)
          = trace TestEnv.world0 ++ [EvNewImage tag true]
            ++ map (λ asset, EvDownload (dist.URI asset)) (l1 ++ [asset]))
     ∨ ioutil_TempDir (fs TestEnv.world0) = inl "connection refused"
     ∨ (∃ tmpDir asset,
          asset ∈ Assets TestEnv.opts
          ∧ pack_failure (blobs_of (Assets TestEnv.opts) ∅) tmpDir asset
                         "connection refused")
     ∨ (∃ i json, SetLabel_fault i AssetLayersLabel json = Some "connection refused")).
Proof.
  exact (C4_failures_returned_or_panicked
           TestEnv.opts TestEnv.world0 (snd TestEnv.run_unreachable)
           (Panic "connection refused") run_unreachable_panics).
Defined.

(** C4 as stated fails on a failed fetch: the error of the downloader is
    not returned to the caller, the build panics with it. *)
Lemma C4_counterexample_fetch_failure :
  downloader_Download (dist.URI TestEnv.secondAsset) = inl "connection refused"
  ∧ fst TestEnv.run_unreachable = Panic "connection refused"
  ∧ ∀ e : option error, fst TestEnv.run_unreachable ≠ Return e.
Proof.
  split; [vm_compute; reflexivity|].
  assert (fst TestEnv.run_unreachable = Panic "connection refused") as Hp
    by (vm_compute; reflexivity).
  split; [exact Hp|]. intros e. rewrite Hp. discriminate.
Qed.

End UnreachableRun.

(* ===================================================================== *)
(** ** Runs without faults: the build goes through *)
(* ===================================================================== *)

Section TarProgress.
Context {S : Type}.
Variable w_Write : list byte → S → option error * S.
Variable headerBlocks : Tar.Header → error + list byte.
Hypothesis w_Write_ok : ∀ c s, fst (w_Write c s) = None.

Lemma w_Write_ok' c s : ∃ s', w_Write c s = (None, s').
Proof.
  specialize (w_Write_ok c s). destruct (w_Write c s) as [e s'].
  simpl in *. subst. by exists s'.
Qed.

Lemma Flush_progress tw s :
  Tar.err tw = None → Tar.nb tw ≤ 0 →
  ∃ tw' s', Tar.Flush w_Write tw s = (None, tw', s').
Proof.
  intros He Hnb. unfold Tar.Flush. rewrite He.
  destruct (0 <? Tar.nb tw) eqn:Hlt; [apply Z.ltb_lt in Hlt; lia|].
  destruct (w_Write_ok' (zeros (Z.to_nat (Tar.pad tw))) s) as [s' ->]. eauto.
Qed.

Lemma WriteHeader_progress hdr blk tw s :
  Tar.err tw = None → Tar.nb tw ≤ 0 → headerBlocks hdr = inr blk →
  ∃ tw' s', Tar.WriteHeader w_Write headerBlocks hdr tw s = (None, tw', s').
Proof.
  intros He Hnb Hblk. unfold Tar.WriteHeader, Tar.writeRawHeader.
  destruct (Flush_progress tw s He Hnb) as (tw1 & s1 & H1). rewrite H1, Hblk.
  apply Flush_None in H1 as (_ & _ & _ & ->).
  destruct (Flush_progress {| Tar.pad := 0; Tar.nb := Tar.nb tw; Tar.err := None |} s1
              eq_refl Hnb) as (tw2 & s2 & H2). rewrite H2.
  destruct (w_Write_ok' blk s2) as [s3 ->]. eauto.
Qed.

Lemma Write_progress b tw s :
  Tar.err tw = None → Z.of_nat (length b) ≤ Tar.nb tw →
  ∃ tw' s', Tar.Write w_Write b tw s = (None, tw', s').
Proof.
  intros He Hnb. unfold Tar.Write. rewrite He.
  destruct (Tar.nb tw <? Z.of_nat (length b)) eqn:Hlt; [apply Z.ltb_lt in Hlt; lia|].
  destruct b as [|x b]; [eauto|].
  destruct (w_Write_ok' (x :: b) s) as [s' ->]. eauto.
Qed.

End TarProgress.

Section Progress.
Context `{Env}.

Lemma toDistTar_progress {S} (w_Write : list byte → S → option error * S)
      blobSha buf s :
  (∀ c s, fst (w_Write c s) = None) →
  encodable hdr_cnb → encodable hdr_assets →
  encodable (hdr_file blobSha (length buf)) →
  ∃ tw' s', toDistTar w_Write blobSha (blob.Bytes buf) (Tar.NewWriter, s)
            = (Return None, (tw', s')).
Proof.
  intros Hok H1 H2 H3. unfold toDistTar. simpl.
  pose proof (Z.le_refl 0) as H00.
  destruct (WriteHeader_progress w_Write tar_headerBlocks Hok hdr_cnb _ Tar.NewWriter s
              eq_refl H00 H1) as (tw1 & s1 & E1).
  rewrite E1. apply WriteHeader_None in E1 as (? & _ & _ & _ & _ & ->).
  match goal with |- context [Tar.WriteHeader _ _ hdr_assets ?tw _] =>
    destruct (WriteHeader_progress w_Write tar_headerBlocks Hok hdr_assets _ tw s1
                eq_refl H00 H2) as (tw2 & s2 & E2) end.
  rewrite E2. apply WriteHeader_None in E2 as (? & _ & _ & _ & _ & ->).
  match goal with |- context [Tar.WriteHeader _ _ (hdr_file _ _) ?tw _] =>
    destruct (WriteHeader_progress w_Write tar_headerBlocks Hok
                (hdr_file blobSha (length buf)) _ tw s2 eq_refl H00 H3)
      as (tw3 & s3 & E3) end.
  rewrite E3. apply WriteHeader_None in E3 as (? & _ & _ & _ & _ & ->).
  match goal with |- context [Tar.Write _ _ ?tw _] =>
    destruct (Write_progress w_Write Hok buf tw s3 eq_refl (Z.le_refl _))
      as (tw4 & s4 & E4) end.
  rewrite E4. eauto.
Qed.

Lemma multi_Write_never_fails name :
  (∀ p old c, Write_fault p old c = None) →
  ∀ c s, fst (multi_Write name c s) = None.
Proof.
  intros Hw c s. unfold multi_Write, file_Write. by rewrite Hw.
Qed.

Lemma Save_body_progress a tmpDir m asset w :
  no_file_faults → (∀ i p c, AddLayer_fault i p c = None) →
  packable (aci_AssetMap a) asset →
  ∃ m' w', Save_body a tmpDir m asset w = (Return m', w').
Proof.
  intros (Ho & Hw & Hc) Ha (buf & Hb & H1 & H2 & H3).
  unfold Save_body. rewrite Hb. unfold bind at 1. unfold os_OpenFile. rewrite Ho.
  match goal with |- context [toDistTar ?f ?sh _ (Tar.NewWriter, ?s0)] =>
    destruct (toDistTar_progress f sh buf s0 (multi_Write_never_fails _ Hw) H1 H2 H3)
      as (tw1 & [w1 h1] & Ht); rewrite Ht end.
  apply toDistTar_multi with (c := []) in Ht
      as (? & _ & _ & _ & _ & _ & Hfiles & _); [|simpl; by rewrite lookup_insert_eq].
  unfold bind, img_AddLayer. rewrite Hfiles, lookup_insert_eq, Ha.
  unfold file_Close. rewrite Hc. eauto.
Qed.

Lemma Save_loop_progress a tmpDir l m w :
  no_file_faults → (∀ i p c, AddLayer_fault i p c = None) →
  Forall (packable (aci_AssetMap a)) l →
  ∃ m' w', for_range (Save_body a tmpDir) l m w = (Return m', w').
Proof.
  intros Hf Ha Hl. revert m w.
  induction Hl as [|x l Hx _ IH]; intros m w; simpl; [by eexists _, _|].
  unfold bind at 1.
  destruct (Save_body_progress a tmpDir m x w Hf Ha Hx) as (m1 & w1 & ->). apply IH.
Qed.

Lemma Save_progress a w tmpDir :
  no_file_faults → no_image_faults →
  ioutil_TempDir (fs w) = inr tmpDir →
  Forall (packable (aci_AssetMap a)) (aci_Assets a) →
  ∃ w', Save a w = (Return None, w').
Proof.
  intros Hf (Ha & Hl & Hs) Htmp Hp. unfold Save. rewrite Htmp.
  unfold with_defer, bind.
  destruct (Save_loop_progress a tmpDir (aci_Assets a) ∅
              (mkdir tmpDir (add_event EvTempDir w)) Hf Ha Hp) as (m' & w1 & ->).
  unfold img_SetLabel. rewrite Hl. unfold img_Save. simpl. rewrite Hs. eauto.
Qed.

Lemma downloadAssets_from_progress l m w :
  Forall fetchable l →
  ∃ w', downloadAssets_from l m w = (Return (inr (blobs_of l m)), w').
Proof.
  intros Hl. revert m w.
  induction Hl as [|x l [b Hb] _ IH]; intros m w; simpl; [by eexists|].
  change (blobs_of (x :: l) m)
    with (blobs_of l (match downloader_Download (dist.URI x) with
                      | inr b => <[dist.Sha256 x := b]> m
                      | inl _ => m
                      end)).
  rewrite Hb. apply IH.
Qed.

End Progress.

(* ===================================================================== *)
(** ** filepath.Join of the working directory and a hash *)
(* ===================================================================== *)

Lemma string_app_assoc (a b c : string) : (a +:+ b) +:+ c = a +:+ b +:+ c.
Proof.
  induction a as [|x a IH]; [done|].
  change (String x ((a +:+ b) +:+ c) = String x (a +:+ b +:+ c)). by rewrite IH.
Qed.

Lemma string_prefix_app (a b : string) : String.prefix a (a +:+ b) = true.
Proof.
  induction a as [|x a IH]; [by destruct b|].
  change (String.prefix (String x a) (String x (a +:+ b)) = true). simpl.
  destruct (ascii_dec x x); [exact IH|done].
Qed.

(** [strings.Split] of two strings with a slash between them. *)
Lemma split_slash_app (a b : string) :
  GoPath.split_slash (a +:+ "/" +:+ b) = GoPath.split_slash a ++ GoPath.split_slash b.
Proof.
  induction a as [|x a IH]; [done|].
  change (GoPath.split_slash (String x (a +:+ "/" +:+ b))
          = GoPath.split_slash (String x a) ++ GoPath.split_slash b).
  simpl. rewrite IH. destruct (Ascii.eqb x "/"); [done|].
  pose proof (split_slash_nonempty a). by destruct (GoPath.split_slash a).
Qed.

Lemma join_slash_app (l1 l2 : list string) :
  l1 ≠ [] → l2 ≠ [] →
  GoPath.join_slash (l1 ++ l2) = GoPath.join_slash l1 +:+ "/" +:+ GoPath.join_slash l2.
Proof.
  intros H1 H2. induction l1 as [|x [|y l1] IH]; [done| |].
  - destruct l2; [done|]. done.
  - change (GoPath.join_slash ((x :: y :: l1) ++ l2))
      with (x +:+ "/" +:+ GoPath.join_slash ((y :: l1) ++ l2)).
    rewrite IH by done.
    change (GoPath.join_slash (x :: y :: l1))
      with (x +:+ "/" +:+ GoPath.join_slash (y :: l1)).
    by rewrite !string_app_assoc.
Qed.

Lemma Join_dir_hash (dir blobSha : string) :
  clean_absolute dir → clean_path blobSha →
  GoPath.Join [dir; blobSha] = dir +:+ "/" +:+ blobSha.
Proof.
  intros (q & -> & Hq) Hp. unfold GoPath.Join.
  destruct (decide ("/" +:+ q = "")) as [|_]; [done|].
  unfold GoPath.Clean.
  change (GoPath.join_slash ["/" +:+ q; blobSha]) with (("/" +:+ q) +:+ "/" +:+ blobSha).
  destruct (decide (("/" +:+ q) +:+ "/" +:+ blobSha = "")) as [|_]; [done|].
  rewrite (string_app_assoc "/" q), (string_prefix_app "/").
  change (GoPath.split_slash ("/" +:+ q +:+ "/" +:+ blobSha))
    with ("" :: GoPath.split_slash (q +:+ "/" +:+ blobSha)).
  rewrite split_slash_app.
  assert (∀ l, GoPath.clean_elems true [] ("" :: l) = GoPath.clean_elems true [] l) as ->.
  { intros l. simpl. by destruct (decide ("" = "" ∨ "" = ".")) as [_|[]]; [|left]. }
  rewrite clean_elems_names by (by apply Forall_app). simpl rev. rewrite app_nil_l.
  rewrite join_slash_app by apply split_slash_nonempty.
  by rewrite !join_split_slash.
Qed.

Lemma within_dir_hash (dir blobSha : string) :
  within dir (dir +:+ "/" +:+ blobSha).
Proof.
  right. rewrite <- (string_app_assoc dir "/" blobSha). apply string_prefix_app.
Qed.

(* ===================================================================== *)
(** ** The build beyond its claims: fetches, blobs, failures, files *)
(* ===================================================================== *)

Lemma last_with_hash_elem (asset : dist.Asset) (l : list dist.Asset) :
  asset ∈ l →
  ∃ a', last_with_hash (dist.Sha256 asset) l = Some a'
        ∧ a' ∈ l ∧ dist.Sha256 a' = dist.Sha256 asset.
Proof.
  intros Hin. unfold last_with_hash.
  destruct (last (filter _ l)) as [a'|] eqn:Hl.
  - exists a'. split; [done|].
    apply last_Some_elem_of, list_elem_of_filter in Hl as [? ?]. done.
  - apply last_None in Hl.
    assert (asset ∈ filter (λ a, dist.Sha256 a = dist.Sha256 asset) l) as Hf
      by (by apply list_elem_of_filter).
    rewrite Hl in Hf. by apply elem_of_nil in Hf.
Qed.

Lemma for_range_app {St A B} (body : B → A → M St B) (l1 l2 : list A) (acc : B) (s : St) :
  for_range body (l1 ++ l2) acc s
  = match for_range body l1 acc s with
    | (Return acc1, s1) => for_range body l2 acc1 s1
    | (Panic v, s1) => (Panic v, s1)
    end.
Proof.
  revert acc s. induction l1 as [|x l1 IH]; intros acc s; simpl; [done|].
  unfold bind. destruct (body acc x s) as [[acc1|v] s1]; [apply IH|done].
Qed.

Section BuildExtras.
Context `{Env}.

Lemma blobs_of_lookup (l : list dist.Asset) (k : string) :
  Forall fetchable l → blobs_of l ∅ !! k = fetched <$> last_with_hash k l.
Proof.
  intros Hl. rewrite (blobs_of_insert_loop _ _ Hl), insert_loop_lookup.
  unfold last_with_hash. by destruct (last _).
Qed.

Lemma fetch_packable_fetchable (l : list dist.Asset) :
  Forall fetch_packable l → Forall fetchable l.
Proof.
  intros Hl. eapply Forall_impl; [exact Hl|].
  intros a (buf & Hb & _). by eexists.
Qed.

Lemma fetch_packable_packable (l : list dist.Asset) :
  Forall fetch_packable l → Forall (packable (blobs_of l ∅)) l.
Proof.
  intros Hl. pose proof (fetch_packable_fetchable _ Hl) as Hf.
  apply Forall_forall. intros asset Hin.
  destruct (last_with_hash_elem asset l Hin) as (a' & Hlast & Hin' & Hsha).
  rewrite Forall_forall in Hl. destruct (Hl a' Hin') as (buf & Hb & H1 & H2 & H3).
  exists buf. rewrite (blobs_of_lookup _ _ Hf), Hlast. simpl.
  unfold fetched. rewrite Hb, <- Hsha. done.
Qed.

(** X1. With a name the library accepts, collaborators that do not
    fail, and assets whose fetch gives a readable blob and whose headers
    the tar library can serialise, [CreateAssetCache] returns [nil]: the
    image is saved and has one layer for each listed asset, at the path
    of the working directory joined with the asset's [Sha256]. *)
Theorem X1_build_without_faults_succeeds
        (opts : CreateAssetCacheOptions) (w : World) (tag tmpDir : string) :
  name_NewTag (ImageName opts) = inr tag →
  NewImage_fault tag true = None →
  ioutil_TempDir (fs w) = inr tmpDir →
  no_file_faults → no_image_faults →
  Forall fetch_packable (Assets opts) →
  ∃ w',
    CreateAssetCache opts w = (Return None, w')
    ∧ img_saved (img w') = true
    ∧ (img_layers (img w')).*1
      = map (λ asset, GoPath.Join [tmpDir; dist.Sha256 asset]) (Assets opts).
Proof.
  intros Htag Hnew Htmp Hf Hi Hl.
  assert (∃ w', CreateAssetCache opts w = (Return None, w')) as [w' Hrun].
  { unfold CreateAssetCache, validateConfig. rewrite Htag. simpl.
    unfold bind at 1. unfold imageFactory_NewImage. rewrite Hnew.
    unfold bind, downloadAssets.
    destruct (downloadAssets_from_progress (Assets opts) ∅
                (set_img {| img_layers := []; img_labels := ∅; img_saved := false |}
                   (add_event (EvNewImage tag true) w))
                (fetch_packable_fetchable _ Hl)) as [w1 Hdl].
    rewrite Hdl. apply downloadAssets_from_inr in Hdl as (_ & _ & Hfs & _).
    eapply Save_progress; [done..| |].
    - by rewrite Hfs.
    - by apply fetch_packable_packable. }
  exists w'. split; [done|].
  apply CreateAssetCache_Return_None in Hrun
    as (tag' & tmpDir' & _ & _ & Htmp' & _ & _ & Himg & _).
  rewrite Htmp in Htmp'. injection Htmp' as <-. rewrite Himg. simpl.
  split; [done|]. apply layer_of_paths.
Qed.

(** X2. The map [downloadAssets] returns has exactly the [Sha256] values
    of the list as its keys, and under each key the blob fetched for the
    last asset of the list with that [Sha256]: of two assets with one
    hash both are fetched, and the blob of the earlier one is dropped. *)
Theorem X2_downloadAssets_keeps_the_last_blob_of_a_hash
        (assets : list dist.Asset) (w w' : World) (assetMap : gmap string blob.Blob) :
  downloadAssets assets w = (Return (inr assetMap), w') →
  dom assetMap = list_to_set (map dist.Sha256 assets)
  ∧ Forall (λ ev, ∃ asset, asset ∈ assets ∧ ev = EvDownload (dist.URI asset))
           (drop (length (trace w)) (trace w'))
  ∧ length (drop (length (trace w)) (trace w')) = length assets
  ∧ ∀ asset, asset ∈ assets →
      ∃ a' b, last_with_hash (dist.Sha256 asset) assets = Some a'
              ∧ downloader_Download (dist.URI a') = inr b
              ∧ assetMap !! dist.Sha256 asset = Some b.
Proof.
  unfold downloadAssets. intros Hdl.
  apply downloadAssets_from_inr in Hdl as (-> & Hall & _ & _ & Htr).
  split; [|split; [|split]].
  - rewrite (blobs_of_insert_loop _ _ Hall), insert_loop_dom, dom_empty_L. set_solver.
  - rewrite Htr, drop_app_length. apply Forall_fmap, Forall_forall.
    intros asset Hin. by exists asset.
  - by rewrite Htr, drop_app_length, length_map.
  - intros asset Hin.
    destruct (last_with_hash_elem asset assets Hin) as (a' & Hlast & Hin' & _).
    rewrite Forall_forall in Hall. destruct (Hall a' Hin') as [b Hb].
    exists a', b. split; [done|]. split; [done|].
    rewrite blobs_of_lookup by (by apply Forall_forall).
    rewrite Hlast. simpl. unfold fetched. by rewrite Hb.
Qed.

(** X3. The first fetch that fails ends the build: [CreateAssetCache]
    panics with the downloader's error, the assets listed after the
    failing one are not fetched, no working directory is made, and the
    new image has no layer, no label and is not saved. *)
Theorem X3_first_failed_fetch_ends_the_build
        (opts : CreateAssetCacheOptions) (w : World) (tag : string)
        (l1 l2 : list dist.Asset) (asset : dist.Asset) (e : error) :
  name_NewTag (ImageName opts) = inr tag →
  NewImage_fault tag true = None →
  Assets opts = l1 ++ asset :: l2 →
  Forall fetchable l1 →
  downloader_Download (dist.URI asset) = inl e →
  CreateAssetCache opts w
  = (Panic e,
     {| fs := fs w;
        img := {| img_layers := []; img_labels := ∅; img_saved := false |};
        trace := trace w ++ [EvNewImage tag true]
                 ++ map (λ asset, EvDownload (dist.URI asset)) (l1 ++ [asset]) |}).
Proof.
  intros Htag Hnew Hl Hl1 He.
  unfold CreateAssetCache, validateConfig. rewrite Htag. simpl.
  unfold bind at 1. unfold imageFactory_NewImage. rewrite Hnew.
  unfold bind, downloadAssets.
  rewrite Hl, (downloadAssets_from_first_failure _ _ _ _ _ _ Hl1 He). simpl.
  by rewrite <- app_assoc.
Qed.

(** X4. [Save] on an image whose map lacks the blob of a listed asset
    panics with "associated asset blob does not exist" when it reaches
    that asset. The layers of the assets before it stay attached to the
    image, no label is set, the image is not saved, and the working
    directory is removed. *)
Theorem X4_Save_panics_on_a_missing_blob
        (a : AssetCacheImage) (w : World) (tmpDir : string)
        (l1 l2 : list dist.Asset) (asset : dist.Asset) :
  no_file_faults → (∀ i p c, AddLayer_fault i p c = None) →
  ioutil_TempDir (fs w) = inr tmpDir →
  aci_Assets a = l1 ++ asset :: l2 →
  Forall (packable (aci_AssetMap a)) l1 →
  aci_AssetMap a !! dist.Sha256 asset = None →
  ∃ w',
    Save a w = (Panic "associated asset blob does not exist", w')
    ∧ img w' = {| img_layers := img_layers (img w)
                                ++ map (layer_of tmpDir (aci_AssetMap a)) l1;
                  img_labels := img_labels (img w);
                  img_saved := img_saved (img w) |}
    ∧ removed tmpDir (fs w')
    ∧ trace w' = trace w ++ [EvTempDir] ++ concat (map (events_of tmpDir) l1)
                 ++ [EvRemoveAll tmpDir].
Proof.
  intros Hf Ha Htmp Hl Hp Hmiss. unfold Save. rewrite Htmp, Hl.
  unfold with_defer, bind. rewrite for_range_app.
  destruct (Save_loop_progress a tmpDir l1 ∅ (mkdir tmpDir (add_event EvTempDir w))
              Hf Ha Hp) as (m1 & w1 & Hloop).
  rewrite Hloop. apply Save_loop_Return in Hloop as (_ & _ & _ & Hi & Ht).
  simpl. unfold bind at 1. unfold Save_body at 1. rewrite Hmiss. simpl.
  eexists. split; [reflexivity|]. simpl in Hi, Ht.
  split; [exact Hi|]. split; [apply os_RemoveAll_removed|].
  unfold os_RemoveAll. simpl. rewrite Ht. by rewrite <- !app_assoc.
Qed.

(** X5. A blob that cannot be opened, or cannot be read to its end,
    makes [toDistTar] panic with the blob's error after the two
    directory headers are written: the layer file and the hasher hold
    these two headers and nothing of the file entry. *)
Theorem X5_unreadable_blob_panics_after_the_directory_headers
        (name blobSha : string) (b : blob.Blob) (e : error) (w : World) :
  b = blob.OpenFails e ∨ b = blob.ReadFails e →
  (∀ p old c, Write_fault p old c = None) →
  encodable hdr_cnb → encodable hdr_assets →
  files (fs w) !! name = Some [] →
  ∃ tw' w',
    toDistTar (multi_Write name) blobSha b (Tar.NewWriter, (w, []))
    = (Panic e, (tw', (w', header_bytes hdr_cnb ++ header_bytes hdr_assets)))
    ∧ files (fs w') !! name = Some (header_bytes hdr_cnb ++ header_bytes hdr_assets).
Proof.
  intros Hb Hw H1 H2 Hfile. unfold toDistTar. simpl.
  pose proof (multi_Write_never_fails name Hw) as Hok.
  pose proof (Z.le_refl 0) as H00.
  destruct (WriteHeader_progress (multi_Write name) tar_headerBlocks Hok hdr_cnb _
              Tar.NewWriter (w, []) eq_refl H00 H1) as (tw1 & s1 & E1).
  rewrite E1. apply WriteHeader_None in E1 as (b1 & Hb1 & _ & _ & Hw1 & ->).
  match goal with |- context [Tar.WriteHeader _ _ hdr_assets ?tw _] =>
    destruct (WriteHeader_progress (multi_Write name) tar_headerBlocks Hok hdr_assets _
                tw s1 eq_refl H00 H2) as (tw2 & [w2 h2] & E2) end.
  rewrite E2. apply WriteHeader_None in E2 as (b2 & Hb2 & _ & _ & Hw2 & ->).
  pose proof (writes_app _ [_; _; _] [_; _; _] _ _ _ Hw1 Hw2) as Hall.
  apply multi_Write_writes with (c := []) in Hall as (-> & Hfiles & _); [|done].
  rewrite (header_bytes_inr _ _ Hb1), (header_bytes_inr _ _ Hb2).
  match type of Hfiles with context [concat ?cs] =>
    assert (concat cs = b1 ++ b2) as Hcat
      by (transitivity (b1 ++ b2 ++ []); [vm_compute; reflexivity|by rewrite app_nil_r])
  end.
  rewrite Hcat in *. eexists _, w2.
  split; [by destruct Hb as [-> | ->]|]. by rewrite Hfiles, lookup_insert_eq.
Qed.

(** X6. A build with an empty asset list fetches nothing and attaches no
    layer, and still makes and removes a working directory; the image is
    saved with the label [io.buildpacks.asset.layers] set to the empty
    JSON object and a newline. *)
Theorem X6_build_of_an_empty_list
        (opts : CreateAssetCacheOptions) (w : World) (tag tmpDir : string) :
  Assets opts = [] →
  name_NewTag (ImageName opts) = inr tag →
  NewImage_fault tag true = None →
  ioutil_TempDir (fs w) = inr tmpDir →
  (∀ i k v, SetLabel_fault i k v = None) → (∀ i, Save_fault i = None) →
  ∃ w',
    CreateAssetCache opts w = (Return None, w')
    ∧ img w' = {| img_layers := [];
                  img_labels := {[ AssetLayersLabel := "{}" +:+ String (ascii_of_nat 10) "" ]};
                  img_saved := true |}
    ∧ trace w' = trace w
                 ++ [EvNewImage tag true; EvTempDir;
                     EvSetLabel AssetLayersLabel ("{}" +:+ String (ascii_of_nat 10) "");
                     EvSave; EvRemoveAll tmpDir]
    ∧ removed tmpDir (fs w').
Proof.
  intros Hl Htag Hnew Htmp Hs Hv.
  unfold CreateAssetCache, validateConfig. rewrite Htag. simpl.
  unfold bind at 1. unfold imageFactory_NewImage. rewrite Hnew.
  unfold bind, downloadAssets. rewrite Hl. simpl.
  unfold Save. simpl. rewrite Htmp. unfold with_defer, bind. simpl.
  unfold img_SetLabel. simpl. rewrite Hs. unfold img_Save. simpl. rewrite Hv.
  assert (json_Encode ∅ = "{}" +:+ String (ascii_of_nat 10) "") as Hj.
  { unfold json_Encode. by rewrite map_to_list_empty. }
  eexists. split; [reflexivity|].
  split; [|split; [|apply os_RemoveAll_removed]].
  - simpl. rewrite Hj. by rewrite insert_empty.
  - simpl. rewrite Hj. by rewrite <- !app_assoc.
Qed.

(** X7. When a build has returned [nil] from a working directory with a
    clean absolute path and hashes that are clean paths, each layer of
    the image is at the working directory, a slash, and the [Sha256] of
    a listed asset, and no file is left at that path: the image holds
    the paths of layer files that [os.RemoveAll] has removed. *)
Theorem X7_layer_files_are_removed_with_the_working_directory
        (opts : CreateAssetCacheOptions) (w w' : World) (tmpDir : string) :
  CreateAssetCache opts w = (Return None, w') →
  ioutil_TempDir (fs w) = inr tmpDir →
  clean_absolute tmpDir →
  Forall (λ asset, clean_path (dist.Sha256 asset)) (Assets opts) →
  Forall (λ layer, ∃ asset, asset ∈ Assets opts
                            ∧ layer.1 = tmpDir +:+ "/" +:+ dist.Sha256 asset
                            ∧ files (fs w') !! layer.1 = None)
         (img_layers (img w')).
Proof.
  intros Hrun Htmp Hdir Hshas. apply Forall_forall. intros layer Hin.
  pose proof Hrun as Hrun'.
  apply CreateAssetCache_Return_None in Hrun
    as (tag & tmpDir' & _ & _ & Htmp' & _ & _ & Himg & _).
  rewrite Htmp in Htmp'. injection Htmp' as <-.
  rewrite Himg in Hin. simpl in Hin.
  apply list_elem_of_fmap in Hin as (asset & -> & Hasset).
  exists asset. split; [done|].
  rewrite Forall_forall in Hshas.
  unfold layer_of. cbv [fst]. rewrite (Join_dir_hash _ _ Hdir (Hshas _ Hasset)).
  split; [done|].
  assert (removed tmpDir (fs w')) as Hrem.
  { revert Hrun'. unfold CreateAssetCache, validateConfig.
    destruct (name_NewTag (ImageName opts)); [done|]. simpl.
    unfold bind at 1. unfold imageFactory_NewImage.
    destruct (NewImage_fault _ _); [done|]. unfold bind, downloadAssets.
    destruct (downloadAssets_from _ _ _) as [[[?|am]|?] w1] eqn:Hdl; [done| |done].
    apply downloadAssets_from_world in Hdl as (Hfs & _). simpl in Hfs.
    intros Hsave. rewrite <- Hfs in Htmp.
    destruct (Save_defer _ _ _ _ _ Hsave Htmp) as (w2 & ->).
    apply os_RemoveAll_removed. }
  apply (Hrem _ (within_dir_hash _ _)).
Qed.

End BuildExtras.

(** *** The properties above on the builds of the package's test *)

Section ExtraRuns.
#[local] Existing Instance TestEnv.E.

(** The stand-in for the tar library serialises a header that passes
    its guard. *)
Lemma test_encodable (download : string → error + blob.Blob) (h : Tar.Header) :
  (String.length (Tar.Name h) <=? 100)%nat && Ustar.isASCII (Tar.Name h)
  && Ustar.fitsInOctal 8 (Tar.Mode h) && Ustar.fitsInOctal 12 (Tar.Size h)
  && Ustar.fitsInOctal 12 (Tar.ModTime h) = true →
  @encodable (TestEnv.env download) h.
Proof.
  intros Hg. unfold encodable, header_bytes. simpl. unfold Ustar.headerBlocks.
  by rewrite Hg.
Qed.

Lemma test_no_file_faults (download : string → error + blob.Blob) :
  @no_file_faults (TestEnv.env download).
Proof. by repeat split. Qed.

Lemma test_no_image_faults (download : string → error + blob.Blob) :
  @no_image_faults (TestEnv.env download).
Proof. by repeat split. Qed.

Lemma test_fetch_packable :
  Forall fetch_packable [TestEnv.firstAsset; TestEnv.secondAsset].
Proof.
  repeat constructor; exists TestEnv.secondContents;
    (split; [reflexivity|]);
    repeat split; apply test_encodable; vm_compute; reflexivity.
Qed.

Lemma test_first_packable :
  packable {[ "first-sha256" := blob.Bytes TestEnv.secondContents ]} TestEnv.firstAsset.
Proof.
  exists TestEnv.secondContents. split; [reflexivity|].
  repeat split; apply test_encodable; vm_compute; reflexivity.
Qed.

Lemma tmpDir_clean_absolute : clean_absolute TestEnv.tmpDir.
Proof.
  exists "tmp/create-asset-scratch042". split; [reflexivity|].
  unfold clean_path.
  assert (GoPath.split_slash "tmp/create-asset-scratch042"
          = ["tmp"; "create-asset-scratch042"]) as -> by (vm_compute; reflexivity).
  repeat constructor; done.
Qed.

Lemma test_hashes_clean :
  Forall (λ asset, clean_path (dist.Sha256 asset)) (Assets TestEnv.opts).
Proof. repeat constructor; done. Qed.

Lemma X1_witness :
  ∃ w',
    CreateAssetCache TestEnv.opts TestEnv.world0 = (Return None, w')
    ∧ img_saved (img w') = true
    ∧ (img_layers (img w')).*1
      = map (λ asset, GoPath.Join [TestEnv.tmpDir; dist.Sha256 asset])
            (Assets TestEnv.opts).
Proof.
  apply (X1_build_without_faults_succeeds TestEnv.opts TestEnv.world0
           "index.docker.io/library/test-cache-image:latest" TestEnv.tmpDir).
  - reflexivity.
  - reflexivity.
  - reflexivity.
  - apply test_no_file_faults.
  - apply test_no_image_faults.
  - exact test_fetch_packable.
Defined.

Lemma X2_witness :
  ∃ assetMap w',
    downloadAssets [TestEnv.firstAsset; TestEnv.renamedAsset] TestEnv.world0
    = (Return (inr assetMap), w')
    ∧ dom assetMap
      = list_to_set (map dist.Sha256 [TestEnv.firstAsset; TestEnv.renamedAsset])
    ∧ Forall (λ ev, ∃ asset, asset ∈ [TestEnv.firstAsset; TestEnv.renamedAsset]
                             ∧ ev = EvDownload (dist.URI asset))
             (drop (length (trace TestEnv.world0)) (trace w'))
    ∧ length (drop (length (trace TestEnv.world0)) (trace w'))
      = length [TestEnv.firstAsset; TestEnv.renamedAsset]
    ∧ ∀ asset, asset ∈ [TestEnv.firstAsset; TestEnv.renamedAsset] →
        ∃ a' b, last_with_hash (dist.Sha256 asset)
                  [TestEnv.firstAsset; TestEnv.renamedAsset] = Some a'
                ∧ downloader_Download (dist.URI a') = inr b
                ∧ assetMap !! dist.Sha256 asset = Some b.
Proof.
  assert (Forall fetchable [TestEnv.firstAsset; TestEnv.renamedAsset]) as Hf
    by (repeat constructor; by eexists).
  destruct (downloadAssets_from_progress _ ∅ TestEnv.world0 Hf) as [w' Hrun].
  exists (blobs_of [TestEnv.firstAsset; TestEnv.renamedAsset] ∅), w'.
  split; [exact Hrun|].
  exact (X2_downloadAssets_keeps_the_last_blob_of_a_hash _ _ _ _ Hrun).
Defined.

Lemma X3_witness :
  @CreateAssetCache TestEnv.E_unreachable TestEnv.opts TestEnv.world0
  = (Panic "connection refused",
     {| fs := fs TestEnv.world0;
        img := {| img_layers := []; img_labels := ∅; img_saved := false |};
        trace := trace TestEnv.world0
                 ++ [EvNewImage "index.docker.io/library/test-cache-image:latest" true]
                 ++ map (λ asset, EvDownload (dist.URI asset))
                        ([TestEnv.firstAsset] ++ [TestEnv.secondAsset]) |}).
Proof.
  apply (@X3_first_failed_fetch_ends_the_build TestEnv.E_unreachable
           TestEnv.opts TestEnv.world0 _ [TestEnv.firstAsset] [] TestEnv.secondAsset).
  - reflexivity.
  - reflexivity.
  - reflexivity.
  - repeat constructor. by eexists.
  - reflexivity.
Defined.

Lemma X4_witness :
  ∃ w',
    Save (NewAssetCacheImage {[ "first-sha256" := blob.Bytes TestEnv.secondContents ]}
            [TestEnv.firstAsset; TestEnv.secondAsset]) TestEnv.world0
    = (Panic "associated asset blob does not exist", w')
    ∧ img w'
      = {| img_layers :=
             img_layers (img TestEnv.world0)
             ++ map (layer_of TestEnv.tmpDir
                       (aci_AssetMap
                          (NewAssetCacheImage
                             {[ "first-sha256" := blob.Bytes TestEnv.secondContents ]}
                             [TestEnv.firstAsset; TestEnv.secondAsset])))
                    [TestEnv.firstAsset];
           img_labels := img_labels (img TestEnv.world0);
           img_saved := img_saved (img TestEnv.world0) |}
    ∧ removed TestEnv.tmpDir (fs w')
    ∧ trace w' = trace TestEnv.world0 ++ [EvTempDir]
                 ++ concat (map (events_of TestEnv.tmpDir) [TestEnv.firstAsset])
                 ++ [EvRemoveAll TestEnv.tmpDir].
Proof.
  apply (X4_Save_panics_on_a_missing_blob
           (NewAssetCacheImage {[ "first-sha256" := blob.Bytes TestEnv.secondContents ]}
              [TestEnv.firstAsset; TestEnv.secondAsset])
           TestEnv.world0 TestEnv.tmpDir [TestEnv.firstAsset] [] TestEnv.secondAsset).
  - apply test_no_file_faults.
  - reflexivity.
  - reflexivity.
  - reflexivity.
  - repeat constructor. exact test_first_packable.
  - reflexivity.
Defined.

Lemma X5_witness :
  ∃ tw' w',
    toDistTar (multi_Write TestEnv.layerPath) "first-sha256"
      (blob.OpenFails "open firstAssetBlob: no such file or directory")
      (Tar.NewWriter, (TestEnv.world_open, []))
    = (Panic "open firstAssetBlob: no such file or directory",
       (tw', (w', header_bytes hdr_cnb ++ header_bytes hdr_assets)))
    ∧ files (fs w') !! TestEnv.layerPath
      = Some (header_bytes hdr_cnb ++ header_bytes hdr_assets).
Proof.
  apply (X5_unreadable_blob_panics_after_the_directory_headers
           TestEnv.layerPath "first-sha256"
           (blob.OpenFails "open firstAssetBlob: no such file or directory")
           "open firstAssetBlob: no such file or directory" TestEnv.world_open).
  - by left.
  - reflexivity.
  - apply test_encodable. vm_compute. reflexivity.
  - apply test_encodable. vm_compute. reflexivity.
  - exact world_open_file.
Defined.

Lemma X6_witness :
  ∃ w',
    CreateAssetCache {| ImageName := "test-cache-image"; Assets := [] |} TestEnv.world0
    = (Return None, w')
    ∧ img w' = {| img_layers := [];
                  img_labels := {[ AssetLayersLabel := "{}" +:+ String (ascii_of_nat 10) "" ]};
                  img_saved := true |}
    ∧ trace w' = trace TestEnv.world0
                 ++ [EvNewImage "index.docker.io/library/test-cache-image:latest" true;
                     EvTempDir;
                     EvSetLabel AssetLayersLabel ("{}" +:+ String (ascii_of_nat 10) "");
                     EvSave; EvRemoveAll TestEnv.tmpDir]
    ∧ removed TestEnv.tmpDir (fs w').
Proof.
  apply (X6_build_of_an_empty_list
           {| ImageName := "test-cache-image"; Assets := [] |} TestEnv.world0
           "index.docker.io/library/test-cache-image:latest" TestEnv.tmpDir).
  - reflexivity.
  - reflexivity.
  - reflexivity.
  - reflexivity.
  - reflexivity.
  - reflexivity.
Defined.

Lemma X7_witness :
  Forall (λ layer, ∃ asset, asset ∈ Assets TestEnv.opts
                            ∧ layer.1 = TestEnv.tmpDir +:+ "/" +:+ dist.Sha256 asset
                            ∧ files (fs (snd TestEnv.run)) !! layer.1 = None)
         (img_layers (img (snd TestEnv.run))).
Proof.
  exact (X7_layer_files_are_removed_with_the_working_directory
           TestEnv.opts TestEnv.world0 (snd TestEnv.run) TestEnv.tmpDir
           test_run_succeeds eq_refl tmpDir_clean_absolute test_hashes_clean).
Defined.

End ExtraRuns.

(* ===================================================================== *)
(** ** Refusals before the first layer *)
(* ===================================================================== *)

Section RefusalExtras.
Context `{Env}.

(** X8. When the image factory refuses the new image, [CreateAssetCache]
    returns "unable to create asset cache image: " followed by the quoted
    error: the image is asked for under the name [name.NewTag] gave,
    nothing is fetched and no working directory is made. *)
Theorem X8_refused_image_is_returned_before_any_fetch
        (opts : CreateAssetCacheOptions) (w : World) (tag : string) (e : error) :
  name_NewTag (ImageName opts) = inr tag →
  NewImage_fault tag true = Some e →
  CreateAssetCache opts w
  = (Return (Some ("unable to create asset cache image: " +:+ fmt_q e)),
     {| fs := fs w; img := img w; trace := trace w ++ [EvNewImage tag true] |}).
Proof.
  intros Htag Hnew. unfold CreateAssetCache, validateConfig. rewrite Htag. simpl.
  unfold bind, imageFactory_NewImage. by rewrite Hnew.
Qed.

(** X9. When the tar library can hold the two directory headers but not
    the header of the file entry, [toDistTar] returns that error under
    the message of the second directory header, "writing buildpack
    version dir header"; the two directory headers are in the layer file
    and in the hasher, and no byte of the blob is. *)
Theorem X9_refused_file_header_is_returned_as_a_dir_header_error
        (name blobSha : string) (buf : list byte) (e : error) (w : World) :
  (∀ p old c, Write_fault p old c = None) →
  encodable hdr_cnb → encodable hdr_assets →
  tar_headerBlocks (hdr_file blobSha (length buf)) = inl e →
  files (fs w) !! name = Some [] →
  ∃ tw' w',
    toDistTar (multi_Write name) blobSha (blob.Bytes buf) (Tar.NewWriter, (w, []))
    = (Return (Some (errors_Wrapf e "writing buildpack version dir header")),
       (tw', (w', header_bytes hdr_cnb ++ header_bytes hdr_assets)))
    ∧ files (fs w') !! name = Some (header_bytes hdr_cnb ++ header_bytes hdr_assets).
Proof.
  intros Hw H1 H2 H3 Hfile. unfold toDistTar. simpl.
  pose proof (multi_Write_never_fails name Hw) as Hok.
  pose proof (Z.le_refl 0) as H00.
  destruct (WriteHeader_progress (multi_Write name) tar_headerBlocks Hok hdr_cnb _
              Tar.NewWriter (w, []) eq_refl H00 H1) as (tw1 & s1 & E1).
  rewrite E1. apply WriteHeader_None in E1 as (b1 & Hb1 & _ & _ & Hw1 & ->).
  match goal with |- context [Tar.WriteHeader _ _ hdr_assets ?tw _] =>
    destruct (WriteHeader_progress (multi_Write name) tar_headerBlocks Hok hdr_assets _
                tw s1 eq_refl H00 H2) as (tw2 & [w2 h2] & E2) end.
  rewrite E2. apply WriteHeader_None in E2 as (b2 & Hb2 & _ & _ & Hw2 & ->).
  unfold Tar.WriteHeader at 1.
  match goal with |- context [Tar.Flush _ ?tw ?s] =>
    destruct (Flush_progress (multi_Write name) Hok tw s eq_refl H00)
      as (tw3 & [w3 h3] & E3) end.
  rewrite E3, H3. apply Flush_None in E3 as (_ & _ & Hw3 & _).
  pose proof (writes_app _ [_; _; _] [_; _; _] _ _ _ Hw1 Hw2) as H12.
  pose proof (writes_app _ (_ ++ _) [_] _ _ _ H12 Hw3) as Hall.
  apply multi_Write_writes with (c := []) in Hall as (-> & Hfiles & _); [|done].
  rewrite (header_bytes_inr _ _ Hb1), (header_bytes_inr _ _ Hb2).
  match type of Hfiles with context [concat ?cs] =>
    assert (concat cs = b1 ++ b2) as Hcat
      by (transitivity (b1 ++ b2 ++ []); [vm_compute; reflexivity|by rewrite app_nil_r])
  end.
  rewrite Hcat in *. eexists _, w3.
  split; [done|]. by rewrite Hfiles, lookup_insert_eq.
Qed.

End RefusalExtras.

(* ===================================================================== *)
(** ** The command: inspections, pull policy, and what it hands on *)
(* ===================================================================== *)

Section InspectExtras.
Context `{commands.Client}.

Lemma tryInspect_skips (l1 l2 : list commands.pack.InspectBuildpackOptions)
      (s : commands.CmdWorld) :
  Forall (λ o, not_found o = true) l1 →
  commands.tryInspect (l1 ++ l2) s
  = commands.tryInspect l2
      {| commands.inspected := commands.inspected s ++ l1;
         commands.world := commands.world s |}.
Proof.
  intros Hl. revert s. induction Hl as [|o l1 Ho _ IH]; intros s; simpl.
  - rewrite app_nil_r. by destruct s.
  - unfold not_found in Ho.
    destruct (commands.InspectBuildpack o) as [b [e|]]; [|done].
    rewrite Ho, IH. unfold commands.record_inspect. simpl. by rewrite <- app_assoc.
Qed.

(** X10. [tryInspect] stops at the first inspection that does not end
    in [image.ErrNotFound]: the options before it are each inspected
    once, in order, those after it are not inspected, and the result is
    the buildpack of that inspection, or [nil] and its error. *)
Theorem X10_tryInspect_stops_at_the_first_decisive_inspection
        (l1 l2 : list commands.pack.InspectBuildpackOptions)
        (o : commands.pack.InspectBuildpackOptions) (s : commands.CmdWorld) :
  Forall (λ o, not_found o = true) l1 →
  not_found o = false →
  commands.tryInspect (l1 ++ o :: l2) s
  = (match commands.InspectBuildpack o with
     | (buildpackInfo, None) => (buildpackInfo, None)
     | (_, Some err) => (None, Some err)
     end,
     {| commands.inspected := commands.inspected s ++ l1 ++ [o];
        commands.world := commands.world s |}).
Proof.
  intros Hl Ho. rewrite (tryInspect_skips _ _ _ Hl). simpl.
  unfold not_found in Ho. unfold commands.record_inspect. simpl.
  destruct (commands.InspectBuildpack o) as [b [e|]].
  - rewrite Ho. by rewrite <- app_assoc.
  - by rewrite <- app_assoc.
Qed.

(** X11. When every inspection ends in [image.ErrNotFound], and when
    there are no options at all, [tryInspect] has inspected each of the
    options once, in order, and returns [nil] with [image.ErrNotFound]
    itself, not the error of the last inspection. *)
Theorem X11_tryInspect_of_absent_buildpack
        (l : list commands.pack.InspectBuildpackOptions) (s : commands.CmdWorld) :
  Forall (λ o, not_found o = true) l →
  commands.tryInspect l s
  = ((None, Some commands.ErrNotFound),
     {| commands.inspected := commands.inspected s ++ l;
        commands.world := commands.world s |}).
Proof.
  intros Hl. rewrite <- (app_nil_r l) at 1. by rewrite (tryInspect_skips _ _ _ Hl).
Qed.

End InspectExtras.

Section CommandExtras.
Context `{Env} `{commands.Client}.
Variable getAssets_run : commands.BuildpackInfo → list dist.Asset.

(** X12. The pull policy fixes where the command looks for the
    buildpack: with "never" in the daemon only; with "if-not-present" in
    the daemon, and in the registry only when the daemon's inspection
    ends in [image.ErrNotFound]; with "always" in the registry, and in
    the daemon only when the registry's inspection ends so. This holds
    however the command ends. *)
Theorem X12_pull_policy_orders_the_inspections
        (flags : commands.CreateAssetCacheFlags) (arg0 : string)
        (s : commands.CmdWorld) (pullPolicy : commands.pubcfg.PullPolicy) :
  commands.BuildpackLocator flags ≠ "" →
  commands.ParsePullPolicy (commands.Policy flags) = inr pullPolicy →
  commands.inspected (snd (commands.RunE getAssets_run flags arg0 s))
  = commands.inspected s
    ++ match pullPolicy with
       | commands.pubcfg.PullNever => [inspect_option flags true]
       | commands.pubcfg.PullIfNotPresent =>
           if not_found (inspect_option flags true)
           then [inspect_option flags true; inspect_option flags false]
           else [inspect_option flags true]
       | commands.pubcfg.PullAlways =>
           if not_found (inspect_option flags false)
           then [inspect_option flags false; inspect_option flags true]
           else [inspect_option flags false]
       end.
Proof.
  intros Hloc Hp. unfold commands.RunE, commands.validateAssetCacheFlags.
  rewrite decide_False by done. rewrite Hp.
  unfold not_found, inspect_option.
  destruct pullPolicy; simpl; unfold commands.record_inspect; simpl;
    repeat (match goal with
            | |- context [commands.InspectBuildpack ?o] =>
                destruct (commands.InspectBuildpack o) as [[?|] [?|]]
            | |- context [commands.Is_ErrNotFound ?e] =>
                destruct (commands.Is_ErrNotFound e)
            end; simpl);
    try (destruct (CreateAssetCache _ _) as [[[?|]|?] ?]); simpl;
    by rewrite <- ?app_assoc.
Qed.


(** X14. An image name that [name.NewTag] refuses is found only after
    the buildpack has been inspected, and the error that
    [CreateAssetCache] returns for it leaves the command as a panic; the
    world is as it was. *)
Theorem X14_refused_image_name_panics_after_the_inspection
        (flags : commands.CreateAssetCacheFlags) (arg0 : string)
        (s s1 : commands.CmdWorld) (pullPolicy : commands.pubcfg.PullPolicy)
        (info : commands.BuildpackInfo) (e : error) :
  commands.BuildpackLocator flags ≠ "" →
  commands.ParsePullPolicy (commands.Policy flags) = inr pullPolicy →
  commands.tryInspect (commands.inspectOptions flags pullPolicy) s
  = ((Some info, None), s1) →
  name_NewTag arg0 = inl e →
  commands.RunE getAssets_run flags arg0 s
  = (Panic ("invalid asset cache image name: " +:+ fmt_q e), s1).
Proof.
  intros Hloc Hp Hi Hn. unfold commands.RunE, commands.validateAssetCacheFlags.
  rewrite decide_False by done. rewrite Hp, Hi.
  unfold CreateAssetCache, validateConfig. simpl. rewrite Hn. simpl. by destruct s1.
Qed.

(** X15. When the command returns [nil], an inspection under the parsed
    pull policy gave a buildpack, and the image is saved with one layer
    for each distinct [Sha256] among the assets of all its buildpacks,
    and a label whose keys are these [Sha256] values. *)
Theorem X15_command_success_caches_every_distinct_asset
        (flags : commands.CreateAssetCacheFlags) (arg0 : string) (s : commands.CmdWorld) :
  (∀ info, commands.getAssets_returns info (getAssets_run info)) →
  fst (commands.RunE getAssets_run flags arg0 s) = Return None →
  ∃ pullPolicy info,
    commands.ParsePullPolicy (commands.Policy flags) = inr pullPolicy
    ∧ fst (commands.tryInspect (commands.inspectOptions flags pullPolicy) s)
      = (Some info, None)
    ∧ img_saved (img (commands.world (snd (commands.RunE getAssets_run flags arg0 s))))
      = true
    ∧ length (img_layers
                (img (commands.world (snd (commands.RunE getAssets_run flags arg0 s)))))
      = length (remove_dups (map dist.Sha256 (commands.all_assets info)))
    ∧ ∃ assetLabel : gmap string dist.Asset,
        img_labels (img (commands.world (snd (commands.RunE getAssets_run flags arg0 s))))
        !! AssetLayersLabel = Some (json_Encode assetLabel)
        ∧ dom assetLabel = list_to_set (map dist.Sha256 (commands.all_assets info)).
Proof.
  intros Hg. unfold commands.RunE, commands.validateAssetCacheFlags.
  destruct (decide (commands.BuildpackLocator flags = "")) as [Hl|Hl]; [done|].
  destruct (commands.ParsePullPolicy _) as [?|p]; [done|].
  destruct (commands.tryInspect _ s) as [[[info|] [err|]] s1] eqn:Hi; try done.
  destruct (CreateAssetCache _ _) as [[[?|]|?] w'] eqn:Hrun; try done.
  intros _. exists p, info. split; [done|]. split; [by rewrite Hi|]. simpl.
  apply CreateAssetCache_Return_None in Hrun
    as (tag & tmpDir & _ & _ & _ & _ & _ & Himg & _).
  simpl in Himg. rewrite Himg. simpl.
  destruct (getAssets_returns_spec _ _ (Hg info)) as (_ & _ & Hmem & Hlen).
  split; [done|]. split; [by rewrite length_map|].
  eexists. split; [by rewrite lookup_insert_eq|].
  rewrite label_of_dom, dom_empty_L, union_empty_r_L.
  apply set_eq. intros sha. by rewrite !elem_of_list_to_set.
Qed.

End CommandExtras.

Section GetAssetsExtras.

(** X16. Of the assets of all buildpacks that share a [Sha256],
    [getAssets] returns the one the two loops meet last, and it returns
    nothing else. *)
Theorem X16_getAssets_returns_the_last_asset_of_each_hash
        (info : commands.BuildpackInfo) (result : list dist.Asset) (a : dist.Asset) :
  commands.getAssets_returns info result →
  a ∈ result ↔ last_with_hash (dist.Sha256 a) (commands.all_assets info) = Some a.
Proof.
  intros [Hp _]. rewrite Hp, list_elem_of_fmap, getAssets_assetMap_insert_loop.
  unfold last_with_hash. split.
  - intros ([k v] & -> & Hkv). apply elem_of_map_to_list in Hkv.
    rewrite insert_loop_lookup in Hkv. simpl.
    destruct (last (filter _ _)) as [a'|] eqn:Hl; [|done].
    injection Hkv as <-.
    pose proof Hl as Hin.
    apply last_Some_elem_of, list_elem_of_filter in Hin as [<- _]. exact Hl.
  - intros Hl. exists (dist.Sha256 a, a). split; [done|].
    apply elem_of_map_to_list. rewrite insert_loop_lookup. by rewrite Hl.
Qed.

(** X17. [getAssets] may return the assets of a buildpack in more than
    one order, since the range over its map and the unstable sort fix
    none among assets of one [ID]; two builds that succeed from two such
    lists set the same labels on the image. *)
Theorem X17_arrangement_of_getAssets_does_not_reach_the_label
        `{Env} (info : commands.BuildpackInfo) (r1 r2 : list dist.Asset)
        (n1 n2 : string) (w1 w1' w2 w2' : World) :
  commands.getAssets_returns info r1 →
  commands.getAssets_returns info r2 →
  CreateAssetCache {| ImageName := n1; Assets := r1 |} w1 = (Return None, w1') →
  CreateAssetCache {| ImageName := n2; Assets := r2 |} w2 = (Return None, w2') →
  img_labels (img w1') = img_labels (img w2').
Proof.
  intros Hr1 Hr2 Hrun1 Hrun2.
  apply CreateAssetCache_Return_None in Hrun1
    as (? & ? & _ & _ & _ & Hf1 & _ & -> & _).
  apply CreateAssetCache_Return_None in Hrun2
    as (? & ? & _ & _ & _ & Hf2 & _ & -> & _).
  simpl in *.
  assert (r1 ≡ₚ r2) as Hp
    by (destruct Hr1 as [Hp1 _], Hr2 as [Hp2 _]; by rewrite Hp1, Hp2).
  assert (one_record_per_hash r1) as Hone.
  { destruct (getAssets_returns_spec _ _ Hr1) as (Hnd & _).
    intros a b Ha Hb Hab.
    apply list_elem_of_lookup in Ha as [i Hi], Hb as [j Hj].
    assert (i = j) as ->; [|congruence].
    eapply NoDup_lookup; [exact Hnd| |];
      rewrite list_lookup_fmap; [by rewrite Hi|by rewrite Hj, Hab]. }
  rewrite (blobs_of_insert_loop _ _ Hf1), (blobs_of_insert_loop _ _ Hf2).
  rewrite !label_of_insert_loop.
  rewrite (insert_loop_Permutation fetched _ _ _ Hp Hone).
  by rewrite (insert_loop_Permutation (labelled _) _ _ _ Hp Hone).
Qed.

End GetAssetsExtras.

(** *** The command and the refusals on the collaborators of the test *)

Section CommandRuns.
#[local] Existing Instance TestEnv.E.
#[local] Existing Instance TestEnv.client.

Lemma X8_witness :
  @CreateAssetCache TestEnv.E_no_image TestEnv.opts TestEnv.world0
  = (Return (Some ("unable to create asset cache image: "
                   +:+ @fmt_q TestEnv.E_no_image "cannot connect to the daemon")),
     {| fs := fs TestEnv.world0; img := img TestEnv.world0;
        trace := trace TestEnv.world0
                 ++ [EvNewImage "index.docker.io/library/test-cache-image:latest" true] |}).
Proof.
  apply (@X8_refused_image_is_returned_before_any_fetch TestEnv.E_no_image
           TestEnv.opts TestEnv.world0).
  - reflexivity.
  - reflexivity.
Defined.

Lemma long_hash_refused :
  tar_headerBlocks (hdr_file TestEnv.long_hash (length TestEnv.secondContents))
  = inl "archive/tar: header outside the USTAR case".
Proof. vm_compute. reflexivity. Qed.

Lemma X9_witness :
  ∃ tw' w',
    toDistTar (multi_Write TestEnv.layerPath) TestEnv.long_hash
      (blob.Bytes TestEnv.secondContents) (Tar.NewWriter, (TestEnv.world_open, []))
    = (Return (Some (errors_Wrapf "archive/tar: header outside the USTAR case"
                       "writing buildpack version dir header")),
       (tw', (w', header_bytes hdr_cnb ++ header_bytes hdr_assets)))
    ∧ files (fs w') !! TestEnv.layerPath
      = Some (header_bytes hdr_cnb ++ header_bytes hdr_assets).
Proof.
  apply (X9_refused_file_header_is_returned_as_a_dir_header_error
           TestEnv.layerPath TestEnv.long_hash TestEnv.secondContents
           "archive/tar: header outside the USTAR case" TestEnv.world_open).
  - reflexivity.
  - apply test_encodable. vm_compute. reflexivity.
  - apply test_encodable. vm_compute. reflexivity.
  - exact long_hash_refused.
  - exact world_open_file.
Defined.

Lemma X10_witness :
  commands.tryInspect
    ([inspect_option TestEnv.flags true] ++ inspect_option TestEnv.flags false :: [])
    TestEnv.cmd0
  = (match commands.InspectBuildpack (inspect_option TestEnv.flags false) with
     | (buildpackInfo, None) => (buildpackInfo, None)
     | (_, Some err) => (None, Some err)
     end,
     {| commands.inspected :=
          commands.inspected TestEnv.cmd0
          ++ [inspect_option TestEnv.flags true] ++ [inspect_option TestEnv.flags false];
        commands.world := commands.world TestEnv.cmd0 |}).
Proof.
  apply (X10_tryInspect_stops_at_the_first_decisive_inspection
           [inspect_option TestEnv.flags true] []
           (inspect_option TestEnv.flags false) TestEnv.cmd0).
  - repeat constructor.
  - reflexivity.
Defined.

Lemma X11_witness :
  commands.tryInspect [inspect_option TestEnv.flags true] TestEnv.cmd0
  = ((None, Some commands.ErrNotFound),
     {| commands.inspected :=
          commands.inspected TestEnv.cmd0 ++ [inspect_option TestEnv.flags true];
        commands.world := commands.world TestEnv.cmd0 |}).
Proof.
  apply (X11_tryInspect_of_absent_buildpack
           [inspect_option TestEnv.flags true] TestEnv.cmd0).
  repeat constructor.
Defined.

Lemma X12_witness :
  commands.inspected (snd TestEnv.run_command)
  = commands.inspected TestEnv.cmd0
    ++ (if not_found (inspect_option TestEnv.flags true)
        then [inspect_option TestEnv.flags true; inspect_option TestEnv.flags false]
        else [inspect_option TestEnv.flags true]).
Proof.
  apply (X12_pull_policy_orders_the_inspections commands.getAssets
           TestEnv.flags "test-cache-image" TestEnv.cmd0
           commands.pubcfg.PullIfNotPresent).
  - discriminate.
  - reflexivity.
Defined.


Lemma X14_witness :
  commands.RunE commands.getAssets TestEnv.flags "::::" TestEnv.cmd0
  = (Panic ("invalid asset cache image name: "
            +:+ fmt_q ("repository can only contain the runes `"
                       +:+ TestEnv.repositoryChars +:+ "`: ::::")),
     {| commands.inspected :=
          [inspect_option TestEnv.flags true; inspect_option TestEnv.flags false];
        commands.world := TestEnv.world0 |}).
Proof.
  apply (X14_refused_image_name_panics_after_the_inspection commands.getAssets
           TestEnv.flags "::::" TestEnv.cmd0 _ commands.pubcfg.PullIfNotPresent
           TestEnv.info).
  - discriminate.
  - reflexivity.
  - reflexivity.
  - reflexivity.
Defined.

Lemma run_command_succeeds : fst TestEnv.run_command = Return None.
Proof. vm_compute. reflexivity. Qed.

Lemma X15_witness :
  ∃ pullPolicy info,
    commands.ParsePullPolicy (commands.Policy TestEnv.flags) = inr pullPolicy
    ∧ fst (commands.tryInspect (commands.inspectOptions TestEnv.flags pullPolicy)
             TestEnv.cmd0)
      = (Some info, None)
    ∧ img_saved (img (commands.world (snd TestEnv.run_command))) = true
    ∧ length (img_layers (img (commands.world (snd TestEnv.run_command))))
      = length (remove_dups (map dist.Sha256 (commands.all_assets info)))
    ∧ ∃ assetLabel : gmap string dist.Asset,
        img_labels (img (commands.world (snd TestEnv.run_command)))
        !! AssetLayersLabel = Some (json_Encode assetLabel)
        ∧ dom assetLabel = list_to_set (map dist.Sha256 (commands.all_assets info)).
Proof.
  apply (X15_command_success_caches_every_distinct_asset commands.getAssets
           TestEnv.flags "test-cache-image" TestEnv.cmd0).
  - exact getAssets_total.
  - exact run_command_succeeds.
Defined.

Lemma X16_witness :
  TestEnv.renamedAsset ∈ Assets TestEnv.opts_info
  ↔ last_with_hash (dist.Sha256 TestEnv.renamedAsset) (commands.all_assets TestEnv.info)
    = Some TestEnv.renamedAsset.
Proof.
  apply (X16_getAssets_returns_the_last_asset_of_each_hash
           TestEnv.info (Assets TestEnv.opts_info) TestEnv.renamedAsset).
  exact info_returns.
Defined.

Lemma twins_map :
  (map_to_list (commands.getAssets_assetMap TestEnv.info_twins)).*2
  = [TestEnv.firstAsset; TestEnv.twinAsset]
  ∨ (map_to_list (commands.getAssets_assetMap TestEnv.info_twins)).*2
    = [TestEnv.twinAsset; TestEnv.firstAsset].
Proof. vm_compute. auto. Qed.

Lemma twins_ab_returns :
  commands.getAssets_returns TestEnv.info_twins [TestEnv.firstAsset; TestEnv.twinAsset].
Proof.
  split.
  - destruct twins_map as [-> | ->]; [done|apply perm_swap].
  - repeat constructor.
Qed.

Lemma twins_ba_returns :
  commands.getAssets_returns TestEnv.info_twins [TestEnv.twinAsset; TestEnv.firstAsset].
Proof.
  split.
  - destruct twins_map as [-> | ->]; [apply perm_swap|done].
  - repeat constructor.
Qed.

Lemma run_twins_ab_succeeds :
  CreateAssetCache {| ImageName := "test-cache-image";
                      Assets := [TestEnv.firstAsset; TestEnv.twinAsset] |} TestEnv.world0
  = (Return None, snd TestEnv.run_twins_ab).
Proof. apply run_eta. vm_compute. reflexivity. Qed.

Lemma run_twins_ba_succeeds :
  CreateAssetCache {| ImageName := "other-cache-image";
                      Assets := [TestEnv.twinAsset; TestEnv.firstAsset] |} TestEnv.world0
  = (Return None, snd TestEnv.run_twins_ba).
Proof. apply run_eta. vm_compute. reflexivity. Qed.

Lemma X17_witness :
  img_labels (img (snd TestEnv.run_twins_ab))
  = img_labels (img (snd TestEnv.run_twins_ba)).
Proof.
  exact (X17_arrangement_of_getAssets_does_not_reach_the_label
           TestEnv.info_twins
           [TestEnv.firstAsset; TestEnv.twinAsset] [TestEnv.twinAsset; TestEnv.firstAsset]
           "test-cache-image" "other-cache-image"
           TestEnv.world0 (snd TestEnv.run_twins_ab)
           TestEnv.world0 (snd TestEnv.run_twins_ba)
           twins_ab_returns twins_ba_returns
           run_twins_ab_succeeds run_twins_ba_succeeds).
Defined.

End CommandRuns.

(** *** [build_result] on builds of the test that meet a failure *)

(** The image refuses the second layer: the turn of the second asset
    fails at the attachment, after its file was written. *)
Lemma build_result_refused_layer :
  @build_result TestEnv.E_refusing TestEnv.opts TestEnv.world0 = Panic "layer refused".
Proof. vm_compute. reflexivity. Qed.

(** The image factory refuses: the error is returned, wrapped. *)
Lemma build_result_refused_image :
  @build_result TestEnv.E_no_image TestEnv.opts TestEnv.world0
  = Return (Some ("unable to create asset cache image: "
                  +:+ TestEnv.quoted "cannot connect to the daemon")).
Proof. vm_compute. reflexivity. Qed.

(** A hash too long for a USTAR header: the turn fails at the header of
    the file entry. *)
Lemma build_result_long_hash :
  @build_result TestEnv.E
     {| ImageName := "test-cache-image";
        Assets := [ {| dist.ID := "first-asset"; dist.Name := "First Asset";
                       dist.Version := "1.2.3"; dist.Sha256 := TestEnv.long_hash;
                       dist.URI := "https://first-asset-uri";
                       dist.Stacks := []; dist.LayerDiffID := "" |} ] |}
     TestEnv.world0
  = Panic ("writing buildpack version dir header: "
           +:+ "archive/tar: header outside the USTAR case").
Proof. vm_compute. reflexivity. Qed.
